(** * Excelify: the collapsible-table renderer and the aggregate formula builder

    A shallow embedding of [Excel.py]: the registry [AGG_CONVERSION],
    [Helper._format_string], [Table._convert], the registration methods of
    [CollapsibleTable] and [ExcelWriter.add_collapsible_table] with its nested
    functions [_write_total_formula], [write_line] and
    [_recursive_data_looper].

    Python objects that are mutated in place (the table object, the filter
    dict of the recursion, the worksheet) are threaded as explicit state; an
    exception is a [Raise] result that carries the state reached so far.
    Strings are byte strings; [upper] and [lower] act on ASCII letters. *)

From Stdlib Require Import ZArith Ascii String List Bool Lia.
From Stdlib Require Import DecimalString.
From stdpp Require Import base option list strings gmap.

Import ListNotations.
Local Open Scope Z_scope.

(** ** Python values and exceptions *)

(** A DataFrame cell, a dict key or a value handed to the worksheet. *)
Inductive value : Type :=
| VStr (s : string)
| VInt (z : Z).

#[global] Instance value_eq_dec : EqDecision value.
Proof. solve_decision. Defined.

(** An argument that is [None], a [str], a [list] of [str], or the empty
    [defaultdict] that [makehash] materialises on a missing key. *)
Inductive pyarg : Type :=
| PNone
| PStr (s : string)
| PList (l : list string)
| PHash.

#[global] Instance pyarg_eq_dec : EqDecision pyarg.
Proof. solve_decision. Defined.

(** Python exceptions with their first argument. [FuelExhausted] is not a
    Python exception: it marks a recursion of the model that was given too
    little fuel, and the callers below always give enough. *)
Inductive exn : Type :=
| ValueError (msg : string)
| TypeError (msg : string)
| KeyError (msg : string)
| IndexError
| NameError (msg : string)
| AttributeError (msg : string)
| Exception (msg : string)
| FuelExhausted.

#[global] Instance exn_eq_dec : EqDecision exn.
Proof. solve_decision. Defined.

Inductive result (A : Type) : Type :=
| Ok (a : A)
| Raise (e : exn).
Arguments Ok {A} a.
Arguments Raise {A} e.

(** ** Python string primitives *)

Module Py.

Definition backtick : ascii := "`"%char.
Definition quote : ascii := "'"%char.
Definition dquote : ascii := Ascii.ascii_of_nat 34.
Definition backslash : ascii := "\"%char.

(** [s.split(sep)] for a one-character separator: one more part than
    there are separators, empty parts kept. *)
Fixpoint split (sep : ascii) (s : string) : list string :=
  match s with
  | EmptyString => [EmptyString]
  | String c rest =>
      if Ascii.eqb c sep then EmptyString :: split sep rest
      else match split sep rest with
           | p :: ps => String c p :: ps
           | [] => [String c EmptyString]
           end
  end.

Definition upper_char (c : ascii) : ascii :=
  let n := Ascii.nat_of_ascii c in
  if ((97 <=? n) && (n <=? 122))%nat then Ascii.ascii_of_nat (n - 32) else c.

Definition lower_char (c : ascii) : ascii :=
  let n := Ascii.nat_of_ascii c in
  if ((65 <=? n) && (n <=? 90))%nat then Ascii.ascii_of_nat (n + 32) else c.

Fixpoint map_string (f : ascii -> ascii) (s : string) : string :=
  match s with
  | EmptyString => EmptyString
  | String c rest => String (f c) (map_string f rest)
  end.

(** [s.upper()] and [s.lower()] on ASCII text. The letters a to z and A
    to Z change case and every other byte is kept, which is what Python
    does to a text of ASCII characters. Python also maps letters outside
    ASCII, some of them to ASCII letters, so what is stated about a text
    through [upper] or [lower] is stated for ASCII text: either [isascii]
    is assumed, or the result is compared with an ASCII text that only an
    ASCII text can give. *)
Definition upper : string -> string := map_string upper_char.
Definition lower : string -> string := map_string lower_char.

(** [s.isascii()] *)
Fixpoint isascii (s : string) : bool :=
  match s with
  | EmptyString => true
  | String c rest => (Ascii.nat_of_ascii c <? 128)%nat && isascii rest
  end.

Fixpoint contains (c : ascii) (s : string) : bool :=
  match s with
  | EmptyString => false
  | String d rest => Ascii.eqb c d || contains c rest
  end.

(** [str(n)] for an [int] *)
Definition str_of_Z (z : Z) : string := NilZero.string_of_int (Z.to_int z).

(** [str(v)], also what an f-string puts for [{v}] *)
Definition str (v : value) : string :=
  match v with
  | VStr s => s
  | VInt z => str_of_Z z
  end.

Definition hex_digit (n : nat) : ascii :=
  if (n <? 10)%nat then Ascii.ascii_of_nat (48 + n) else Ascii.ascii_of_nat (87 + n).

Definition escape_char (q : ascii) (c : ascii) : string :=
  let n := Ascii.nat_of_ascii c in
  if Ascii.eqb c backslash then String backslash (String backslash EmptyString)
  else if Ascii.eqb c q then String backslash (String q EmptyString)
  else if (n =? 10)%nat then String backslash "n"
  else if (n =? 13)%nat then String backslash "r"
  else if (n =? 9)%nat then String backslash "t"
  else if ((n <? 32) || (n =? 127))%nat then
    String backslash (String "x"%char
      (String (hex_digit (n / 16)) (String (hex_digit (n mod 16)) EmptyString)))
  else String c EmptyString.

Fixpoint escape (q : ascii) (s : string) : string :=
  match s with
  | EmptyString => EmptyString
  | String c rest => escape_char q c +:+ escape q rest
  end.

(** [repr(s)] of an ASCII [str]: single quotes, unless the text has a
    single quote and no double quote; backslash, the quote in use and the
    control characters are escaped. Bytes above 127 are kept, where Python
    escapes the characters outside ASCII that cannot be printed: a message
    built with [repr] is stated for ASCII text. *)
Definition repr (s : string) : string :=
  let q := if contains quote s && negb (contains dquote s) then dquote else quote in
  String q (escape q s +:+ String q EmptyString).

End Py.

(** ** The registry of aggregation functions *)

Definition AGG_CONVERSION : list (string * Z) :=
  [ ("AVERAGE", 1); ("COUNT", 2); ("COUNTA", 3); ("MAX", 4); ("MIN", 5);
    ("PRODUCT", 6); ("STDEV.S", 7); ("STDEV.P", 8); ("SUM", 9); ("VAR.S", 10);
    ("VAR.P", 11); ("MEDIAN", 12); ("MODE.SNGL", 13); ("LARGE", 14);
    ("SMALL", 15); ("PERCENTILE.INC", 16); ("QUARTILE.INC", 17);
    ("PERCENTILE.EXC", 18); ("QUARTILE.EXC", 19) ].

(** [d[k]] on a dict given as its item list *)
Fixpoint dict_get {A : Type} (d : list (string * A)) (k : string) : option A :=
  match d with
  | [] => None
  | (k', a) :: rest => if String.eqb k' k then Some a else dict_get rest k
  end.

(** ** Helper._format_string *)

Module Helper.

(** [re.sub(r'[^a-zA-Z0-9]', '', input_string)] *)
Definition is_alnum (c : ascii) : bool :=
  let n := Ascii.nat_of_ascii c in
  ((48 <=? n) && (n <=? 57) || (65 <=? n) && (n <=? 90) || (97 <=? n) && (n <=? 122))%nat.

Fixpoint clean_string (input_string : string) : string :=
  match input_string with
  | EmptyString => EmptyString
  | String c rest =>
      if is_alnum c then String c (clean_string rest) else clean_string rest
  end.

(** The parts of [input_str.split('`')] are walked left to right; [p] is
    the text that follows an opening backtick. The pattern needs at least
    one character and a closing backtick, otherwise the backtick is
    ordinary text and the next one may open a match. *)
Fixpoint replace_from (parts : list string) : string :=
  match parts with
  | [] => EmptyString
  | [p] => String Py.backtick p
  | p :: ((q :: rest') as rest) =>
      match p with
      | EmptyString => String Py.backtick (replace_from rest)
      | _ => "row['" +:+ p +:+ "']" +:+ q +:+ replace_from rest'
      end
  end.

Definition _format_string (input_str : string) : string :=
  match Py.split Py.backtick input_str with
  | [] => EmptyString
  | p :: rest => p +:+ replace_from rest
  end.

End Helper.

(** ** Table._convert *)

Inductive agg_arg : Type :=
| AggStr (name : string)
| AggList (names : list string)
| AggOther.

Definition count_mismatch_msg : string :=
  "Number of non-empty strings between backticks must be equal to the length of the aggregation functions list.".

(** The [KeyError] raised inside the loop is caught and raised again with
    the message [f'no {key_error} aggregation function']; [str] of a
    [KeyError] is the [repr] of its key. *)
Definition no_agg_msg (key : string) : string :=
  "no " +:+ Py.repr key +:+ " aggregation function".

Definition nonempty (s : string) : bool :=
  match s with EmptyString => false | _ => true end.

Definition aggregate_call (code : Z) (table_name part : string) : string :=
  "_xlfn.AGGREGATE(" +:+ Py.str_of_Z code +:+ ", 5, " +:+ table_name +:+ "[" +:+ part +:+ "])".

(** The body of [for i, part in enumerate(parts)], from index [i] on. *)
Fixpoint convert_loop (table_name : string) (aggregation_functions : agg_arg)
    (i : nat) (parts : list string) (acc : string) : result string :=
  match parts with
  | [] => Ok acc
  | part :: rest =>
      if Nat.even i then
        convert_loop table_name aggregation_functions (S i) rest (acc +:+ part)
      else
        match aggregation_functions with
        | AggList names =>
            match names !! (i / 2)%nat with
            | None => Raise IndexError
            | Some name =>
                match dict_get AGG_CONVERSION (Py.upper name) with
                | None => Raise (KeyError (no_agg_msg (Py.upper name)))
                | Some code =>
                    convert_loop table_name aggregation_functions (S i) rest
                      (acc +:+ aggregate_call code table_name part)
                end
            end
        | AggStr name =>
            match dict_get AGG_CONVERSION (Py.upper name) with
            | None => Raise (KeyError (no_agg_msg (Py.upper name)))
            | Some code =>
                convert_loop table_name aggregation_functions (S i) rest
                  (acc +:+ aggregate_call code table_name part)
            end
        | AggOther => convert_loop table_name aggregation_functions (S i) rest acc
        end
  end.

Definition _convert (base_string table_name : string)
    (aggregation_functions : agg_arg) : result string :=
  let parts := Py.split Py.backtick base_string in
  let check :=
    match aggregation_functions with
    | AggList names =>
        if negb (Z.of_nat (length (List.filter nonempty parts)) - 1
                 =? Z.of_nat (length names))
        then Some (ValueError count_mismatch_msg) else None
    | AggStr _ => None
    | AggOther => Some (TypeError "aggregation function must be of type list or str")
    end in
  match check with
  | Some e => Raise e
  | None =>
      match convert_loop table_name aggregation_functions 0 parts "=(" with
      | Ok r => Ok (r +:+ ")")
      | Raise e => Raise e
      end
  end.

(** The column names of a template: the parts at odd indices of
    [base_string.split('`')], which the loop of [_convert] wraps in an
    aggregate call. *)
Fixpoint odd_parts (parts : list string) : list string :=
  match parts with
  | _ :: p :: rest => p :: odd_parts rest
  | _ => []
  end.

Definition placeholders (base_string : string) : list string :=
  odd_parts (Py.split Py.backtick base_string).

Definition known_function (name : string) : Prop :=
  is_Some (dict_get AGG_CONVERSION (Py.upper name)).

(** The count test of [_convert], as the source computes it. *)
Definition count_test (base_string : string) (names : list string) : bool :=
  Z.of_nat (length (List.filter nonempty (Py.split Py.backtick base_string))) - 1
  =? Z.of_nat (length names).


(** ** Lists, tuples and dicts *)

(** [l.index(x)]: the first position of [x] *)
Fixpoint index_of (x : string) (l : list string) : option nat :=
  match l with
  | [] => None
  | y :: rest => if String.eqb y x then Some 0%nat else S <$> index_of x rest
  end.

(** [l[i]] with Python's negative indices *)
Definition py_nth {A : Type} (l : list A) (i : Z) : option A :=
  if i <? 0 then
    if - i <=? Z.of_nat (length l) then l !! Z.to_nat (Z.of_nat (length l) + i) else None
  else l !! Z.to_nat i.

(** A dict with string keys, in insertion order. *)
Abbreviation pydict A := (list (string * A)) (only parsing).

(** [d[k] = v]: an existing key keeps its place *)
Fixpoint dict_set {A : Type} (d : pydict A) (k : string) (v : A) : pydict A :=
  match d with
  | [] => [(k, v)]
  | (k', a) :: rest => if String.eqb k' k then (k, v) :: rest else (k', a) :: dict_set rest k v
  end.

(** [d.pop(k)]: [None] stands for the [KeyError] of a missing key *)
Fixpoint dict_pop {A : Type} (d : pydict A) (k : string) : option (pydict A) :=
  match d with
  | [] => None
  | (k', a) :: rest =>
      if String.eqb k' k then Some rest else cons (k', a) <$> dict_pop rest k
  end.

(** [m[value]] on a mapping whose keys are cell values *)
Fixpoint mapping_get (m : list (value * string)) (v : value) : option string :=
  match m with
  | [] => None
  | (v', url) :: rest => if bool_decide (v' = v) then Some url else mapping_get rest v
  end.

(** [m[value] = url] *)
Fixpoint mapping_set (m : list (value * string)) (v : value) (url : string)
    : list (value * string) :=
  match m with
  | [] => [(v, url)]
  | (v', u) :: rest =>
      if bool_decide (v' = v) then (v, url) :: rest else (v', u) :: mapping_set rest v url
  end.

(** ** DataFrames *)

Record DataFrame : Type := {
  columns : list string;
  rows : list (list value)
}.

(** [df[col].iloc[0]]: [None] stands for the [KeyError] of a missing column
    or the [IndexError] of a frame without rows. *)
Definition first_value (df : DataFrame) (col : string) : option value :=
  i ← index_of col (columns df);
  line ← head (rows df);
  line !! i.

(** The literal that the query text [`key` == 'value'] compares a column
    with: the [str] of the ancestor's value between quotes, a string. *)
Definition query_literal (v : value) : value := VStr (Py.str v).

(** One comparison [`key` == 'value'] on one row; [None] when the frame has
    no column [key]. *)
Definition query_term (header_ : list string) (line : list value) (kv : string * value)
    : option bool :=
  i ← index_of kv.1 header_;
  Some (bool_decide (line !! i = Some (query_literal kv.2))).

Definition matches (header_ : list string) (filter_ : pydict value) (line : list value) : bool :=
  forallb (fun kv => default false (query_term header_ line kv)) filter_.

(** [df.copy().query(' and '.join(query_params))] for the parameters
    [`key` == 'value'] built from the items of [filter], where the text of
    the query means what it shows: every key is a name of letters, digits
    and spaces and a column of the frame, and the [str] of every value
    holds no quote, backslash or backtick. There the rows whose cells equal
    the quoted texts are kept, in order. Elsewhere the code hands pandas
    another expression than this comparison (a quote in a value ends the
    literal, a backslash starts an escape, a key that is no column has the
    error of pandas), and the definition does not follow it: what is stated
    about the rows of a level is stated for data that is [text_keyed]. *)
Definition query (df : DataFrame) (filter_ : pydict value) : result DataFrame :=
  match List.find (fun kv => negb (bool_decide (is_Some (index_of kv.1 (columns df))))) filter_ with
  | Some kv => Raise (NameError kv.1)
  | None => Ok {| columns := columns df;
                  rows := List.filter (matches (columns df) filter_) (rows df) |}
  end.

(** ** The table object *)

Inductive total_row_setting : Type :=
| TotalStr (s : string)
| TotalInt (z : Z).

Inductive freeze : Type :=
| FreezeInt (z : Z)
| FreezeTuple (r c : Z).

(** A value of [data_validation_extras] or of [data_validation]. *)
Inductive dvparam : Type :=
| DVStr (s : string)
| DVNum (z : Z)
| DVList (l : list value).

(** An entry [data_properties[level]]: only its key ['hidden'] is read;
    [None] when the key is missing or holds [None]. *)
Record props : Type := { hidden : option bool }.

Record CollapsibleTable : Type := {
  title : option string;
  data : list (string * DataFrame);
  start_col : Z;
  title_row : option Z;
  header_row : option Z;
  data_row : Z;
  start_row : Z;
  header : list string;
  end_col : Z;
  freeze_panes : option freeze;
  hidden_columns : option (list string);
  title_align : string;
  total_row : total_row_setting;
  formats : gmap string (gmap string pyarg);
  conditions : gmap string (gmap string pyarg);
  total_formats : gmap string pyarg;
  total_conditions : gmap string pyarg;
  links : gmap string (gmap string (list (value * string)));
  data_validation : gmap string (gmap string dvparam);
  data_validation_condition : gmap string (gmap string pyarg);
  data_validation_extras : gmap string (gmap string (list (string * option dvparam)));
  header_comments : gmap string string;
  levels : list string;
  data_properties : option (gmap string props);
  total_row_values : option DataFrame;
  worksheet : option string
}.

(** Attribute assignment [table.f = x], one function per attribute that the
    modelled methods assign. *)
Definition set_title_row (x : option Z) (t : CollapsibleTable) : CollapsibleTable :=
  Build_CollapsibleTable (title t) (data t) (start_col t) x (header_row t) (data_row t)
    (start_row t) (header t) (end_col t) (freeze_panes t) (hidden_columns t)
    (title_align t) (total_row t) (formats t) (conditions t) (total_formats t)
    (total_conditions t) (links t) (data_validation t) (data_validation_condition t)
    (data_validation_extras t) (header_comments t) (levels t) (data_properties t)
    (total_row_values t) (worksheet t).

Definition set_header_row (x : option Z) (t : CollapsibleTable) : CollapsibleTable :=
  Build_CollapsibleTable (title t) (data t) (start_col t) (title_row t) x (data_row t)
    (start_row t) (header t) (end_col t) (freeze_panes t) (hidden_columns t)
    (title_align t) (total_row t) (formats t) (conditions t) (total_formats t)
    (total_conditions t) (links t) (data_validation t) (data_validation_condition t)
    (data_validation_extras t) (header_comments t) (levels t) (data_properties t)
    (total_row_values t) (worksheet t).

Definition set_data_row (x : Z) (t : CollapsibleTable) : CollapsibleTable :=
  Build_CollapsibleTable (title t) (data t) (start_col t) (title_row t) (header_row t) x
    (start_row t) (header t) (end_col t) (freeze_panes t) (hidden_columns t)
    (title_align t) (total_row t) (formats t) (conditions t) (total_formats t)
    (total_conditions t) (links t) (data_validation t) (data_validation_condition t)
    (data_validation_extras t) (header_comments t) (levels t) (data_properties t)
    (total_row_values t) (worksheet t).

Definition set_total_row (x : total_row_setting) (t : CollapsibleTable) : CollapsibleTable :=
  Build_CollapsibleTable (title t) (data t) (start_col t) (title_row t) (header_row t)
    (data_row t) (start_row t) (header t) (end_col t) (freeze_panes t) (hidden_columns
    t) (title_align t) x (formats t) (conditions t) (total_formats t) (total_conditions
    t) (links t) (data_validation t) (data_validation_condition t)
    (data_validation_extras t) (header_comments t) (levels t) (data_properties t)
    (total_row_values t) (worksheet t).

Definition set_formats (x : gmap string (gmap string pyarg)) (t : CollapsibleTable) : CollapsibleTable :=
  Build_CollapsibleTable (title t) (data t) (start_col t) (title_row t) (header_row t)
    (data_row t) (start_row t) (header t) (end_col t) (freeze_panes t) (hidden_columns
    t) (title_align t) (total_row t) x (conditions t) (total_formats t)
    (total_conditions t) (links t) (data_validation t) (data_validation_condition t)
    (data_validation_extras t) (header_comments t) (levels t) (data_properties t)
    (total_row_values t) (worksheet t).

Definition set_conditions (x : gmap string (gmap string pyarg)) (t : CollapsibleTable) : CollapsibleTable :=
  Build_CollapsibleTable (title t) (data t) (start_col t) (title_row t) (header_row t)
    (data_row t) (start_row t) (header t) (end_col t) (freeze_panes t) (hidden_columns
    t) (title_align t) (total_row t) (formats t) x (total_formats t) (total_conditions
    t) (links t) (data_validation t) (data_validation_condition t)
    (data_validation_extras t) (header_comments t) (levels t) (data_properties t)
    (total_row_values t) (worksheet t).

Definition set_total_formats (x : gmap string pyarg) (t : CollapsibleTable) : CollapsibleTable :=
  Build_CollapsibleTable (title t) (data t) (start_col t) (title_row t) (header_row t)
    (data_row t) (start_row t) (header t) (end_col t) (freeze_panes t) (hidden_columns
    t) (title_align t) (total_row t) (formats t) (conditions t) x (total_conditions t)
    (links t) (data_validation t) (data_validation_condition t) (data_validation_extras
    t) (header_comments t) (levels t) (data_properties t) (total_row_values t)
    (worksheet t).

Definition set_total_conditions (x : gmap string pyarg) (t : CollapsibleTable) : CollapsibleTable :=
  Build_CollapsibleTable (title t) (data t) (start_col t) (title_row t) (header_row t)
    (data_row t) (start_row t) (header t) (end_col t) (freeze_panes t) (hidden_columns
    t) (title_align t) (total_row t) (formats t) (conditions t) (total_formats t) x
    (links t) (data_validation t) (data_validation_condition t) (data_validation_extras
    t) (header_comments t) (levels t) (data_properties t) (total_row_values t)
    (worksheet t).

Definition set_links (x : gmap string (gmap string (list (value * string)))) (t : CollapsibleTable) : CollapsibleTable :=
  Build_CollapsibleTable (title t) (data t) (start_col t) (title_row t) (header_row t)
    (data_row t) (start_row t) (header t) (end_col t) (freeze_panes t) (hidden_columns
    t) (title_align t) (total_row t) (formats t) (conditions t) (total_formats t)
    (total_conditions t) x (data_validation t) (data_validation_condition t)
    (data_validation_extras t) (header_comments t) (levels t) (data_properties t)
    (total_row_values t) (worksheet t).

Definition set_data_validation (x : gmap string (gmap string dvparam)) (t : CollapsibleTable) : CollapsibleTable :=
  Build_CollapsibleTable (title t) (data t) (start_col t) (title_row t) (header_row t)
    (data_row t) (start_row t) (header t) (end_col t) (freeze_panes t) (hidden_columns
    t) (title_align t) (total_row t) (formats t) (conditions t) (total_formats t)
    (total_conditions t) (links t) x (data_validation_condition t)
    (data_validation_extras t) (header_comments t) (levels t) (data_properties t)
    (total_row_values t) (worksheet t).

Definition set_data_validation_condition (x : gmap string (gmap string pyarg)) (t : CollapsibleTable) : CollapsibleTable :=
  Build_CollapsibleTable (title t) (data t) (start_col t) (title_row t) (header_row t)
    (data_row t) (start_row t) (header t) (end_col t) (freeze_panes t) (hidden_columns
    t) (title_align t) (total_row t) (formats t) (conditions t) (total_formats t)
    (total_conditions t) (links t) (data_validation t) x (data_validation_extras t)
    (header_comments t) (levels t) (data_properties t) (total_row_values t) (worksheet
    t).

Definition set_data_validation_extras (x : gmap string (gmap string (list (string * option dvparam)))) (t : CollapsibleTable) : CollapsibleTable :=
  Build_CollapsibleTable (title t) (data t) (start_col t) (title_row t) (header_row t)
    (data_row t) (start_row t) (header t) (end_col t) (freeze_panes t) (hidden_columns
    t) (title_align t) (total_row t) (formats t) (conditions t) (total_formats t)
    (total_conditions t) (links t) (data_validation t) (data_validation_condition t) x
    (header_comments t) (levels t) (data_properties t) (total_row_values t) (worksheet
    t).

Definition set_total_row_values (x : option DataFrame) (t : CollapsibleTable) : CollapsibleTable :=
  Build_CollapsibleTable (title t) (data t) (start_col t) (title_row t) (header_row t)
    (data_row t) (start_row t) (header t) (end_col t) (freeze_panes t) (hidden_columns
    t) (title_align t) (total_row t) (formats t) (conditions t) (total_formats t)
    (total_conditions t) (links t) (data_validation t) (data_validation_condition t)
    (data_validation_extras t) (header_comments t) (levels t) (data_properties t) x
    (worksheet t).

Definition set_worksheet (x : option string) (t : CollapsibleTable) : CollapsibleTable :=
  Build_CollapsibleTable (title t) (data t) (start_col t) (title_row t) (header_row t)
    (data_row t) (start_row t) (header t) (end_col t) (freeze_panes t) (hidden_columns
    t) (title_align t) (total_row t) (formats t) (conditions t) (total_formats t)
    (total_conditions t) (links t) (data_validation t) (data_validation_condition t)
    (data_validation_extras t) (header_comments t) (levels t) (data_properties t)
    (total_row_values t) x.

Definition set_hidden_columns (x : option (list string)) (t : CollapsibleTable) : CollapsibleTable :=
  Build_CollapsibleTable (title t) (data t) (start_col t) (title_row t) (header_row t)
    (data_row t) (start_row t) (header t) (end_col t) (freeze_panes t) x (title_align t)
    (total_row t) (formats t) (conditions t) (total_formats t) (total_conditions t)
    (links t) (data_validation t) (data_validation_condition t) (data_validation_extras
    t) (header_comments t) (levels t) (data_properties t) (total_row_values t)
    (worksheet t).
(** ** The worksheet *)

(** The calls made on the worksheet object, and the calls of [eval]. A
    [cell_format] is the name that [_get_excel_format] resolved, [None] when
    the call passes no format or the name is not in the catalogue. *)
Inductive event : Type :=
| write (row col : Z) (v : value) (cell_format : option string)
| write_url (row col : Z) (url : string) (text : string)
| write_comment (row col : Z) (comment : string)
| data_validation_call (first_row first_col last_row last_col : Z)
    (options : list (string * dvparam))
| set_row (row : Z) (level : nat) (hidden_ : bool)
| set_column (first_col last_col : Z) (hidden_ : bool)
| freeze_panes_call (row col : Z)
| merge_range (first_col last_col a1_row : Z) (text : string)
    (cell_format : option string)
| autofilter (first_row first_col last_row last_col : Z)
| eval_call (expression : string).

#[global] Instance dvparam_eq_dec : EqDecision dvparam.
Proof. solve_decision. Defined.

#[global] Instance event_eq_dec : EqDecision event.
Proof. solve_decision. Defined.

(** The names that [ExcelWriter._get_excel_format] knows. *)
Definition format_catalogue : list string :=
  [ "Bold"; "BoldWrapped"; "MergeCenter"; "MergeLeft"; "MergeRight"; "BoldNum"; "Num";
    "TwoDecimalNum"; "Link"; "TwoDecimalNumBold"; "PercentBold"; "Percent";
    "OrangePercent"; "RedPercent"; "Blank"; "RedBackground"; "GreenBackground";
    "YellowBackground"; "DateFormat"; "AccountingNoSign"; "AccountingNoSignBold";
    "AccountingNoSignGreen"; "AccountingNoSignRed"; "Accounting"; "AccountingBold";
    "AccountingGreen"; "AccountingRed"; "Datetime"; "DatetimeBold"; "Date"; "DateBold";
    "Time"; "TimeBold" ].

(** [self._get_excel_format(format)]: a chain of comparisons with the
    catalogue names that falls through to [None]. *)
Definition _get_excel_format (format : pyarg) : option string :=
  match format with
  | PStr s => if existsb (String.eqb s) format_catalogue then Some s else None
  | _ => None
  end.

(** [x[index]] on a registered format or condition: an element of a list, a
    character of a string, a fresh empty dict of a [defaultdict]. *)
Definition subscript (x : pyarg) (index : nat) : result pyarg :=
  match x with
  | PList l => match l !! index with Some s => Ok (PStr s) | None => Raise IndexError end
  | PStr s =>
      match String.get index s with
      | Some c => Ok (PStr (String c EmptyString))
      | None => Raise IndexError
      end
  | PHash => Ok PHash
  | PNone => Raise (TypeError "'NoneType' object is not subscriptable")
  end.

(** ** Execution state *)

(** The table object and the worksheet calls made so far, oldest first. *)
Record world : Type := {
  table : CollapsibleTable;
  calls : list event
}.

(** A computation that may raise; the state it reached is kept. *)
Definition M (A : Type) : Type := world -> result A * world.

Definition ret {A : Type} (a : A) : M A := fun w => (Ok a, w).

Definition bind {A B : Type} (m : M A) (f : A -> M B) : M B := fun w =>
  match m w with
  | (Ok a, w') => f a w'
  | (Raise e, w') => (Raise e, w')
  end.

Declare Scope py_scope.
Delimit Scope py_scope with py.
Notation "x ← y ; z" := (bind y (fun x => z))
  (at level 20, y at level 100, z at level 200, only parsing) : py_scope.
Notation "y ;; z" := (bind y (fun _ => z))
  (at level 100, z at level 200, only parsing, right associativity) : py_scope.

Definition raise {A : Type} (e : exn) : M A := fun w => (Raise e, w).

Definition get_table : M CollapsibleTable := fun w => (Ok (table w), w).

Definition modify_table (f : CollapsibleTable -> CollapsibleTable) : M unit :=
  fun w => (Ok tt, {| table := f (table w); calls := calls w |}).

Definition emit (e : event) : M unit :=
  fun w => (Ok tt, {| table := table w; calls := calls w ++ [e] |}).

Definition lift {A : Type} (r : result A) : M A := fun w => (r, w).

Definition or_raise {A : Type} (o : option A) (e : exn) : M A :=
  match o with Some a => ret a | None => raise e end.

(** [for x in l: body] *)
Fixpoint for_each {A : Type} (l : list A) (body : A -> M unit) : M unit :=
  match l with
  | [] => ret tt
  | x :: rest => (body x ;; for_each rest body)%py
  end.

(** [for x in l: body], with a local variable that the body assigns *)
Fixpoint for_fold {A B : Type} (l : list A) (acc : B) (body : A -> B -> M B) : M B :=
  match l with
  | [] => ret acc
  | x :: rest => (acc' ← body x acc; for_fold rest acc' body)%py
  end.

(** Reading [d[k1]] and [d[k1][k2]] on a two-level [makehash] dict
    materialises the missing entries. *)
Definition getitem1 {A : Type} (d : gmap string (gmap string A)) (k1 : string)
    : gmap string A * gmap string (gmap string A) :=
  match d !! k1 with
  | Some inner => (inner, d)
  | None => (∅, <[k1 := ∅]> d)
  end.

Definition getitem2 {A : Type} (fresh : A) (d : gmap string (gmap string A)) (k1 k2 : string)
    : A * gmap string (gmap string A) :=
  let inner := default ∅ (d !! k1) in
  match inner !! k2 with
  | Some a => (a, snd (getitem1 d k1))
  | None => (fresh, <[k1 := <[k2 := fresh]> inner]> d)
  end.

Definition has_key {A : Type} (d : gmap string A) (k : string) : bool :=
  bool_decide (is_Some (d !! k)).

(** ** Registration methods of [CollapsibleTable] *)

(** What a registration call leaves behind: how it ended, the table object
    and the lines it printed. *)
Record outcome : Type := {
  ended : result unit;
  object : CollapsibleTable;
  printed : list string
}.

Definition is_list (x : pyarg) : bool := match x with PList _ => true | _ => false end.
Definition is_str (x : pyarg) : bool := match x with PStr _ => true | _ => false end.
Definition len (x : pyarg) : nat := match x with PList l => length l | _ => 0%nat end.

(** The test that guards [raise Exception('format and condition must be parallel')]. *)
Definition not_parallel (format condition : pyarg) : bool :=
  (is_list format && is_list condition && negb (len format =? len condition)%nat)
  || (is_list format && is_str condition)
  || (is_str format && is_list condition).

(** [d[k1][k2] = x] on a two-level [makehash] dict *)
Definition setitem2 {A : Type} (d : gmap string (gmap string A)) (k1 k2 : string) (x : A)
    : gmap string (gmap string A) :=
  <[k1 := <[k2 := x]> (default ∅ (d !! k1))]> d.

Definition register_format (level col : string) (format condition : pyarg)
    (t : CollapsibleTable) : CollapsibleTable :=
  let t1 := set_formats (setitem2 (formats t) level col format) t in
  set_conditions (setitem2 (conditions t1) level col condition) t1.

Module CollapsibleTable_methods.

(** The body of the [try] block of [add_column_formats]; an exception
    leaves the object as it was when it was raised. *)
Definition add_column_formats_body (levels_ columns_ format condition : pyarg)
    (t : CollapsibleTable) : result unit * CollapsibleTable :=
  if not_parallel format condition then
    (Raise (Exception "format and condition must be parallel"), t)
  else
    match columns_ with
    | PList cols =>
        match levels_ with
        | PStr level =>
            (Ok tt, foldl (fun t col => register_format level col format condition t) t cols)
        | PList lvls =>
            (Ok tt, foldl (fun t level =>
                      foldl (fun t col => register_format level col format condition t) t cols)
                    t lvls)
        | _ => (Ok tt, t)
        end
    | PStr column =>
        match levels_ with
        | PStr level => (Ok tt, register_format level column format condition t)
        | PList [] => (Ok tt, t)
        | PList (level :: _) =>
            (* [self.formats[level][col] = format] with [col] unbound:
               [self.formats[level]] is read first *)
            (Raise (NameError "col"), set_formats (snd (getitem1 (formats t) level)) t)
        | _ => (Ok tt, t)
        end
    | _ =>
        (Raise (Exception "columns parameter must be a column name or list of column names"), t)
    end.

(** [add_column_formats]: the [try] block, then [except KeyError] which
    raises again, then the bare [except] which prints ['error'] and lets
    the call return. *)
Definition add_column_formats (levels_ columns_ format condition : pyarg)
    (t : CollapsibleTable) : outcome :=
  match add_column_formats_body levels_ columns_ format condition t with
  | (Ok _, t') => {| ended := Ok tt; object := t'; printed := [] |}
  | (Raise (KeyError key), t') =>
      {| ended := Raise (KeyError ("No sheet named " +:+ Py.repr key)); object := t'; printed := [] |}
  | (Raise _, t') => {| ended := Ok tt; object := t'; printed := ["error"] |}
  end.

Definition add_total_formats_body (columns_ format condition : pyarg)
    (t : CollapsibleTable) : result unit * CollapsibleTable :=
  let register col t :=
    set_total_conditions (<[col := condition]> (total_conditions t))
      (set_total_formats (<[col := format]> (total_formats t)) t) in
  if not_parallel format condition then
    (Raise (Exception "format and condition must be parallel"), t)
  else
    match columns_ with
    | PList cols => (Ok tt, foldl (fun t col => register col t) t cols)
    | PStr column => (Ok tt, register column t)
    | _ =>
        (Raise (Exception "columns parameter must be a column name or list of column names"), t)
    end.

Definition add_total_formats (columns_ format condition : pyarg)
    (t : CollapsibleTable) : outcome :=
  match add_total_formats_body columns_ format condition t with
  | (Ok _, t') => {| ended := Ok tt; object := t'; printed := [] |}
  | (Raise (KeyError key), t') =>
      {| ended := Raise (KeyError ("No sheet named " +:+ Py.repr key)); object := t'; printed := [] |}
  | (Raise _, t') => {| ended := Ok tt; object := t'; printed := ["error"] |}
  end.

(** [add_total]: the two [print] calls are left out. *)
Definition add_total (line : DataFrame) (t : CollapsibleTable) : result unit * CollapsibleTable :=
  if (1 <? length (rows line))%nat then (Raise (Exception "Total must be of length 1"), t)
  else (Ok tt, set_total_row_values (Some line) t).

(** [self.links[level][column] = makehash()], then one assignment per key
    of [link_mapping]. *)
Definition add_links (level column : string) (link_mapping : list (value * string))
    (t : CollapsibleTable) : CollapsibleTable :=
  let t1 := set_links (setitem2 (links t) level column []) t in
  foldl (fun t kv =>
           let m := default [] (default ∅ (links t !! level) !! column) in
           set_links (setitem2 (links t) level column (mapping_set m kv.1 kv.2)) t)
        t1 link_mapping.

(** [add_data_validation], with the arguments that have defaults passed
    as the dict of extras that the method builds from them. *)
Definition add_data_validation (column level : string) (dropdown_values : dvparam)
    (condition : pyarg) (extras : list (string * option dvparam))
    (t : CollapsibleTable) : CollapsibleTable :=
  let t1 := set_data_validation (setitem2 (data_validation t) level column dropdown_values) t in
  let t2 := set_data_validation_condition
              (setitem2 (data_validation_condition t1) level column condition) t1 in
  set_data_validation_extras (setitem2 (data_validation_extras t2) level column extras) t2.

(** The dict that [add_data_validation] stores when only [dropdown_values]
    and [condition] are given. *)
Definition default_extras (dropdown_values : dvparam) : list (string * option dvparam) :=
  [ ("validate", Some (DVStr "list")); ("value", Some dropdown_values);
    ("criteria", None); ("minimum", None); ("maximum", None);
    ("input_title", None); ("input_message", None); ("error_title", None);
    ("error_message", None); ("error_type", Some (DVStr "information")) ].

(** [hide_columns]: the first call stores a list, the later ones extend
    it; an argument that is neither a [str] nor a [list] changes nothing. *)
Definition hide_columns (columns_ : pyarg) (t : CollapsibleTable) : CollapsibleTable :=
  match hidden_columns t with
  | None =>
      match columns_ with
      | PStr column => set_hidden_columns (Some [column]) t
      | PList cols => set_hidden_columns (Some cols) t
      | _ => t
      end
  | Some hidden_ =>
      match columns_ with
      | PStr column => set_hidden_columns (Some (hidden_ ++ [column])) t
      | PList cols => set_hidden_columns (Some (hidden_ ++ cols)) t
      | _ => t
      end
  end.

(** [CollapsibleTable.__init__] *)
Definition init (header_ : list string) (data_ : list (string * DataFrame))
    (title_ : option string) (data_properties_ : option (gmap string props))
    (start_col_ : Z) (title_row_ header_row_ : option Z) (data_row_ : Z)
    (total_row_ : string) (freeze_panes_ : option freeze) (title_align_ : string)
    (header_comments_ : gmap string string) : CollapsibleTable :=
  {| title := title_; data := data_; start_col := start_col_; title_row := title_row_;
     header_row := header_row_; data_row := data_row_; start_row := data_row_ + 1;
     header := header_; end_col := Z.of_nat (length header_) - 1 + start_col_;
     freeze_panes := freeze_panes_; hidden_columns := None; title_align := title_align_;
     total_row := TotalStr total_row_; formats := ∅; conditions := ∅;
     total_formats := ∅; total_conditions := ∅; links := ∅; data_validation := ∅;
     data_validation_condition := ∅; data_validation_extras := ∅;
     header_comments := header_comments_; levels := data_.*1;
     data_properties := data_properties_; total_row_values := None; worksheet := None |}.

End CollapsibleTable_methods.

(** ** ExcelWriter.add_collapsible_table *)

(** The local names that an expression handed to [eval] can see: inside
    [write_line] the arguments and the loop variables, in the total-row loop
    the column and the backticked column name. *)
Inductive scope : Type :=
| line_scope (line_info : list value) (line_header : list string) (level : nat)
    (level_name col : string) (_column_ : value)
| total_scope (col _column_ : string).

Section Render.

Local Open Scope py_scope.

(** Python's [eval] on an expression text in a scope: the truth value of
    the result, or the exception it raises. *)
Variable py_eval : string -> scope -> result bool.

(** [eval(table.helper._format_string(condition))] *)
Definition eval (condition : string) (sc : scope) : M bool :=
  let expression := Helper._format_string condition in
  emit (eval_call expression) ;; lift (py_eval expression sc).

(** Reads of the [makehash] attributes of the table. *)
Definition read1 {A : Type} (attr : CollapsibleTable -> gmap string (gmap string A))
    (assign : gmap string (gmap string A) -> CollapsibleTable -> CollapsibleTable)
    (k1 : string) : M (gmap string A) :=
  t ← get_table;
  modify_table (assign (getitem1 (attr t) k1).2) ;;
  ret (getitem1 (attr t) k1).1.

Definition read2 {A : Type} (fresh : A)
    (attr : CollapsibleTable -> gmap string (gmap string A))
    (assign : gmap string (gmap string A) -> CollapsibleTable -> CollapsibleTable)
    (k1 k2 : string) : M A :=
  t ← get_table;
  modify_table (assign (getitem2 fresh (attr t) k1 k2).2) ;;
  ret (getitem2 fresh (attr t) k1 k2).1.

(** [table.start_col + table.header.index(col)] *)
Definition header_col (col : string) : M Z :=
  t ← get_table;
  i ← or_raise (index_of col (header t)) (ValueError (Py.repr col +:+ " is not in list"));
  ret (start_col t + Z.of_nat i).

(** [line_info[line_header.index(col)]] *)
Definition line_value (line_info : list value) (line_header : list string) (col : string)
    : M value :=
  i ← or_raise (index_of col line_header) (ValueError (Py.repr col +:+ " is not in list"));
  or_raise (line_info !! i) IndexError.

(** [self._get_excel_format(table.formats[level_name][col])], with
    [[index]] after it when an index is given. *)
Definition format_at (level_name col : string) (index : option nat) : M (option string) :=
  f ← read2 PHash formats set_formats level_name col;
  match index with
  | None => ret (_get_excel_format f)
  | Some i => x ← lift (subscript f i); ret (_get_excel_format x)
  end.

(** [worksheet.write(table.data_row, table.start_col + table.header.index(col),
    line_info[line_header.index(col)], cell_format)] *)
Definition write_cell (line_info : list value) (line_header : list string) (col : string)
    (cell_format : M (option string)) : M unit :=
  t ← get_table;
  c ← header_col col;
  v ← line_value line_info line_header col;
  f ← cell_format;
  emit (write (data_row t) c v f).

Definition no_format : M (option string) := ret None.

(** The part of [write_line] under [# Write value]. *)
Definition write_value (line_info : list value) (line_header : list string) (level : nat)
    (level_name col : string) (_column_ : value) : M unit :=
  let sc := line_scope line_info line_header level level_name col _column_ in
  let condition_is (test : pyarg -> bool) : M bool :=
    fl ← read1 formats set_formats level_name;
    if has_key fl col
    then c ← read2 PHash conditions set_conditions level_name col; ret (test c)
    else ret false in
  unconditional ← condition_is (fun c => bool_decide (c = PNone));
  if unconditional then
    write_cell line_info line_header col (format_at level_name col None)
  else
    conditional ← condition_is (fun c => negb (bool_decide (c = PNone)));
    if conditional then
      c ← read2 PHash conditions set_conditions level_name col;
      match c with
      | PStr condition =>
          b ← eval condition sc;
          if b then write_cell line_info line_header col (format_at level_name col None)
          else write_cell line_info line_header col no_format
      | PList conditions_ =>
          written ← for_fold (seq 0 (length conditions_)) false (fun index written =>
            condition ← or_raise (conditions_ !! index) IndexError;
            b ← eval condition sc;
            if b then
              write_cell line_info line_header col (format_at level_name col (Some index)) ;;
              ret true
            else ret written);
          if written then ret tt else write_cell line_info line_header col no_format
      | _ => ret tt
      end
    else write_cell line_info line_header col no_format.

(** The part of [write_line] under [# Write links]. *)
Definition write_links (line_info : list value) (line_header : list string)
    (level_name col : string) : M unit :=
  t ← get_table;
  if has_key (links t) col then
    v ← line_value line_info line_header col;
    m ← read2 [] links set_links level_name col;
    if bool_decide (is_Some (mapping_get m v)) then
      t ← get_table;
      c ← header_col col;
      m ← read2 [] links set_links level_name col;
      v ← line_value line_info line_header col;
      url ← or_raise (mapping_get m v) (KeyError (Py.str v));
      emit (write_url (data_row t) c url (Py.str v))
    else ret tt
  else ret tt.

(** The block that copies the entries of [data_validation_extras] that are
    not [None] and calls [worksheet.data_validation] on the cell. *)
Definition validate_cell (level_name col : string) : M unit :=
  extras ← read2 [] data_validation_extras set_data_validation_extras level_name col;
  t ← get_table;
  c ← header_col col;
  emit (data_validation_call (data_row t) c (data_row t) c
          (omap (fun px => pair px.1 <$> px.2) extras)).

(** The part of [write_line] under [# Write data validation (dropdown)]. *)
Definition write_validation (line_info : list value) (line_header : list string)
    (level : nat) (level_name col : string) (_column_ : value) : M unit :=
  let sc := line_scope line_info line_header level level_name col _column_ in
  let condition_of := read2 PHash data_validation_condition set_data_validation_condition
                        level_name col in
  dv ← read1 data_validation set_data_validation level_name;
  unconditional ←
    (if has_key dv col then c ← condition_of; ret (bool_decide (c = PNone)) else ret false);
  if unconditional then validate_cell level_name col
  else
    t ← get_table;
    conditional ←
      (if has_key (data_validation t) col
       then c ← condition_of; ret (negb (bool_decide (c = PNone))) else ret false);
    if conditional then
      c ← condition_of;
      match c with
      | PStr condition =>
          b ← eval condition sc;
          if b then validate_cell level_name col else ret tt
      | _ => ret tt
      end ;;
      c ← condition_of;
      match c with
      | PList conditions_ =>
          written ← for_fold (seq 0 (length conditions_)) false (fun index written =>
            condition ← or_raise (conditions_ !! index) IndexError;
            b ← eval condition sc;
            if b then validate_cell level_name col ;; ret true else ret written);
          if written then ret tt else write_cell line_info line_header col no_format
      | _ => ret tt
      end
    else ret tt.

(** The [set_row] call that ends the body of the loop over the columns. *)
Definition set_row_properties (level : nat) (level_name : string) : M unit :=
  t ← get_table;
  if negb (level =? 0)%nat then
    match data_properties t with
    | Some properties =>
        match properties !! level_name with
        | Some p =>
            match hidden p with
            | Some h => emit (set_row (data_row t) level h)
            | None => emit (set_row (data_row t) level true)
            end
        | None => emit (set_row (data_row t) level true)
        end
    | None => emit (set_row (data_row t) level true)
    end
  else emit (set_row (data_row t) level false).

Definition write_column (line_info : list value) (line_header : list string) (level : nat)
    (level_name col : string) : M unit :=
  _column_ ← line_value line_info line_header col;
  write_value line_info line_header level level_name col _column_ ;;
  write_links line_info line_header level_name col ;;
  write_validation line_info line_header level level_name col _column_ ;;
  set_row_properties level level_name.

Definition write_line (line_info : list value) (line_header : list string) (level : nat)
    (level_name : string) : M unit :=
  for_each line_header (write_column line_info line_header level level_name) ;;
  modify_table (fun t => set_data_row (data_row t + 1) t).


(** *** The recursion over the levels *)

(** [data_dict[list(data_dict.keys())[position]]] *)
Definition level_frame (data_dict : pydict DataFrame) (position : nat) : result DataFrame :=
  match data_dict.*1 !! position with
  | None => Raise IndexError
  | Some name =>
      match dict_get data_dict name with
      | Some df => Ok df
      | None => Raise (KeyError name)
      end
  end.

(** [while len(filter.keys()) != position:
       filter.pop(list(data_dict.keys())[len(filter.keys()) - 1])] *)
Fixpoint truncate_filter (fuel : nat) (keys : list string) (position : nat)
    (filter_ : pydict value) : result (pydict value) :=
  if (length filter_ =? position)%nat then Ok filter_
  else
    match fuel with
    | O => Raise FuelExhausted
    | S fuel' =>
        match py_nth keys (Z.of_nat (length filter_) - 1) with
        | None => Raise IndexError
        | Some name =>
            match dict_pop filter_ name with
            | None => Raise (KeyError name)
            | Some popped => truncate_filter fuel' keys position popped
            end
        end
    end.

(** The frame whose rows a call at [position] walks: the level's frame,
    queried with the filter when the filter has entries. *)
Definition level_data (data_dict : pydict DataFrame) (position : nat)
    (filter_ : pydict value) : result DataFrame :=
  if (0 <? length filter_)%nat then
    match level_frame data_dict position with
    | Ok df => query df filter_
    | Raise e => Raise e
    end
  else level_frame data_dict position.

(** [filter[keys[position]] = line[data.columns.get_loc(str(keys[position]))]],
    made unless [position] is the last level. *)
Definition descend_filter (keys : list string) (position : nat) (data_ : DataFrame)
    (line : list value) (filter_ : pydict value) : result (pydict value) :=
  if negb (length keys =? position + 1)%nat then
    match keys !! position with
    | None => Raise IndexError
    | Some name =>
        match index_of name (columns data_) with
        | None => Raise (KeyError name)
        | Some i =>
            match line !! i with
            | None => Raise IndexError
            | Some v => Ok (dict_set filter_ name v)
            end
        end
    end
  else Ok filter_.

(** [write_line(line_info=line, line_header=list(data_dict[keys[position]].columns),
    level=position, level_name=str(keys[position]))] *)
Definition write_level_line (data_dict : pydict DataFrame) (position : nat)
    (line : list value) : M unit :=
  df ← lift (level_frame data_dict position);
  name ← or_raise (data_dict.*1 !! position) IndexError;
  write_line line (columns df) position name.

(** [_recursive_data_looper]. The filter dict is one object shared by the
    calls below position 0: a call returns the state in which it leaves
    the object it was given. At position 0 the loop binds a fresh dict for
    every line, so the object given is left as the truncation made it. *)
Fixpoint _recursive_data_looper (fuel : nat) (data_dict : pydict DataFrame) (position : nat)
    (data_ : option DataFrame) (filter_ : option (pydict value)) : M (pydict value) :=
  match fuel with
  | O => raise FuelExhausted
  | S fuel' =>
      let keys := data_dict.*1 in
      let filter0 := default [] filter_ in
      _ ← match data_ with
          | None => lift (level_frame data_dict position)
          | Some d => ret d
          end;
      if (length keys =? position)%nat then
        _ ← or_raise (py_nth keys (Z.of_nat position - 1)) IndexError;
        ret filter0
      else
        filter1 ← lift (truncate_filter (S (length filter0)) keys position filter0);
        data1 ← lift (level_data data_dict position filter1);
        filter2 ← for_fold (rows data1) filter1 (fun line filter_ =>
          let filter_ := if (position =? 0)%nat then [] else filter_ in
          filter_ ← lift (descend_filter keys position data1 line filter_);
          filter_ ← _recursive_data_looper fuel' data_dict (position + 1)
                      (Some data1) (Some filter_);
          write_level_line data_dict position line ;;
          ret filter_);
        ret (if (position =? 0)%nat then filter1 else filter2)
  end.

(** *** The total row *)

(** Reads of the one-level [makehash] attributes. *)
Definition read0 (attr : CollapsibleTable -> gmap string pyarg)
    (assign : gmap string pyarg -> CollapsibleTable -> CollapsibleTable)
    (k : string) : M pyarg :=
  t ← get_table;
  match attr t !! k with
  | Some x => ret x
  | None => modify_table (assign (<[k := PHash]> (attr t))) ;; ret PHash
  end.

(** [_write_total_formula]: whatever is raised inside its [try] is
    dropped by [except: pass], so it writes only when the column is in the
    header and the total record has a first value for it. *)
Definition _write_total_formula (total_row_ : Z) (col : string) (formatting : bool) : M unit :=
  t ← get_table;
  match index_of col (header t), total_row_values t ≫= (fun df => first_value df col) with
  | Some i, Some v =>
      if formatting then
        f ← read0 total_formats set_total_formats col;
        emit (write total_row_ (start_col t + Z.of_nat i) v (_get_excel_format f))
      else emit (write total_row_ (start_col t + Z.of_nat i) v None)
  | _, _ => ret tt
  end.

(** The body of [for col in table.header] under [# Write Total Row]. *)
Definition write_total_column (total_row_ : Z) (use_header : option Z) (col : string)
    : M unit :=
  t ← get_table;
  _column_ ← match use_header with
             | None =>
                 i ← or_raise (index_of col (header t))
                       (ValueError (Py.repr col +:+ " is not in list"));
                 ret ("`Column" +:+ Py.str_of_Z (Z.of_nat i + 1) +:+ "`")
             | Some _ => ret ("`" +:+ col +:+ "`")
             end;
  let sc := total_scope col _column_ in
  let condition_is (test : pyarg -> bool) : M bool :=
    t ← get_table;
    if has_key (total_formats t) col
    then c ← read0 total_conditions set_total_conditions col; ret (test c)
    else ret false in
  unconditional ← condition_is (fun c => bool_decide (c = PNone));
  if unconditional then _write_total_formula total_row_ col true
  else
    conditional ← condition_is (fun c => negb (bool_decide (c = PNone)));
    if conditional then
      c ← read0 total_conditions set_total_conditions col;
      match c with
      | PStr condition =>
          b ← eval condition sc;
          _write_total_formula total_row_ col b
      | PList conditions_ =>
          written ← for_fold (seq 0 (length conditions_)) false (fun index written =>
            condition ← or_raise (conditions_ !! index) IndexError;
            b ← eval condition sc;
            if b then _write_total_formula total_row_ col true ;; ret true
            else ret written);
          if written then ret tt else _write_total_formula total_row_ col false
      | _ => ret tt
      end
    else _write_total_formula total_row_ col false.

(** *** The method *)

(** The title, written with [merge_range] over the header columns; the
    range is given by its columns and by the row number that the source
    puts in the A1 reference. *)
Definition write_title (use_title : option string) : M unit :=
  t ← get_table;
  match use_title with
  | None => ret tt
  | Some text =>
      row ← or_raise (title_row t) (TypeError "title_row");
      let range_ := merge_range (start_col t) (start_col t + Z.of_nat (length (header t)) - 1) row text in
      let align := Py.lower (title_align t) in
      if String.eqb align "center" then emit (range_ (_get_excel_format (PStr "MergeCenter")))
      else if String.eqb align "right" then emit (range_ (_get_excel_format (PStr "MergeRight")))
      else if String.eqb align "left" then emit (range_ (_get_excel_format (PStr "MergeLeft")))
      else ret tt
  end.

Definition write_header (use_header : option Z) : M unit :=
  t ← get_table;
  match use_header with
  | None => ret tt
  | Some _ =>
      row ← or_raise (header_row t) (TypeError "header_row");
      for_each (imap (fun i name => (start_col t + Z.of_nat i, name)) (header t))
        (fun a_name =>
           emit (write row a_name.1 (VStr a_name.2) (_get_excel_format (PStr "BoldWrapped"))) ;;
           match header_comments t !! a_name.2 with
           | Some comment => emit (write_comment row a_name.1 comment)
           | None => ret tt
           end) ;;
      emit (autofilter row (start_col t) row (end_col t))
  end.

Definition total_row_error : string :=
  "total_row arguments must be of value " +:+ String Py.dquote ("top" +:+ String Py.dquote
    (" or " +:+ String Py.dquote ("bottom" +:+ String Py.dquote ""))).

(** The body of [add_collapsible_table] after the worksheet is fetched. *)
Definition render : M unit :=
  t ← get_table;
  table_val ← match total_row t with
              | TotalStr s => ret (Py.lower s)
              | TotalInt _ => raise (AttributeError "'int' object has no attribute 'lower'")
              end;
  let use_header := header_row t in
  let use_title := title t in
  (if bool_decide (header_row t = None)
   then modify_table (fun t => set_header_row (Some (data_row t)) t) else ret tt) ;;
  (if bool_decide (title_row t = None)
   then modify_table (fun t => set_title_row (Some (data_row t)) t) else ret tt) ;;
  t ← get_table;
  row ← or_raise (header_row t) (TypeError "header_row");
  total_row_ ←
    (if String.eqb table_val "top" then
       modify_table (fun t => set_data_row (data_row t + 1)
                       (set_header_row (Some (row + 1)) (set_total_row (TotalInt row) t))) ;;
       ret row
     else if String.eqb table_val "bottom" then
       ret (Z.of_nat (length (data t)) + data_row t)
     else raise (ValueError total_row_error));
  t ← get_table;
  row ← or_raise (header_row t) (TypeError "header_row");
  match freeze_panes t with
  | Some (FreezeInt n) => emit (freeze_panes_call (row + 1) n)
  | Some (FreezeTuple r c) => emit (freeze_panes_call r c)
  | None => ret tt
  end ;;
  write_title use_title ;;
  write_header use_header ;;
  _recursive_data_looper (S (length (data t))) (data t) 0 None None ;;
  for_each (header t) (write_total_column total_row_ use_header) ;;
  match hidden_columns t with
  | None => ret tt
  | Some hidden_ =>
      for_each hidden_ (fun column =>
        i ← or_raise (index_of column (header t))
              (ValueError (Py.repr column +:+ " is not in list"));
        emit (set_column (Z.of_nat i) (Z.of_nat i) true))
  end.

End Render.

(** [ExcelWriter.add_collapsible_table(table, sheet_name)] for a sheet that
    [add_worksheet] has made: [self.worksheet] maps a sheet name to its
    worksheet, here the calls made on it. For any other name
    [self.worksheet], a [makehash], hands out an empty dict in place of a
    worksheet, on which the first worksheet call of the body fails; that
    run is not described, [None] stands for it. *)
Definition add_collapsible_table (py_eval : string -> scope -> result bool)
    (self : gmap string (list event)) (table_ : CollapsibleTable) (sheet_name : string)
    : option (result unit * (gmap string (list event) * CollapsibleTable)) :=
  let table_ := set_worksheet (Some sheet_name) table_ in
  match self !! sheet_name with
  | None => None
  | Some sheet =>
      let run := render py_eval {| table := table_; calls := sheet |} in
      Some (run.1, (<[sheet_name := calls run.2]> self, table run.2))
  end.

(** ** The traversal as the specification describes it *)

(** The data rows to write, in order, each with the index of its level, and
    the exception that ends the traversal early, if any. *)
Record plan : Type := {
  lines : list (nat * list value);
  failure : option exn
}.

Definition plan_done : plan := {| lines := []; failure := None |}.
Definition plan_fail (e : exn) : plan := {| lines := []; failure := Some e |}.
Definition plan_line (position : nat) (line : list value) : plan :=
  {| lines := [(position, line)]; failure := None |}.

(** [q] after [p], unless [p] fails. *)
Definition plan_app (p q : plan) : plan :=
  match failure p with
  | Some _ => p
  | None => {| lines := lines p ++ lines q; failure := failure q |}
  end.

Fixpoint plan_rows (rows_ : list (list value)) (each : list value -> plan) : plan :=
  match rows_ with
  | [] => plan_done
  | line :: rest => plan_app (each line) (plan_rows rest each)
  end.

(** The rows of a level under an ancestor path: all rows at the top, below
    it the rows whose ancestor columns equal the ancestors' values. *)
Definition filtered (df : DataFrame) (path : pydict value) : result DataFrame :=
  match path with
  | [] => Ok df
  | _ :: _ => query df path
  end.

(** The value of a row in the column named after its level. *)
Definition key_of (name : string) (df : DataFrame) (line : list value) : result value :=
  match index_of name (columns df) with
  | None => Raise (KeyError name)
  | Some i =>
      match line !! i with
      | None => Raise IndexError
      | Some v => Ok v
      end
  end.

(** Post-order: for every row of the filtered frame of a level, first the
    rows of the deeper levels under the path extended with that row's key,
    then the row itself. *)
Fixpoint post_order (remaining : pydict DataFrame) (position : nat) (path : pydict value)
    : plan :=
  match remaining with
  | [] => plan_done
  | (name, df) :: deeper =>
      match filtered df path with
      | Raise e => plan_fail e
      | Ok data_ =>
          plan_rows (rows data_) (fun line =>
            match deeper with
            | [] => plan_line position line
            | _ :: _ =>
                match key_of name data_ line with
                | Raise e => plan_fail e
                | Ok v =>
                    plan_app (post_order deeper (S position) (path ++ [(name, v)]))
                             (plan_line position line)
                end
            end)
      end
  end.

Definition traversal (data_dict : pydict DataFrame) : plan :=
  match data_dict with
  | [] => plan_fail IndexError
  | _ :: _ => post_order data_dict 0 []
  end.

(** Writing the lines of a plan one after the other. *)
Definition exec_plan (py_eval : string -> scope -> result bool) (data_dict : pydict DataFrame)
    (p : plan) : M unit :=
  (for_each (lines p) (fun l => write_level_line py_eval data_dict l.1 l.2) ;;
   match failure p with
   | Some e => raise e
   | None => ret tt
   end)%py.

(** A filter dict whose keys are the first level names, in order. *)
Definition aligned (keys : list string) (filter_ : pydict value) : Prop :=
  filter_.*1 `prefix_of` keys.

(** The hidden flag of a row as the specification words it: never hidden at
    level 0; below, [data_properties[level_name]['hidden']] when there is
    such an entry, hidden otherwise. *)
Definition hidden_flag (t : CollapsibleTable) (level : nat) (level_name : string) : bool :=
  match level with
  | O => false
  | S _ =>
      match data_properties t with
      | Some properties => default true (properties !! level_name ≫= hidden)
      | None => true
      end
  end.

(** What the data rows leave unchanged in the table object. *)
Definition frame (t t' : CollapsibleTable) : Prop :=
  data_row t' = data_row t /\ data_properties t' = data_properties t
  /\ header t' = header t /\ start_col t' = start_col t.

(** Every worksheet call that a computation adds satisfies [P], and the
    table stays in the frame of [t0]. *)
Definition emits {A : Type} (P : event -> Prop) (t0 : CollapsibleTable) (m : M A) : Prop :=
  forall w, frame t0 (table w) ->
    frame t0 (table (m w).2) /\ exists evs, calls (m w).2 = calls w ++ evs /\ Forall P evs.

(** How a call of [_recursive_data_looper] that was given a filter starting
    with [path] agrees with the execution of a plan: same final state, same
    exception if any, and a returned filter that still starts with [path]
    and has the level names as keys. *)
Definition looper_agrees (keys : list string) (path : pydict value)
    (r : result (pydict value) * world) (e : result unit * world) : Prop :=
  r.2 = e.2
  /\ match r.1 with
     | Ok f => e.1 = Ok tt /\ exists extra, f = path ++ extra /\ aligned keys f
     | Raise x => e.1 = Raise x
     end.









(** The state after more calls on the worksheet. *)
Definition with_calls (w : world) (evs : list event) : world :=
  {| table := table w; calls := calls w ++ evs |}.


(** ** The sample of [main] *)

Module Sample.

Definition frame (columns_ : list string) (rows_ : list (list value)) : DataFrame :=
  {| columns := columns_; rows := rows_ |}.

Definition level_one_data : DataFrame :=
  frame ["Computer Name"; "CVE Count"]
    [ [VStr "PCXNW-JCAPOZZA"; VInt 665];
      [VStr "PCXNW-BCAPOZZA"; VInt 113];
      [VStr "PCXNW-JCRUZ"; VInt 465] ].

Definition level_two_data : DataFrame :=
  frame ["Computer Name"; "Application Name"; "CVE Count"]
    [ [VStr "PCXNW-JCAPOZZA"; VStr ".NET Framework 2.0"; VInt 22];
      [VStr "PCXNW-JCAPOZZA"; VStr ".NET x64 6.0"; VInt 43];
      [VStr "PCXNW-JCAPOZZA"; VStr "7-Zip 9.20.00.0"; VInt 64];
      [VStr "PCXNW-BCAPOZZA"; VStr "ASP .NET Core x64 2.2"; VInt 2];
      [VStr "PCXNW-BCAPOZZA"; VStr ".NET x64 6.0"; VInt 46];
      [VStr "PCXNW-BCAPOZZA"; VStr "7-Zip 9.20.00.0"; VInt 76];
      [VStr "PCXNW-BCAPOZZA"; VStr "MiKTeX 21.8"; VInt 45];
      [VStr "PCXNW-JCRUZ"; VStr "7-Zip 9.20.00.0"; VInt 78];
      [VStr "PCXNW-JCRUZ"; VStr "ASP .NET Core x64 2.2"; VInt 65] ].

Definition level_three_data : DataFrame :=
  frame ["Computer Name"; "Application Name"; "CVE ID"; "CVE Count"]
    [ [VStr "PCXNW-JCAPOZZA"; VStr ".NET Framework 2.0"; VStr "CVE-2021-1"; VInt 1];
      [VStr "PCXNW-JCAPOZZA"; VStr ".NET Framework 2.0"; VStr "CVE-2021-2"; VInt 1];
      [VStr "PCXNW-JCAPOZZA"; VStr ".NET x64 6.0"; VStr "CVE-2021-3"; VInt 1];
      [VStr "PCXNW-JCAPOZZA"; VStr ".NET x64 6.0"; VStr "CVE-2021-4"; VInt 1];
      [VStr "PCXNW-JCAPOZZA"; VStr "7-Zip 9.20.00.0"; VStr "CVE-2021-5"; VInt 1];
      [VStr "PCXNW-BCAPOZZA"; VStr "ASP .NET Core x64 2.2"; VStr "CVE-2021-6"; VInt 1];
      [VStr "PCXNW-BCAPOZZA"; VStr "ASP .NET Core x64 2.2"; VStr "CVE-2021-7"; VInt 1];
      [VStr "PCXNW-BCAPOZZA"; VStr "ASP .NET Core x64 2.2"; VStr "CVE-2021-8"; VInt 1];
      [VStr "PCXNW-BCAPOZZA"; VStr ".NET x64 6.0"; VStr "CVE-2021-9"; VInt 1];
      [VStr "PCXNW-BCAPOZZA"; VStr "7-Zip 9.20.00.0"; VStr "CVE-2021-10"; VInt 1];
      [VStr "PCXNW-BCAPOZZA"; VStr "MiKTeX 21.8"; VStr "CVE-2021-11"; VInt 1];
      [VStr "PCXNW-JCRUZ"; VStr "7-Zip 9.20.00.0"; VStr "CVE-2021-12"; VInt 1];
      [VStr "PCXNW-JCRUZ"; VStr "7-Zip 9.20.00.0"; VStr "CVE-2021-13"; VInt 1];
      [VStr "PCXNW-JCRUZ"; VStr "7-Zip 9.20.00.0"; VStr "CVE-2021-14"; VInt 1];
      [VStr "PCXNW-JCRUZ"; VStr "ASP .NET Core x64 2.2"; VStr "CVE-2021-15"; VInt 1] ].

Definition data_ : pydict DataFrame :=
  [ ("Computer Name", level_one_data);
    ("Application Name", level_two_data);
    ("CVE ID", level_three_data) ].

Definition total_row_ : DataFrame :=
  frame ["Computer Name"; "CVE Count"] [ [VStr "Total Row"; VInt 8888] ].

Definition header_ : list string :=
  ["Computer Name"; "Application Name"; "CVE ID"; "CVE Count"].

(** [my_table] of [main] after [add_total] and [add_total_formats], with
    the position of the total row left open. *)
Definition my_table (total_row_setting_ : string) : CollapsibleTable :=
  let t0 := CollapsibleTable_methods.init header_ data_ (Some "Collapsible Table Test") None
              0 (Some 1) (Some 1) 2 total_row_setting_ None "center" ∅ in
  let t1 := (CollapsibleTable_methods.add_total total_row_ t0).2 in
  object (CollapsibleTable_methods.add_total_formats (PStr "CVE Count") (PStr "Bold") PNone t1).

(** The conditions of the examples are the literals [True] and [False];
    nothing else is evaluated there. *)
Definition literal_eval (expression : string) (sc : scope) : result bool :=
  if String.eqb expression "True" then Ok true
  else if String.eqb expression "False" then Ok false
  else Raise (NameError expression).

Definition writer : gmap string (list event) := {[ "test_sheet" := [] ]}.

(** The worksheet calls of [add_collapsible_table(my_table, 'test_sheet')]. *)
Definition sheet_calls (total_row_setting_ : string) : list event :=
  match add_collapsible_table literal_eval writer (my_table total_row_setting_)
          "test_sheet" with
  | Some run => default [] (run.2.1 !! "test_sheet")
  | None => []
  end.

(** The state in which [add_collapsible_table] starts on an empty sheet. *)
Definition initial (total_row_setting_ : string) : world :=
  {| table := my_table total_row_setting_; calls := [] |}.




(** The rows that got outline properties, each once, in the order of the
    first call: row, level, hidden. *)
Definition outline_rows (sheet : list event) : list (Z * nat * bool) :=
  remove_dups (omap (fun e => match e with
                              | set_row r level h => Some (r, level, h)
                              | _ => None
                              end) sheet).

End Sample.

(** ** Conditions given as a list *)

(** Whether a condition holds in a scope: [eval] returned a true value. *)
Definition holds (py_eval : string -> scope -> result bool) (sc : scope) (condition : string)
    : bool :=
  match py_eval (Helper._format_string condition) sc with
  | Ok true => true
  | _ => false
  end.

(** The calls of the loop [for index in range(len(conditions))] of the value
    part: every condition is evaluated, in order, and each one that holds
    writes the cell with the format at its index. *)
Fixpoint every_match_events (held : string -> bool) (r c : Z) (v : value)
    (conditions_ formats_ : list string) : list event :=
  match conditions_, formats_ with
  | condition :: conditions', format :: formats' =>
      eval_call (Helper._format_string condition)
      :: (if held condition then [write r c v (_get_excel_format (PStr format))] else [])
      ++ every_match_events held r c v conditions' formats'
  | _, _ => []
  end.

(** The calls of the value part of a cell with a list of conditions: the
    loop, then the plain write when no condition held. *)
Definition value_events (held : string -> bool) (r c : Z) (v : value)
    (conditions_ formats_ : list string) : list event :=
  every_match_events held r c v conditions_ formats_
  ++ (if existsb held conditions_ then [] else [write r c v None]).

(** The calls as the specification words them: the first condition that
    holds selects the format at its index and ends the evaluation; the
    plain write when none holds. *)
Fixpoint first_match_events (held : string -> bool) (r c : Z) (v : value)
    (conditions_ formats_ : list string) : list event :=
  match conditions_, formats_ with
  | condition :: conditions', format :: formats' =>
      eval_call (Helper._format_string condition)
      :: (if held condition then [write r c v (_get_excel_format (PStr format))]
          else first_match_events held r c v conditions' formats')
  | _, _ => [write r c v None]
  end.

(** The formats of the conditions that hold, in order. *)
Fixpoint matched (held : string -> bool) (conditions_ formats_ : list string) : list string :=
  match conditions_, formats_ with
  | condition :: conditions', format :: formats' =>
      (if held condition then [format] else []) ++ matched held conditions' formats'
  | _, _ => []
  end.

(** The expressions handed to [eval], in order. *)
Definition evaluated (sheet : list event) : list string :=
  omap (fun e => match e with eval_call x => Some x | _ => None end) sheet.

(** The format with which a cell was written last, [None] when it was not
    written. *)
Definition final_format (sheet : list event) (r c : Z) : option (option string) :=
  last (omap (fun e => match e with
                       | write r' c' _ f =>
                           if bool_decide (r' = r /\ c' = c) then Some f else None
                       | _ => None
                       end) sheet).

(** ** A table of one level *)

Module Small.

Import CollapsibleTable_methods.

Definition hosts : DataFrame :=
  {| columns := ["Host"; "Status"]; rows := [ [VStr "pc1"; VStr "open"] ] |}.

(** [CollapsibleTable(header=['Host', 'Status'], data={'Host': hosts})] *)
Definition table0 : CollapsibleTable :=
  init ["Host"; "Status"] [("Host", hosts)] None None 0 (Some 1) (Some 1) 2 "bottom" None
    "center" ∅.

(** Two formats with two conditions that both hold. *)
Definition with_two_conditions : CollapsibleTable :=
  object (add_column_formats (PStr "Host") (PStr "Status") (PList ["Bold"; "Num"])
            (PList ["True"; "True"]) table0).

(** A link on a column that is not named after a level, and a link on the
    column named after the level. *)
Definition with_link : CollapsibleTable :=
  add_links "Host" "Status" [(VStr "open", "https://example.org/open")] table0.

Definition with_key_link : CollapsibleTable :=
  add_links "Host" "Host" [(VStr "pc1", "https://example.org/pc1")] table0.

Definition choices : dvparam := DVList [VStr "open"; VStr "closed"].

(** A format whose condition holds and a validation whose only condition
    does not, on the column [column]. *)
Definition with_validation (column : string) : CollapsibleTable :=
  add_data_validation column "Host" choices (PList ["False"]) (default_extras choices)
    (object (add_column_formats (PStr "Host") (PStr column) (PList ["Bold"])
               (PList ["True"]) table0)).

(** The calls of [write_line] for the row of [hosts], on an empty sheet. *)
Definition line_calls (t : CollapsibleTable) : list event :=
  calls (write_line Sample.literal_eval [VStr "pc1"; VStr "open"] ["Host"; "Status"] 0 "Host"
           {| table := t; calls := [] |}).2.

(** The calls of the value part for the cell of [Status]. *)
Definition value_calls (t : CollapsibleTable) : list event :=
  calls (write_value Sample.literal_eval [VStr "pc1"; VStr "open"] ["Host"; "Status"] 0 "Host"
           "Status" (VStr "open") {| table := t; calls := [] |}).2.

Definition holds_literal : string -> bool :=
  holds Sample.literal_eval
    (line_scope [VStr "pc1"; VStr "open"] ["Host"; "Status"] 0 "Host" "Status" (VStr "open")).

End Small.

(** ** Formulas *)

(** The text that the loop of [_convert] builds from the parts of a
    template, from index [i] on: the parts at even indices as they are, the
    parts at odd indices wrapped. *)
Fixpoint expand (wrap : nat -> string -> string) (i : nat) (parts : list string) : string :=
  match parts with
  | [] => EmptyString
  | part :: rest =>
      (if Nat.even i then part else wrap i part) +:+ expand wrap (S i) rest
  end.

(** The aggregate call on a column under the function at index [i // 2] of
    a list of names. *)
Definition wrap_list (table_name : string) (names : list string) (i : nat) (part : string)
    : string :=
  match names !! (i / 2)%nat ≫= (fun name => dict_get AGG_CONVERSION (Py.upper name)) with
  | Some code => aggregate_call code table_name part
  | None => EmptyString
  end.


(** ** Registered entries *)

(** [d[k1][k2]] without materialising anything: [None] when an entry is
    missing. *)
Definition lookup2 {A : Type} (d : gmap string (gmap string A)) (k1 k2 : string) : option A :=
  d !! k1 ≫= (fun inner => inner !! k2).

(** The names that a [str] or a [list] argument stands for. *)
Definition names_of (x : pyarg) : list string :=
  match x with
  | PStr s => [s]
  | PList l => l
  | _ => []
  end.


(** ** The method after its setup *)

(** The table once [header_row] and [title_row] have been given the value
    of [data_row] where they were [None]. *)
Definition filled (t : CollapsibleTable) : CollapsibleTable :=
  let t1 := if bool_decide (header_row t = None) then set_header_row (Some (data_row t)) t
            else t in
  if bool_decide (title_row t1 = None) then set_title_row (Some (data_row t1)) t1 else t1.

(** The row of the header when the method starts. *)
Definition header_row_of (t : CollapsibleTable) : Z := default (data_row t) (header_row t).

(** The table after the branch [table_val == 'top']. *)
Definition moved_down (t : CollapsibleTable) : CollapsibleTable :=
  let t1 := filled t in
  set_data_row (data_row t1 + 1)
    (set_header_row (Some (header_row_of t + 1)) (set_total_row (TotalInt (header_row_of t)) t1)).

(** The statements of [add_collapsible_table] that follow the choice of
    the total row. *)
Definition after_setup (py_eval : string -> scope -> result bool) (total_row_ : Z)
    (use_header : option Z) (use_title : option string) : M unit :=
  (t ← get_table;
   row ← or_raise (header_row t) (TypeError "header_row");
   match freeze_panes t with
   | Some (FreezeInt n) => emit (freeze_panes_call (row + 1) n)
   | Some (FreezeTuple r c) => emit (freeze_panes_call r c)
   | None => ret tt
   end ;;
   write_title use_title ;;
   write_header use_header ;;
   _recursive_data_looper py_eval (S (length (data t))) (data t) 0 None None ;;
   for_each (header t) (write_total_column py_eval total_row_ use_header) ;;
   match hidden_columns t with
   | None => ret tt
   | Some hidden_ =>
       for_each hidden_ (fun column =>
         i ← or_raise (index_of column (header t))
               (ValueError (Py.repr column +:+ " is not in list"));
         emit (set_column (Z.of_nat i) (Z.of_nat i) true))
   end)%py.

(** ** What the rows leave alone *)

(** The attributes that the rows and the total row do not assign: all but
    the row cursor and the [makehash] dicts, which reading extends. *)
Definition settings (t : CollapsibleTable) :=
  (title t, data t, start_col t, title_row t, header_row t, start_row t, header t,
   end_col t, freeze_panes t, hidden_columns t, title_align t, total_row t,
   header_comments t, levels t, data_properties t, total_row_values t, worksheet t).

(** A computation that keeps a property of the table and adds only calls
    that satisfy [P]. *)
Definition keeps {A : Type} (I : CollapsibleTable -> Prop) (P : event -> Prop) (m : M A)
    : Prop :=
  forall w, I (table w) ->
    I (table (m w).2) /\ exists evs, calls (m w).2 = calls w ++ evs /\ Forall P evs.

(** A computation that, when it returns, has added calls that satisfy [P]
    and after them calls that satisfy [Q] together. *)
Definition closes {A : Type} (I : CollapsibleTable -> Prop) (P : event -> Prop)
    (Q : list event -> Prop) (m : M A) : Prop :=
  forall w, I (table w) ->
    forall a w', m w = (Ok a, w') ->
      exists pre tl, calls w' = calls w ++ pre ++ tl /\ Forall P pre /\ Q tl.

Definition is_set_column (e : event) : bool :=
  match e with set_column _ _ _ => true | _ => false end.

Definition is_eval_call (e : event) : bool :=
  match e with eval_call _ => true | _ => false end.

(** The calls that hide the columns at the given positions. *)
Definition hide_calls (positions : list nat) : list event :=
  map (fun i => set_column (Z.of_nat i) (Z.of_nat i) true) positions.

(** The calls of the header row [row] of a table: every name of the header
    in order, its comment after it when it has one, and the autofilter. *)
Definition header_calls (t : CollapsibleTable) (row : Z) : list event :=
  concat (imap (fun i name =>
            write row (start_col t + Z.of_nat i) (VStr name) (Some "BoldWrapped"%string)
            :: match header_comments t !! name with
               | Some comment => [write_comment row (start_col t + Z.of_nat i) comment]
               | None => []
               end) (header t))
  ++ [autofilter row (start_col t) row (end_col t)].

(** ** A table of one level, placed and totalled as asked *)

(** [CollapsibleTable(header=['Host', 'Status'], data={'Host': hosts},
    start_col=start_col, total_row=total_row)] *)
Definition hosts_table (start_col_ : Z) (total_row_ : string) : CollapsibleTable :=
  CollapsibleTable_methods.init ["Host"; "Status"] [("Host", Small.hosts)] None None
    start_col_ (Some 1) (Some 1) 2 total_row_ None "center" ∅.

(** ** A cell under one format *)

(** A condition argument that is a text or [None]. *)
Definition optional_str (condition : option string) : pyarg :=
  match condition with
  | Some c => PStr c
  | None => PNone
  end.

(** How writing a value under one format, with a condition or without,
    ends, and the calls it makes: the condition, if any, is evaluated first;
    the value is written with the format when there is no condition or the
    condition holds, without a format when it does not hold, and not at all
    when its evaluation raises. *)
Definition cell_calls (py_eval : string -> scope -> result bool) (sc : scope) (r c : Z)
    (v : value) (format : pyarg) (condition : option string) : result unit * list event :=
  match condition with
  | None => (Ok tt, [write r c v (_get_excel_format format)])
  | Some text =>
      let expression := Helper._format_string text in
      match py_eval expression sc with
      | Ok b =>
          (Ok tt, [eval_call expression;
                   write r c v (if b then _get_excel_format format else None)])
      | Raise e => (Raise e, [eval_call expression])
      end
  end.

(** ** The flat [Table]: layout and total operations *)

Module Flat.

(** The attributes of a [Table] that the layout of [add_table],
    [add_total_operation] and the total row of [add_table] read or
    assign. *)
Record Table : Type := {
  name : string;
  data : DataFrame;
  start_col : Z;
  title_row : option Z;
  header_row : option Z;
  data_row : Z;
  start_row : Z;
  end_data_row : Z;
  header : list string;
  end_col : Z;
  total_row : total_row_setting;
  agg_functions : gmap string pyarg;
  operation_functions : gmap string pyarg;
  total_formats : gmap string pyarg
}.

Definition set_data (x : DataFrame) (t : Table) : Table :=
  Build_Table (name t) x (start_col t) (title_row t) (header_row t) (data_row t)
    (start_row t) (end_data_row t) (header t) (end_col t) (total_row t) (agg_functions t)
    (operation_functions t) (total_formats t).

Definition set_title_row (x : option Z) (t : Table) : Table :=
  Build_Table (name t) (data t) (start_col t) x (header_row t) (data_row t) (start_row t)
    (end_data_row t) (header t) (end_col t) (total_row t) (agg_functions t)
    (operation_functions t) (total_formats t).

Definition set_header_row (x : option Z) (t : Table) : Table :=
  Build_Table (name t) (data t) (start_col t) (title_row t) x (data_row t) (start_row t)
    (end_data_row t) (header t) (end_col t) (total_row t) (agg_functions t)
    (operation_functions t) (total_formats t).

Definition set_data_row (x : Z) (t : Table) : Table :=
  Build_Table (name t) (data t) (start_col t) (title_row t) (header_row t) x (start_row t)
    (end_data_row t) (header t) (end_col t) (total_row t) (agg_functions t)
    (operation_functions t) (total_formats t).

Definition set_end_data_row (x : Z) (t : Table) : Table :=
  Build_Table (name t) (data t) (start_col t) (title_row t) (header_row t) (data_row t)
    (start_row t) x (header t) (end_col t) (total_row t) (agg_functions t)
    (operation_functions t) (total_formats t).

Definition set_total_row (x : total_row_setting) (t : Table) : Table :=
  Build_Table (name t) (data t) (start_col t) (title_row t) (header_row t) (data_row t)
    (start_row t) (end_data_row t) (header t) (end_col t) x (agg_functions t)
    (operation_functions t) (total_formats t).

Definition set_agg_functions (x : gmap string pyarg) (t : Table) : Table :=
  Build_Table (name t) (data t) (start_col t) (title_row t) (header_row t) (data_row t)
    (start_row t) (end_data_row t) (header t) (end_col t) (total_row t) x
    (operation_functions t) (total_formats t).

Definition set_operation_functions (x : gmap string pyarg) (t : Table) : Table :=
  Build_Table (name t) (data t) (start_col t) (title_row t) (header_row t) (data_row t)
    (start_row t) (end_data_row t) (header t) (end_col t) (total_row t) (agg_functions t) x
    (total_formats t).

Definition set_total_formats (x : gmap string pyarg) (t : Table) : Table :=
  Build_Table (name t) (data t) (start_col t) (title_row t) (header_row t) (data_row t)
    (start_row t) (end_data_row t) (header t) (end_col t) (total_row t) (agg_functions t)
    (operation_functions t) x.

(** [Table.__init__], for these attributes. *)
Definition init (name_ : string) (data_ : DataFrame) (start_col_ : Z)
    (title_row_ header_row_ : option Z) (data_row_ : Z) (total_row_ : string) : Table :=
  {| name := Helper.clean_string name_; data := data_; start_col := start_col_;
     title_row := title_row_; header_row := header_row_; data_row := data_row_;
     start_row := data_row_ + 1;
     end_data_row := Z.of_nat (length (rows data_)) + (data_row_ - 1);
     header := columns data_;
     end_col := Z.of_nat (length (columns data_)) - 1 + start_col_;
     total_row := TotalStr total_row_;
     agg_functions := ∅; operation_functions := ∅; total_formats := ∅ |}.

Definition _get_table_dimensions (t : Table) : Z * Z * Z * Z :=
  (data_row t, start_col t, end_data_row t, end_col t).

(** [table.data.empty]: an axis of length 0 *)
Definition empty (df : DataFrame) : bool :=
  match rows df, columns df with
  | [], _ | _, [] => true
  | _ :: _, _ :: _ => false
  end.

(** [pd.DataFrame([no_results_data])] for the dict that the loop over
    the positions of the columns fills: ['No Results'] at position 0, the
    empty text at the others, a later assignment to the same name
    replacing an earlier one. *)
Definition no_results (df : DataFrame) : DataFrame :=
  let no_results_data :=
    foldl (fun d (ic : nat * string) =>
             dict_set d ic.2 (if (ic.1 =? 0)%nat then "No Results" else EmptyString))
          [] (imap pair (columns df)) in
  {| columns := no_results_data.*1; rows := [VStr <$> no_results_data.*2] |}.

(** The statements of [add_table] that come before the first call on the
    worksheet: the replacement of empty data, the rows of the header and
    of the title, the choice of the total row. The result is the local
    [total_row] and [use_header]. *)
Definition prepare (t : Table) : result (Z * option Z) * Table :=
  let t :=
    if empty (data t)
    then set_data (no_results (data t)) (set_end_data_row (end_data_row t + 1) t)
    else t in
  match total_row t with
  | TotalInt _ => (Raise (AttributeError "'int' object has no attribute 'lower'"), t)
  | TotalStr s =>
      let table_val := Py.lower s in
      let use_header := header_row t in
      let t := if bool_decide (header_row t = None)
               then set_header_row (Some (data_row t)) t else t in
      let t := if bool_decide (title_row t = None)
               then set_title_row (Some (data_row t)) t else t in
      if String.eqb table_val "top" then
        match header_row t with
        | None => (Raise (TypeError "header_row"), t)
        | Some row =>
            (Ok (row, use_header),
             set_end_data_row (end_data_row t + 1)
               (set_data_row (data_row t + 1)
                  (set_header_row (Some (row + 1)) (set_total_row (TotalInt row) t))))
        end
      else if String.eqb table_val "bottom" then
        (Ok (Z.of_nat (length (rows (data t))) + data_row t, use_header), t)
      else (Raise (ValueError total_row_error), t)
  end.

(** What [add_total_operation] leaves alone. *)
Definition layout (t : Table) :=
  (name t, data t, start_col t, title_row t, header_row t, data_row t, start_row t,
   end_data_row t, header t, end_col t, total_row t, total_formats t).

Definition is_none (x : pyarg) : bool := match x with PNone => true | _ => false end.

(** [self.agg_functions[col] = agg_function] and
    [self.operation_functions[col] = operation_function] *)
Definition register_operation (agg_function operation_function : pyarg) (col : string)
    (t : Table) : Table :=
  set_operation_functions (<[col := operation_function]> (operation_functions t))
    (set_agg_functions (<[col := agg_function]> (agg_functions t)) t).

(** [Table.add_total_operation]: the three tests raise before the [try];
    nothing inside the [try] raises a [KeyError], so its [except] clause
    plays no part. *)
Definition add_total_operation (columns_ agg_function operation_function : pyarg)
    (t : Table) : result unit * Table :=
  if is_none agg_function && negb (is_none operation_function) then
    (Raise (ValueError "Parameter operation_function requires use of agg_function"), t)
  else if is_none agg_function && is_none operation_function then
    (Raise (ValueError "Parameter agg_function or operation_function is required"), t)
  else if negb (is_none agg_function) && is_none operation_function && is_list agg_function
  then
    (Raise (ValueError "Parameter agg_function must be string without operation_function"), t)
  else
    match columns_ with
    | PList cols =>
        (Ok tt, foldl (fun t col => register_operation agg_function operation_function col t)
                  t cols)
    | PStr column => (Ok tt, register_operation agg_function operation_function column t)
    | _ =>
        (Raise (Exception "columns parameter must be a column name or list of column names"), t)
    end.

(** The calls of the total row: [worksheet.write_formula], and
    [worksheet.write] with the empty text. *)
Inductive call : Type :=
| write_formula (row col : Z) (formula : string) (cell_format : option string)
| write_empty (row col : Z) (cell_format : option string).

(** The last argument of the call: [self._get_excel_format(table.total_formats[col])]
    when [formatting], reading the [makehash] dict. *)
Definition format_argument (col : string) (formatting : bool) (t : Table)
    : option string * Table :=
  if formatting then
    match total_formats t !! col with
    | Some f => (_get_excel_format f, t)
    | None => (None, set_total_formats (<[col := PHash]> (total_formats t)) t)
    end
  else (None, t).

Definition no_split (type_name : string) : exn :=
  AttributeError ("'" +:+ type_name +:+ "' object has no attribute 'split'").

(** [table._convert(base, table.name, agg)] on a registered operation and
    registered functions: [base_string.split] needs a [str]. *)
Definition convert_registered (base agg : pyarg) (table_name : string) : result string :=
  let aggregation_functions :=
    match agg with
    | PStr f => AggStr f
    | PList names => AggList names
    | _ => AggOther
    end in
  match base with
  | PStr template => _convert template table_name aggregation_functions
  | PNone => Raise (no_split "NoneType")
  | PList _ => Raise (no_split "list")
  | PHash => Raise (no_split "collections.defaultdict")
  end.

(** [f'=_xlfn.AGGREGATE({str(AGG_CONVERSION.get(f))}, 5, {table.name}[{col}])'] *)
Definition direct_formula (f table_name col : string) : string :=
  "=_xlfn.AGGREGATE("
  +:+ match dict_get AGG_CONVERSION f with
      | Some code => Py.str_of_Z code
      | None => "None"
      end
  +:+ ", 5, " +:+ table_name +:+ "[" +:+ col +:+ "])".

(** [_write_total_formula] of [add_table], with the variables [col] and
    [_column_] of the enclosing loop as arguments. The arguments of a call
    are evaluated from left to right: the position of the column in the
    header, the formula, the format. *)
Definition _write_total_formula (total_row_ : Z) (col _column_ : string) (formatting : bool)
    (t : Table) : result call * Table :=
  let at_column (k : Z -> result call * Table) : result call * Table :=
    match index_of col (header t) with
    | Some i => k (start_col t + Z.of_nat i)
    | None => (Raise (ValueError (Py.repr col +:+ " is not in list")), t)
    end in
  let formula_call (t' : Table) (c : Z) (formula : result string) : result call * Table :=
    match formula with
    | Ok text =>
        let fmt := format_argument col formatting t' in
        (Ok (write_formula total_row_ c text fmt.1), fmt.2)
    | Raise e => (Raise e, t')
    end in
  match agg_functions t !! col with
  | Some (PStr f) =>
      match operation_functions t !! col with
      | None => at_column (fun c => formula_call t c (Ok (direct_formula f (name t) col)))
      | Some PNone =>
          at_column (fun c =>
            formula_call t c (convert_registered (PStr _column_) (PStr f) (name t)))
      | Some operation =>
          at_column (fun c =>
            formula_call t c (convert_registered operation (PStr f) (name t)))
      end
  | Some (PList names) =>
      at_column (fun c =>
        match operation_functions t !! col with
        | Some operation =>
            formula_call t c (convert_registered operation (PList names) (name t))
        | None =>
            let t' := set_operation_functions (<[col := PHash]> (operation_functions t)) t in
            formula_call t' c (convert_registered PHash (PList names) (name t))
        end)
  | _ =>
      at_column (fun c =>
        let fmt := format_argument col formatting t in
        (Ok (write_empty total_row_ c fmt.1), fmt.2))
  end.

(** The tables that [Table(...)] and calls of [add_total_operation] that
    return make. *)
Inductive reachable : Table -> Prop :=
| reachable_init (name_ : string) (data_ : DataFrame) (start_col_ : Z)
    (title_row_ header_row_ : option Z) (data_row_ : Z) (total_row_ : string) :
    reachable (init name_ data_ start_col_ title_row_ header_row_ data_row_ total_row_)
| reachable_add (t t' : Table) (columns_ agg_function operation_function : pyarg) :
    reachable t ->
    add_total_operation columns_ agg_function operation_function t = (Ok tt, t') ->
    reachable t'.

End Flat.

(** ** Tables that can be written *)

(** A frame whose rows have one value per column. *)
Definition rectangular (df : DataFrame) : bool :=
  forallb (fun line => (length line =? length (columns df))%nat) (rows df).

Definition has_column (df : DataFrame) (name : string) : bool :=
  bool_decide (name ∈ columns df).

(** Levels that the traversal can walk and write under a header: every
    frame is rectangular, has a column for each level above it and, unless
    it is the last one, for its own level, and has only columns of the
    header. *)
Fixpoint walkable (header_ ancestors : list string) (remaining : pydict DataFrame) : bool :=
  match remaining with
  | [] => true
  | (name, df) :: deeper =>
      rectangular df
      && forallb (has_column df) ancestors
      && match deeper with [] => true | _ :: _ => has_column df name end
      && forallb (fun c => bool_decide (c ∈ header_)) (columns df)
      && walkable header_ (ancestors ++ [name]) deeper
  end.

(** The data of a table that can be written: at least one level, level
    names that differ, levels that can be walked. *)
Definition writable (header_ : list string) (data_ : pydict DataFrame) : bool :=
  match data_ with
  | [] => false
  | _ :: _ => bool_decide (NoDup data_.*1) && walkable header_ [] data_
  end.

(** A table on which no format, link or dropdown has been registered:
    the [makehash] dicts hold at most what reading them leaves behind. *)
Definition unformatted (t : CollapsibleTable) : Prop :=
  (forall level fl, formats t !! level = Some fl -> fl = ∅)
  /\ links t = ∅
  /\ (forall level dv, data_validation t !! level = Some dv -> dv = ∅)
  /\ (forall level inner col c,
        data_validation_condition t !! level = Some inner -> inner !! col = Some c ->
        c = PHash)
  /\ total_formats t = ∅.

(** A computation that returns, with a result that satisfies [Q], from
    every state whose table satisfies [I], and keeps [I]. *)
Definition returns {A : Type} (I : CollapsibleTable -> Prop) (Q : A -> Prop) (m : M A)
    : Prop :=
  forall w, I (table w) -> exists a w', m w = (Ok a, w') /\ I (table w') /\ Q a.

(** ** Keys that the query text can hold *)

(** A character of a plain name: a letter, a digit or a space. *)
Definition name_char (c : ascii) : bool :=
  Helper.is_alnum c || Ascii.eqb c " ".

(** A character of a plain text: printable ASCII other than the two
    quotes, the backslash and the backtick. *)
Definition text_char (c : ascii) : bool :=
  let n := Ascii.nat_of_ascii c in
  (32 <=? n)%nat && (n <=? 126)%nat
  && negb (Ascii.eqb c Py.quote) && negb (Ascii.eqb c Py.dquote)
  && negb (Ascii.eqb c Py.backslash) && negb (Ascii.eqb c Py.backtick).

Fixpoint all_chars (test : ascii -> bool) (s : string) : bool :=
  match s with
  | EmptyString => true
  | String c rest => test c && all_chars test rest
  end.

(** A column name that the query text names between backticks without
    ambiguity: not empty, of letters, digits and spaces. *)
Definition plain_name (s : string) : bool :=
  negb (String.eqb s EmptyString) && all_chars name_char s.

(** A text that stands for itself between the quotes of the query. *)
Definition plain_text (s : string) : bool := all_chars text_char s.

Definition is_text (v : value) : bool :=
  match v with VStr _ => true | VInt _ => false end.

Definition plain_value (v : value) : bool :=
  match v with VStr s => plain_text s | VInt _ => false end.

(** The frame has the column and every row has a cell in it that passes
    the test. *)
Definition column_all (test : value -> bool) (df : DataFrame) (name : string) : bool :=
  match index_of name (columns df) with
  | None => false
  | Some i =>
      forallb (fun line => match line !! i with Some v => test v | None => false end)
              (rows df)
  end.

(** Column names that differ and are plain. *)
Definition plain_columns (df : DataFrame) : bool :=
  bool_decide (NoDup (columns df)) && forallb plain_name (columns df).

(** Levels keyed by text, under the levels [ancestors]: the column names
    of every frame differ; a frame below the top has plain column names
    and, for every level above it, a column of that name that holds text;
    a frame above the last level is named by a plain name and holds a
    plain text in every cell of the column of its level. *)
Fixpoint text_keyed_under (ancestors : list string) (remaining : pydict DataFrame) : bool :=
  match remaining with
  | [] => true
  | (name, df) :: deeper =>
      bool_decide (NoDup (columns df))
      && match ancestors with [] => true | _ :: _ => plain_columns df end
      && forallb (column_all is_text df) ancestors
      && match deeper with
         | [] => true
         | _ :: _ => plain_name name && column_all plain_value df name
         end
      && text_keyed_under (ancestors ++ [name]) deeper
  end.

(** The data of a table whose levels are keyed by text: at least one
    level, and [text_keyed_under] no level. This is the data on which the
    text of the query of [_recursive_data_looper] is the comparison it
    shows. *)
Definition text_keyed (data_dict : pydict DataFrame) : bool :=
  match data_dict with
  | [] => false
  | _ :: _ => text_keyed_under [] data_dict
  end.


(** ** The traversal in the words of the specification *)






(** ** A table keyed by numbers *)

Module Numbered.






End Numbered.
(** ** Facts about [_convert] *)

Example convert_spec_scenario :
  _convert "`Revenue` minus `Cost`" "T" (AggList ["SUM"; "sum"])
  = Ok "=(_xlfn.AGGREGATE(9, 5, T[Revenue]) minus _xlfn.AGGREGATE(9, 5, T[Cost]))".
Proof. reflexivity. Qed.

Example format_string_example :
  Helper._format_string "`CVE Count` > 5 and _column_ != ``" = "row['CVE Count'] > 5 and _column_ != ``".
Proof. reflexivity. Qed.


(** *** Strings *)

Lemma append_cons (x : ascii) (a b : string) : String x a +:+ b = String x (a +:+ b).
Proof. reflexivity. Qed.

Lemma append_assoc (a b c : string) : (a +:+ b) +:+ c = a +:+ b +:+ c.
Proof. induction a as [|x a IH]; [reflexivity|]. rewrite !append_cons, IH. reflexivity. Qed.

Lemma append_nil_r (a : string) : a +:+ EmptyString = a.
Proof. induction a as [|x a IH]; [reflexivity|]. rewrite append_cons, IH. reflexivity. Qed.

Lemma split_cons (sep : ascii) (s : string) :
  exists p rest, Py.split sep s = p :: rest.
Proof.
  induction s as [|c s (p & rest & IH)]; cbn; [eauto|].
  destruct (Ascii.eqb c sep); [eauto|]. rewrite IH. eauto.
Qed.

Lemma split_without (sep : ascii) (s : string) :
  Py.contains sep s = false -> Py.split sep s = [s].
Proof.
  induction s as [|c s IH]; cbn; [reflexivity|].
  rewrite (Ascii.eqb_sym sep c). destruct (Ascii.eqb c sep); cbn; [discriminate|].
  intros H. rewrite (IH H). reflexivity.
Qed.

Lemma convert_loop_no_column (table_name : string) (aggregation_functions : agg_arg)
    (part acc : string) :
  convert_loop table_name aggregation_functions 0 [part] acc = Ok (acc +:+ part).
Proof. reflexivity. Qed.

Lemma odd_parts_length (parts : list string) :
  length (odd_parts parts) = (length parts / 2)%nat.
Proof.
  enough (H : length (odd_parts parts) = (length parts / 2)%nat /\
              forall p, length (odd_parts (p :: parts)) = (S (length parts) / 2)%nat)
    by apply H.
  induction parts as [|q parts [IH1 IH2]]; [split; reflexivity|].
  split; [apply IH2|].
  intros p. cbn [odd_parts length]. rewrite IH1.
  change (S (S (length parts))) with (1 * 2 + length parts)%nat.
  rewrite Nat.div_add_l by lia. reflexivity.
Qed.

Lemma convert_loop_no_ValueError (table_name : string) (aggregation_functions : agg_arg)
    (parts : list string) (i : nat) (acc msg : string) :
  convert_loop table_name aggregation_functions i parts acc <> Raise (ValueError msg).
Proof.
  revert i acc. induction parts as [|part parts IH]; intros i acc; cbn [convert_loop]; [discriminate|].
  destruct (Nat.even i); [apply IH|].
  destruct aggregation_functions as [name|names|].
  - destruct (dict_get AGG_CONVERSION _); [apply IH|discriminate].
  - destruct (names !! _); [|discriminate].
    destruct (dict_get AGG_CONVERSION _); [apply IH|discriminate].
  - apply IH.
Qed.

Lemma _convert_count_error (base_string table_name : string) (names : list string) :
  _convert base_string table_name (AggList names) = Raise (ValueError count_mismatch_msg)
  <-> count_test base_string names = false.
Proof.
  unfold _convert, count_test.
  destruct (_ =? _) eqn:E; cbn; [|tauto].
  split; [|discriminate].
  destruct (convert_loop _ _ _ _ _) eqn:L; [discriminate|].
  intros [= ->]. exfalso. exact (convert_loop_no_ValueError _ _ _ _ _ _ L).
Qed.

(** The loop reaches the part at odd index [2k+1] when every function name
    used before it is in the registry. *)
Lemma convert_loop_unknown_list (table_name : string) (names : list string)
    (k : nat) (name : string) :
  names !! k = Some name ->
  dict_get AGG_CONVERSION (Py.upper name) = None ->
  (forall j n, (j < k)%nat -> names !! j = Some n -> known_function n) ->
  forall (parts : list string) (i : nat) (acc : string),
    (i <= 2 * k + 1)%nat -> (2 * k + 1 < i + length parts)%nat ->
    convert_loop table_name (AggList names) i parts acc
    = Raise (KeyError (no_agg_msg (Py.upper name))).
Proof.
  intros Hk Hbad Hbefore parts.
  induction parts as [|part parts IH]; intros i acc Hle Hlt; cbn [convert_loop length] in *; [lia|].
  destruct (Nat.even i) eqn:Ei.
  - apply IH; [|lia].
    destruct (decide (i = 2 * k + 1)%nat) as [->|]; [|lia].
    rewrite Nat.add_1_r, Nat.even_succ, Nat.odd_mul in Ei. discriminate.
  - apply (f_equal negb) in Ei. rewrite Nat.negb_even in Ei. cbn in Ei.
    apply Nat.odd_spec in Ei as [m ->].
    replace ((2 * m + 1) / 2)%nat with m
      by (rewrite Nat.add_comm, Nat.mul_comm, Nat.div_add by lia; reflexivity).
    destruct (decide (m = k)) as [->|Hne].
    + rewrite Hk, Hbad. reflexivity.
    + assert (Hm : (m < k)%nat) by lia.
      destruct (names !! m) as [n|] eqn:En.
      * destruct (Hbefore m n Hm En) as [code Hcode]. rewrite Hcode.
        apply IH; lia.
      * apply lookup_ge_None in En. apply lookup_lt_Some in Hk. lia.
Qed.

Lemma convert_loop_unknown_str (table_name name : string) :
  dict_get AGG_CONVERSION (Py.upper name) = None ->
  forall (parts : list string) (i : nat) (acc : string),
    (1 < i + length parts)%nat -> (i <= 1)%nat ->
    convert_loop table_name (AggStr name) i parts acc
    = Raise (KeyError (no_agg_msg (Py.upper name))).
Proof.
  intros Hbad parts i acc Hlen Hi.
  destruct i as [|[|i]]; [| |lia].
  - destruct parts as [|p0 [|p1 rest]]; cbn [convert_loop length Nat.even] in *; try lia.
    rewrite Hbad. reflexivity.
  - destruct parts as [|p1 rest]; cbn [convert_loop length Nat.even] in *; try lia.
    rewrite Hbad. reflexivity.
Qed.

(** Names that agree after [upper()] are interchangeable. *)
Lemma convert_loop_case_list (table_name : string) (names names' : list string) :
  map Py.upper names = map Py.upper names' ->
  forall (parts : list string) (i : nat) (acc : string),
    convert_loop table_name (AggList names) i parts acc
    = convert_loop table_name (AggList names') i parts acc.
Proof.
  intros Hup parts. induction parts as [|part parts IH]; intros i acc; cbn [convert_loop]; [reflexivity|].
  destruct (Nat.even i); [apply IH|].
  assert (Hlk : Py.upper <$> names !! (i / 2)%nat = Py.upper <$> names' !! (i / 2)%nat)
    by (rewrite <- !list_lookup_fmap; unfold fmap, list_fmap; fold (map Py.upper names); 
        fold (map Py.upper names'); rewrite Hup; reflexivity).
  destruct (names !! (i / 2)%nat) as [n|], (names' !! (i / 2)%nat) as [n'|];
    cbn in Hlk; try discriminate; [|reflexivity].
  injection Hlk as ->.
  destruct (dict_get AGG_CONVERSION _); [apply IH|reflexivity].
Qed.

Lemma convert_loop_case_str (table_name name name' : string) :
  Py.upper name = Py.upper name' ->
  forall (parts : list string) (i : nat) (acc : string),
    convert_loop table_name (AggStr name) i parts acc
    = convert_loop table_name (AggStr name') i parts acc.
Proof.
  intros Hup parts. induction parts as [|part parts IH]; intros i acc;
    cbn [convert_loop]; [reflexivity|].
  destruct (Nat.even i); [apply IH|].
  rewrite Hup. destruct (dict_get AGG_CONVERSION _); [apply IH|reflexivity].
Qed.

(** C6 (defect in the code). The docstring of [_convert] promises the
    count-mismatch [ValueError] exactly when the number of names between
    backticks differs from the length of the function list. The test the
    code makes counts every non-empty part of the split, minus one: the
    one-column template with one function is refused although the counts
    agree, and a template with one column between two texts is accepted with
    two functions. *)
Theorem C6_count_test_counts_nonempty_parts :
  (length (placeholders "`A`") = length ["SUM"]
   /\ _convert "`A`" "T" (AggList ["SUM"]) = Raise (ValueError count_mismatch_msg))
  /\ (length (placeholders "a`B`c") <> length ["SUM"; "MAX"]
      /\ _convert "a`B`c" "T" (AggList ["SUM"; "MAX"])
         = Ok "=(a_xlfn.AGGREGATE(9, 5, T[B])c)").
Proof.
  split; split; try reflexivity. cbn. lia.
Qed.

(** The loop reads the names at the indices of the columns only. *)
Lemma convert_loop_used_names (table_name : string) (names names' : list string) :
  forall (parts : list string) (i : nat) (acc : string),
    (forall k, (2 * k + 1 < i + length parts)%nat -> names !! k = names' !! k) ->
    convert_loop table_name (AggList names) i parts acc
    = convert_loop table_name (AggList names') i parts acc.
Proof.
  induction parts as [|part parts IH]; intros i acc H; cbn [convert_loop]; [reflexivity|].
  cbn [length] in H.
  destruct (Nat.even i) eqn:Ei.
  - apply IH. intros k Hk. apply H. lia.
  - apply (f_equal negb) in Ei. rewrite Nat.negb_even in Ei. cbn in Ei.
    apply Nat.odd_spec in Ei as [m ->].
    replace ((2 * m + 1) / 2)%nat with m
      by (rewrite Nat.add_comm, Nat.mul_comm, Nat.div_add by lia; reflexivity).
    rewrite (H m) by lia.
    destruct (names' !! m) as [n|]; [|reflexivity].
    destruct (dict_get AGG_CONVERSION (Py.upper n)); [|reflexivity].
    apply IH. intros k Hk. apply H. lia.
Qed.

(** C7 (defect in the code). The docstring of [_convert] promises a
    [KeyError] whenever an unsupported aggregation function is provided.
    The code looks a name up only inside the loop over the parts of the
    template, at a part between backticks, so a name that no column uses
    is never looked up. The registry has nineteen entries with distinct
    keys and ['BOGUS'] is none of them, yet [_convert('total', 'T',
    'BOGUS')] returns ['=(total)'], and with the list [['SUM', 'BOGUS']]
    the template ['a`B`c'] returns its formula. In general a template
    without backtick comes back between [=(] and [)] for every name, and
    the names of a list after those of the columns can be replaced by any
    others without a change of the result. Where a column uses the name
    the lookup is as documented: it goes through [upper()], so names that
    agree up to case give the same result, and for a name of ASCII text the
    first column whose upper-cased name is not in the registry ends the
    call with the [KeyError] of message
    [no <repr of the upper-cased name> aggregation function]. *)
Theorem C7_unused_name_is_never_looked_up :
  (length AGG_CONVERSION = 19%nat /\ NoDup (map fst AGG_CONVERSION))
  /\ (dict_get AGG_CONVERSION (Py.upper "BOGUS") = None
      /\ _convert "total" "T" (AggStr "BOGUS") = Ok "=(total)"
      /\ _convert "a`B`c" "T" (AggList ["SUM"; "BOGUS"])
         = Ok "=(a_xlfn.AGGREGATE(9, 5, T[B])c)")
  /\ (forall base_string table_name name,
        Py.contains Py.backtick base_string = false ->
        _convert base_string table_name (AggStr name) = Ok ("=(" +:+ base_string +:+ ")"))
  /\ (forall base_string table_name names extra extra',
        (length (placeholders base_string) <= length names)%nat ->
        length extra = length extra' ->
        _convert base_string table_name (AggList (names ++ extra))
        = _convert base_string table_name (AggList (names ++ extra')))
  /\ (forall base_string table_name name name',
        Py.upper name = Py.upper name' ->
        _convert base_string table_name (AggStr name)
        = _convert base_string table_name (AggStr name'))
  /\ (forall base_string table_name names names',
        map Py.upper names = map Py.upper names' ->
        _convert base_string table_name (AggList names)
        = _convert base_string table_name (AggList names'))
  /\ (forall base_string table_name name,
        placeholders base_string <> [] ->
        Py.isascii name = true ->
        ~ known_function name ->
        _convert base_string table_name (AggStr name)
        = Raise (KeyError ("no " +:+ Py.repr (Py.upper name) +:+ " aggregation function")))
  /\ (forall base_string table_name names k name,
        count_test base_string names = true ->
        (k < length (placeholders base_string))%nat ->
        names !! k = Some name ->
        Py.isascii name = true ->
        ~ known_function name ->
        (forall j n, (j < k)%nat -> names !! j = Some n -> known_function n) ->
        _convert base_string table_name (AggList names)
        = Raise (KeyError ("no " +:+ Py.repr (Py.upper name) +:+ " aggregation function"))).
Proof.
  split; [split; [reflexivity|]|].
  { apply (bool_decide_unpack _). vm_compute. reflexivity. }
  split; [repeat split|].
  split; [|split; [|split; [|split; [|split]]]].
  - intros base_string table_name name Hb. unfold _convert.
    rewrite (split_without _ _ Hb), convert_loop_no_column, append_assoc. reflexivity.
  - intros base_string table_name names extra extra' Hn Hlen. unfold _convert.
    rewrite !length_app, Hlen.
    rewrite (convert_loop_used_names table_name (names ++ extra) (names ++ extra')).
    + reflexivity.
    + intros k Hk. unfold placeholders in Hn. rewrite odd_parts_length in Hn.
      assert (k < length names)%nat.
      { pose proof (Nat.div_mod_eq (length (Py.split Py.backtick base_string)) 2).
        pose proof (Nat.mod_upper_bound (length (Py.split Py.backtick base_string)) 2).
        lia. }
      rewrite !lookup_app_l by assumption. reflexivity.
  - intros base_string table_name name name' Hup. unfold _convert.
    rewrite (convert_loop_case_str _ _ _ Hup). reflexivity.
  - intros base_string table_name names names' Hup. unfold _convert.
    rewrite (convert_loop_case_list _ _ _ Hup).
    apply (f_equal (@length string)) in Hup as Hlen. rewrite !length_map in Hlen.
    rewrite Hlen. reflexivity.
  - intros base_string table_name name Hph _ Hbad. unfold _convert, placeholders in *.
    assert (Hnone : dict_get AGG_CONVERSION (Py.upper name) = None).
    { destruct (dict_get AGG_CONVERSION (Py.upper name)) eqn:E; [|reflexivity].
      exfalso. apply Hbad. exists z. exact E. }
    rewrite (convert_loop_unknown_str _ _ Hnone); [reflexivity| |lia].
    destruct (Py.split Py.backtick base_string) as [|p0 [|p1 rest]]; cbn in *;
      try congruence; lia.
  - intros base_string table_name names k name Hcount Hk Hname _ Hbad Hbefore.
    unfold _convert, placeholders, count_test in *. rewrite Hcount. cbn [negb].
    assert (Hnone : dict_get AGG_CONVERSION (Py.upper name) = None).
    { destruct (dict_get AGG_CONVERSION (Py.upper name)) eqn:E; [|reflexivity].
      exfalso. apply Hbad. exists z. exact E. }
    rewrite (convert_loop_unknown_list _ _ _ _ Hname Hnone Hbefore); [reflexivity|lia|].
    rewrite odd_parts_length in Hk.
    pose proof (Nat.div_mod_eq (length (Py.split Py.backtick base_string)) 2).
    pose proof (Nat.mod_upper_bound (length (Py.split Py.backtick base_string)) 2).
    lia.
Qed.

Lemma C7_witness :
  _convert "grand total" "T" (AggStr "BOGUS") = Ok "=(grand total)"
  /\ _convert "a`B`c" "T" (AggList (["SUM"] ++ ["BOGUS"]))
     = _convert "a`B`c" "T" (AggList (["SUM"] ++ ["MAX"]))
  /\ _convert "`Cost` + `Tax`" "T" (AggStr "Sum")
     = _convert "`Cost` + `Tax`" "T" (AggStr "SUM")
  /\ _convert "`Cost` + `Tax`" "T" (AggList ["sum"; "Max"])
     = _convert "`Cost` + `Tax`" "T" (AggList ["SUM"; "MAX"])
  /\ _convert "`Cost` + `Tax`" "T" (AggStr "bogus")
     = Raise (KeyError "no 'BOGUS' aggregation function")
  /\ _convert "`Cost` + `Tax`" "T" (AggList ["sum"; "bogus"])
     = Raise (KeyError "no 'BOGUS' aggregation function").
Proof.
  destruct C7_unused_name_is_never_looked_up
    as (_ & _ & Hnone & Hextra & Hcase & Hcases & Hstr & Hlist).
  split; [|split; [|split; [|split; [|split]]]].
  - apply (Hnone "grand total"%string "T"%string "BOGUS"%string). reflexivity.
  - apply (Hextra "a`B`c"%string "T"%string ["SUM"]%string ["BOGUS"]%string ["MAX"]%string).
    + cbn. lia.
    + reflexivity.
  - apply (Hcase "`Cost` + `Tax`"%string "T"%string "Sum"%string "SUM"%string). reflexivity.
  - apply (Hcases "`Cost` + `Tax`"%string "T"%string ["sum"; "Max"]%string
             ["SUM"; "MAX"]%string).
    reflexivity.
  - apply (Hstr "`Cost` + `Tax`"%string "T"%string "bogus"%string).
    + discriminate.
    + reflexivity.
    + intros [code H]. discriminate H.
  - apply (Hlist "`Cost` + `Tax`"%string "T"%string ["sum"; "bogus"]%string 1%nat "bogus"%string).
    + reflexivity.
    + cbn. lia.
    + reflexivity.
    + reflexivity.
    + intros [code H]. discriminate H.
    + intros j n Hj Hn. assert (j = 0%nat) as -> by lia.
      injection Hn as <-. exists 9. reflexivity.
Defined.

(** ** Dicts and the filter *)

Lemma dict_pop_last {A : Type} (d : pydict A) (k : string) (v : A) :
  k ∉ d.*1 -> dict_pop (d ++ [(k, v)]) k = Some d.
Proof.
  induction d as [|[k' a] d IH]; intros Hk; cbn.
  - rewrite String.eqb_refl. reflexivity.
  - cbn in Hk. apply not_elem_of_cons in Hk as [Hne Hk].
    destruct (String.eqb_spec k' k) as [->|_]; [congruence|].
    rewrite (IH Hk). reflexivity.
Qed.

Lemma dict_set_fresh {A : Type} (d : pydict A) (k : string) (v : A) :
  k ∉ d.*1 -> dict_set d k v = d ++ [(k, v)].
Proof.
  induction d as [|[k' a] d IH]; intros Hk; cbn; [reflexivity|].
  cbn in Hk. apply not_elem_of_cons in Hk as [Hne Hk].
  destruct (String.eqb_spec k' k) as [->|_]; [congruence|].
  rewrite (IH Hk). reflexivity.
Qed.

Lemma dict_set_present {A : Type} (d rest : pydict A) (k : string) (v0 v : A) :
  k ∉ d.*1 -> dict_set (d ++ (k, v0) :: rest) k v = d ++ (k, v) :: rest.
Proof.
  induction d as [|[k' a] d IH]; intros Hk; cbn.
  - rewrite String.eqb_refl. reflexivity.
  - cbn in Hk. apply not_elem_of_cons in Hk as [Hne Hk].
    destruct (String.eqb_spec k' k) as [->|_]; [congruence|].
    rewrite (IH Hk). reflexivity.
Qed.

Lemma py_nth_last {A : Type} (l : list A) (n : nat) :
  (0 < n)%nat -> py_nth l (Z.of_nat n - 1) = l !! (n - 1)%nat.
Proof.
  intros Hn. unfold py_nth.
  destruct (Z.ltb_spec (Z.of_nat n - 1) 0); [lia|].
  f_equal. lia.
Qed.

Lemma aligned_nil (keys : list string) : aligned keys [].
Proof. apply prefix_nil. Qed.

Lemma aligned_length (keys : list string) (f : pydict value) :
  aligned keys f -> (length f <= length keys)%nat.
Proof. intros H. apply prefix_length in H. rewrite length_fmap in H. exact H. Qed.

Lemma aligned_app_l (keys : list string) (f g : pydict value) :
  aligned keys (f ++ g) -> aligned keys f.
Proof.
  unfold aligned. rewrite fmap_app. intros [rest ->].
  exists (g.*1 ++ rest). rewrite <- app_assoc. reflexivity.
Qed.

Lemma aligned_lookup (keys : list string) (f : pydict value) (i : nat) (kv : string * value) :
  aligned keys f -> f !! i = Some kv -> keys !! i = Some kv.1.
Proof.
  intros [rest ->] Hi. apply lookup_app_l_Some. rewrite list_lookup_fmap. rewrite Hi. reflexivity.
Qed.

Lemma aligned_fresh (keys : list string) (f : pydict value) (name : string) :
  NoDup keys -> aligned keys f -> keys !! length f = Some name -> name ∉ f.*1.
Proof.
  intros Hnd [rest Hk] Hname Hin.
  apply list_elem_of_lookup in Hin as [i Hi].
  assert (Hlt : (i < length f)%nat)
    by (apply lookup_lt_Some in Hi; rewrite length_fmap in Hi; exact Hi).
  assert (Hki : keys !! i = Some name) by (rewrite Hk; apply lookup_app_l_Some; exact Hi).
  pose proof (NoDup_lookup _ _ _ _ Hnd Hki Hname). lia.
Qed.

Lemma aligned_snoc (keys : list string) (f : pydict value) (name : string) (v : value) :
  aligned keys f -> keys !! length f = Some name -> aligned keys (f ++ [(name, v)]).
Proof.
  intros [rest Hk] Hname. unfold aligned. rewrite fmap_app. cbn.
  rewrite Hk in Hname. rewrite lookup_app_r in Hname by (rewrite length_fmap; lia).
  rewrite length_fmap, Nat.sub_diag in Hname.
  destruct rest as [|k rest]; [discriminate|]. injection Hname as ->.
  exists rest. rewrite Hk, <- app_assoc. reflexivity.
Qed.

(** The loop drops what the deeper levels of an earlier subtree left in
    the filter and keeps the [position] pairs of the ancestors. *)
Lemma truncate_filter_path (keys : list string) (path : pydict value) :
  NoDup keys ->
  forall (extra : pydict value) (fuel : nat),
    aligned keys (path ++ extra) -> (length extra < fuel)%nat ->
    truncate_filter fuel keys (length path) (path ++ extra) = Ok path.
Proof.
  intros Hnd extra. induction extra as [|kv extra IH] using rev_ind; intros fuel Hal Hfuel.
  - rewrite app_nil_r. destruct fuel; cbn; rewrite Nat.eqb_refl; reflexivity.
  - destruct fuel as [|fuel]; [lia|]. rewrite length_app in Hfuel. cbn in Hfuel.
    cbn [truncate_filter].
    destruct (Nat.eqb_spec (length (path ++ extra ++ [kv])) (length path)) as [E|_].
    { rewrite !length_app in E. cbn in E. lia. }
    rewrite py_nth_last by (rewrite !length_app; cbn; lia).
    rewrite app_assoc in *.
    assert (Hlast : ((path ++ extra) ++ [kv]) !! (length ((path ++ extra) ++ [kv]) - 1)%nat = Some kv).
    { rewrite (length_app (path ++ extra)). cbn.
      replace (length (path ++ extra) + 1 - 1)%nat with (length (path ++ extra)) by lia.
      apply list_lookup_middle. reflexivity. }
    rewrite (aligned_lookup _ _ _ _ Hal Hlast).
    destruct kv as [k v]. cbn [fst].
    assert (Hk : keys !! length (path ++ extra) = Some k).
    { apply (aligned_lookup _ _ _ (k, v) Hal). apply list_lookup_middle. reflexivity. }
    rewrite dict_pop_last
      by (eapply aligned_fresh; [exact Hnd|eapply aligned_app_l; exact Hal|exact Hk]).
    apply IH; [eapply aligned_app_l; exact Hal|lia].
Qed.

(** ** The recursion over the levels follows the post-order plan *)

Lemma for_each_app {A : Type} (l1 l2 : list A) (body : A -> M unit) (w : world) :
  for_each (l1 ++ l2) body w = bind (for_each l1 body) (fun _ => for_each l2 body) w.
Proof.
  revert w. induction l1 as [|x l1 IH]; intros w; [reflexivity|].
  cbn [app for_each]. unfold bind in *.
  destruct (body x w) as [[[]|e] w1]; [|reflexivity].
  apply IH.
Qed.

Section Traversal.

Variable py_eval : string -> scope -> result bool.
Variable data_dict : list (string * DataFrame).
Hypothesis keys_nodup : NoDup data_dict.*1.

Lemma exec_plan_app (p q : plan) (w : world) :
  exec_plan py_eval data_dict (plan_app p q) w
  = match exec_plan py_eval data_dict p w with
    | (Ok _, w') => exec_plan py_eval data_dict q w'
    | (Raise e, w') => (Raise e, w')
    end.
Proof.
  unfold exec_plan, plan_app. destruct (failure p) as [e|] eqn:E.
  - rewrite E. unfold bind, raise.
    destruct (for_each (lines p) _ w) as [[[]|x] w1]; reflexivity.
  - cbn [lines failure]. unfold bind at 1. rewrite for_each_app.
    unfold bind, ret. destruct (for_each (lines p) _ w) as [[[]|x] w1]; reflexivity.
Qed.

Lemma exec_plan_line (position : nat) (line : list value) (w : world) :
  exec_plan py_eval data_dict (plan_line position line) w
  = write_level_line py_eval data_dict position line w.
Proof.
  unfold exec_plan, plan_line. cbn [lines failure for_each]. unfold bind.
  destruct (write_level_line _ _ _ _ w) as [[[]|x] w1]; reflexivity.
Qed.

Lemma dict_get_lookup (d : list (string * DataFrame)) (i : nat) (name : string)
    (df : DataFrame) :
  NoDup d.*1 -> d !! i = Some (name, df) -> dict_get d name = Some df.
Proof.
  revert i. induction d as [|[k a] d IH]; intros i Hnd Hi; [discriminate|].
  cbn. cbn in Hnd. apply NoDup_cons in Hnd as [Hk Hnd].
  destruct i as [|i]; cbn in Hi.
  - injection Hi as -> ->. rewrite String.eqb_refl. reflexivity.
  - change (d !! i = Some (name, df)) in Hi.
    destruct (String.eqb_spec k name) as [->|_]; [|eapply IH; eauto].
    exfalso. apply Hk. apply list_elem_of_lookup. exists i.
    rewrite list_lookup_fmap, Hi. reflexivity.
Qed.

Lemma level_at (position : nat) (name : string) (df : DataFrame)
    (deeper : list (string * DataFrame)) :
  drop position data_dict = (name, df) :: deeper ->
  data_dict.*1 !! position = Some name
  /\ level_frame data_dict position = Ok df
  /\ length data_dict.*1 = (position + 1 + length deeper)%nat.
Proof.
  intros Hdrop.
  assert (Hl : data_dict !! position = Some (name, df)).
  { rewrite <- (Nat.add_0_r position), <- lookup_drop, Hdrop. reflexivity. }
  assert (Hk : data_dict.*1 !! position = Some name)
    by (rewrite list_lookup_fmap, Hl; reflexivity).
  split; [exact Hk|]. split.
  - unfold level_frame. rewrite Hk, (dict_get_lookup _ _ _ _ keys_nodup Hl). reflexivity.
  - apply (f_equal length) in Hdrop. rewrite length_drop in Hdrop. cbn in Hdrop.
    apply lookup_lt_Some in Hl. rewrite length_fmap. lia.
Qed.

(** One level below the last one the call returns at once. *)
Lemma looper_below_last (fuel : nat) (d : DataFrame) (f : list (string * value))
    (w : world) :
  data_dict <> [] ->
  _recursive_data_looper py_eval (S fuel) data_dict (length data_dict) (Some d) (Some f) w
  = (Ok f, w).
Proof.
  intros Hne. cbn [_recursive_data_looper]. unfold bind, ret. cbn [default].
  rewrite length_fmap, Nat.eqb_refl.
  rewrite py_nth_last by (destruct data_dict; [congruence|cbn; lia]).
  destruct (data_dict.*1 !! (length data_dict - 1)%nat) eqn:E; [reflexivity|].
  apply lookup_ge_None in E. rewrite length_fmap in E.
  destruct data_dict; [congruence|cbn in E; lia].
Qed.

Lemma level_data_filtered (position : nat) (df : DataFrame) (path : list (string * value)) :
  level_frame data_dict position = Ok df ->
  level_data data_dict position path = filtered df path.
Proof.
  intros Hframe. unfold level_data, filtered. rewrite Hframe.
  destruct path; reflexivity.
Qed.

(** The filter that a row hands to the level below: the path with the
    row's key added, whatever an earlier subtree left behind it. *)
Lemma descend_filter_path (position : nat) (name : string) (data_ : DataFrame)
    (line : list value) (path extra : list (string * value)) :
  data_dict.*1 !! position = Some name ->
  (position + 1 < length data_dict.*1)%nat ->
  length path = position ->
  aligned data_dict.*1 (path ++ extra) ->
  match key_of name data_ line with
  | Ok v =>
      exists extra',
        descend_filter data_dict.*1 position data_ line (path ++ extra)
        = Ok ((path ++ [(name, v)]) ++ extra')
        /\ aligned data_dict.*1 ((path ++ [(name, v)]) ++ extra')
  | Raise e =>
      descend_filter data_dict.*1 position data_ line (path ++ extra) = Raise e
  end.
Proof.
  intros Hname Hdeep Hlen Hal. unfold descend_filter, key_of.
  destruct (Nat.eqb_spec (length data_dict.*1) (position + 1)) as [E|_]; [lia|].
  cbn [negb]. rewrite Hname.
  destruct (index_of name (columns data_)) as [i|]; [|reflexivity].
  destruct (line !! i) as [v|]; [|reflexivity].
  assert (Hfresh : name ∉ path.*1).
  { eapply aligned_fresh; [exact keys_nodup|eapply aligned_app_l; exact Hal|].
    rewrite Hlen. exact Hname. }
  destruct extra as [|[k v0] extra].
  - exists []. rewrite !app_nil_r in *. rewrite dict_set_fresh by exact Hfresh.
    split; [reflexivity|]. apply aligned_snoc; [exact Hal|]. rewrite Hlen. exact Hname.
  - assert (k = name) as ->.
    { assert (Hk : data_dict.*1 !! length path = Some k).
      { apply (aligned_lookup _ _ _ (k, v0) Hal). apply list_lookup_middle. reflexivity. }
      rewrite Hlen, Hname in Hk. congruence. }
    exists extra. rewrite dict_set_present by exact Hfresh.
    rewrite <- app_assoc. cbn [app]. split; [reflexivity|].
    unfold aligned in *. rewrite !fmap_app in *. exact Hal.
Qed.

Lemma looper_agrees_raise (path : list (string * value)) (e : exn) (w : world) :
  looper_agrees data_dict.*1 path (Raise e, w) (Raise e, w).
Proof. split; reflexivity. Qed.

Lemma looper_plan (remaining : list (string * DataFrame)) :
  forall (position fuel : nat) (data_ : option DataFrame)
    (filter_ : option (list (string * value))) (path extra : list (string * value))
    (w : world),
    remaining <> [] ->
    drop position data_dict = remaining ->
    (length remaining < fuel)%nat ->
    default [] filter_ = path ++ extra ->
    aligned data_dict.*1 (path ++ extra) ->
    length path = position ->
    looper_agrees data_dict.*1 path
      (_recursive_data_looper py_eval fuel data_dict position data_ filter_ w)
      (exec_plan py_eval data_dict (post_order remaining position path) w).
Proof.
  induction remaining as [|[name df] deeper IH]; [congruence|].
  intros position fuel data_ filter_ path extra w _ Hdrop Hfuel Hf Hal Hlen.
  destruct (level_at _ _ _ _ Hdrop) as (Hname & Hframe & Hkeys).
  destruct fuel as [|fuel]; [cbn in Hfuel; lia|].
  cbn [_recursive_data_looper post_order]. rewrite Hf.
  assert (Hstart : forall (k : DataFrame -> M (list (string * value))),
            bind match data_ with
                 | Some d => ret d
                 | None => lift (level_frame data_dict position)
                 end k w = (let d := default df data_ in k d w)).
  { intros k. destruct data_; unfold bind, ret, lift; [reflexivity|].
    rewrite Hframe. reflexivity. }
  rewrite Hstart. cbn zeta.
  destruct (Nat.eqb_spec (length data_dict.*1) position) as [E|_]; [lia|].
  unfold bind at 1, lift at 1.
  pose proof (truncate_filter_path _ path keys_nodup extra (S (length (path ++ extra))) Hal
                ltac:(rewrite length_app; lia)) as Htrunc.
  rewrite Hlen in Htrunc. rewrite Htrunc. clear Htrunc.
  unfold bind at 1, lift at 1. rewrite (level_data_filtered _ _ _ Hframe).
  destruct (filtered df path) as [data1|e]; [|apply looper_agrees_raise].
  lazymatch goal with
  | |- context [for_fold _ _ ?b] => set (body := b)
  end.
  lazymatch goal with
  | |- context [plan_rows _ ?f] => set (each := f)
  end.
  assert (Hloop : forall (ls : list (list value)) (extra : list (string * value)) (w : world),
             aligned data_dict.*1 (path ++ extra) ->
             looper_agrees data_dict.*1 path
               (for_fold ls (path ++ extra) body w)
               (exec_plan py_eval data_dict (plan_rows ls each) w)).
  { clear w extra Hf Hal Hstart. induction ls as [|line ls IHls]; intros extra w Hal.
    - split; [reflexivity|]. cbn. split; [reflexivity|]. exists extra. auto.
    - cbn [for_fold plan_rows]. rewrite exec_plan_app.
      unfold bind at 1. unfold body at 1.
      assert (Hreset : exists ex,
                 (if (position =? 0)%nat then [] else path ++ extra) = path ++ ex
                 /\ aligned data_dict.*1 (path ++ ex)).
      { destruct (Nat.eqb_spec position 0) as [E|_]; [|eauto].
        exists []. destruct path; [|cbn in Hlen; lia].
        split; [reflexivity|apply aligned_nil]. }
      destruct Hreset as (ex & -> & Halx).
      unfold each at 1.
      destruct deeper as [|level' deeper'].
      + (* the last level: nothing is added to the filter *)
        unfold bind at 1, lift at 1, descend_filter.
        rewrite Hkeys. cbn [length]. rewrite Nat.add_0_r, Nat.eqb_refl. cbn [negb].
        unfold bind at 1.
        replace (position + 1)%nat with (length data_dict)
          by (rewrite length_fmap in Hkeys; cbn in Hkeys; lia).
        destruct fuel as [|fuel]; [cbn in Hfuel; lia|].
        rewrite looper_below_last by (intros ->; destruct position; discriminate).
        rewrite exec_plan_line. unfold bind at 1.
        destruct (write_level_line py_eval data_dict position line w) as [[[]|x] w1].
        * unfold ret at 1. apply IHls. exact Halx.
        * apply looper_agrees_raise.
      + pose proof (descend_filter_path position name data1 line path ex Hname
                      ltac:(rewrite Hkeys; cbn; lia) Hlen Halx) as Hd.
        unfold bind at 1, lift at 1.
        destruct (key_of name data1 line) as [v|e].
        * destruct Hd as (ex' & -> & Hal').
          rewrite exec_plan_app. unfold bind at 1.
          pose proof (IH (position + 1)%nat fuel (Some data1)
                        (Some ((path ++ [(name, v)]) ++ ex')) (path ++ [(name, v)]) ex' w
                        ltac:(discriminate)
                        ltac:(rewrite <- drop_drop, Hdrop; reflexivity)
                        ltac:(cbn in *; lia) eq_refl Hal'
                        ltac:(rewrite length_app; cbn; lia)) as Hrec.
          replace (S position) with (position + 1)%nat by lia.
          destruct Hrec as [Hw Hr].
          destruct (_recursive_data_looper py_eval fuel data_dict (position + 1)
                      (Some data1) (Some ((path ++ [(name, v)]) ++ ex')) w)
            as [[f|x] w1]; cbn [fst snd] in *;
          destruct (exec_plan py_eval data_dict
                      (post_order (level' :: deeper') (position + 1) (path ++ [(name, v)])) w)
            as [r2 w2]; cbn [fst snd] in *; subst w2.
          -- destruct Hr as (-> & ex2 & -> & Hal2).
             rewrite exec_plan_line. unfold bind at 1.
             destruct (write_level_line py_eval data_dict position line w1) as [[[]|x] w3].
             ++ unfold ret at 1. rewrite <- app_assoc. apply IHls.
                rewrite app_assoc. exact Hal2.
             ++ apply looper_agrees_raise.
          -- subst r2. apply looper_agrees_raise.
        * rewrite Hd. unfold exec_plan, plan_fail. cbn.
          apply looper_agrees_raise. }
  specialize (Hloop (rows data1) [] w).
  rewrite app_nil_r in Hloop. specialize (Hloop ltac:(eapply aligned_app_l; exact Hal)).
  unfold bind at 1.
  destruct Hloop as [Hw Hr].
  destruct (for_fold (rows data1) path body w) as [[f|x] w1]; cbn [fst snd] in *.
  - split; [exact Hw|]. cbn [fst snd ret].
    destruct Hr as (Hok & ex2 & -> & Hal2). split; [exact Hok|].
    destruct (Nat.eqb_spec position 0) as [E|_].
    + exists []. rewrite app_nil_r. split; [reflexivity|].
      eapply aligned_app_l; exact Hal.
    + exists ex2. auto.
  - split; [exact Hw|exact Hr].
Qed.

End Traversal.

(** ** What the loop over the columns of a line may do *)



Section Emits.

Context {A : Type} (P : event -> Prop) (t0 : CollapsibleTable).

Lemma emits_ret (a : A) : emits P t0 (ret a).
Proof. intros w Hw. split; [exact Hw|]. exists []. rewrite app_nil_r. split; [reflexivity|constructor]. Qed.




Lemma emits_bind {B : Type} (m : M B) (f : B -> M A) :
  emits P t0 m -> (forall b, emits P t0 (f b)) -> emits P t0 (bind m f).
Proof.
  intros Hm Hf w Hw. unfold bind. destruct (Hm w Hw) as (Hfr & evs & Hc & Hev).
  destruct (m w) as [[b|e] w1]; cbn [fst snd] in *.
  - destruct (Hf b w1 Hfr) as (Hfr2 & evs2 & Hc2 & Hev2).
    split; [exact Hfr2|]. exists (evs ++ evs2).
    rewrite Hc2, Hc, app_assoc. split; [reflexivity|]. apply Forall_app. auto.
  - split; [exact Hfr|]. exists evs. auto.
Qed.


End Emits.



Lemma emits_for_each {A : Type} (P : event -> Prop) (t0 : CollapsibleTable) (l : list A)
    (body : A -> M unit) :
  (forall x, emits P t0 (body x)) -> emits P t0 (for_each l body).
Proof.
  intros Hb. induction l as [|x l IH]; cbn [for_each]; [apply emits_ret|].
  apply emits_bind; [apply Hb|intros _; exact IH].
Qed.


Lemma emits_weaken {A : Type} (P Q : event -> Prop) (t0 : CollapsibleTable) (m : M A) :
  (forall e, P e -> Q e) -> emits P t0 m -> emits Q t0 m.
Proof.
  intros HPQ Hm w Hw. destruct (Hm w Hw) as (Hfr & evs & Hc & Hev).
  split; [exact Hfr|]. exists evs. split; [exact Hc|].
  eapply Forall_impl; [exact Hev|exact HPQ].
Qed.




Section Line.

Variable py_eval : string -> scope -> result bool.
Variable t0 : CollapsibleTable.
















Lemma set_row_properties_run (level : nat) (level_name : string) (w : world) :
  set_row_properties level level_name w
  = emit (set_row (data_row (table w)) level (hidden_flag (table w) level level_name)) w.
Proof.
  unfold set_row_properties, hidden_flag, bind, get_table.
  destruct level as [|level]; cbn [Nat.eqb negb]; [reflexivity|].
  destruct (data_properties (table w)) as [properties|]; [|reflexivity].
  destruct (properties !! level_name) as [p|]; [|reflexivity].
  cbn. destruct (hidden p); reflexivity.
Qed.




End Line.


(** ** The lines of a plan on the worksheet *)

Section Lines.

Variable py_eval : string -> scope -> result bool.
Variable data_dict : list (string * DataFrame).
Hypothesis keys_nodup : NoDup data_dict.*1.







Lemma exec_plan_calls (p : plan) (w : world) :
  calls (exec_plan py_eval data_dict p w).2
  = calls (for_each (lines p) (fun l => write_level_line py_eval data_dict l.1 l.2) w).2.
Proof.
  unfold exec_plan, bind.
  destruct (for_each (lines p) _ w) as [[[]|e] w1]; [|reflexivity].
  destruct (failure p); reflexivity.
Qed.

Lemma exec_plan_ok (p : plan) (w : world) (u : unit) :
  (exec_plan py_eval data_dict p w).1 = Ok u ->
  failure p = None
  /\ exec_plan py_eval data_dict p w
     = for_each (lines p) (fun l => write_level_line py_eval data_dict l.1 l.2) w.
Proof.
  unfold exec_plan, bind.
  destruct (for_each (lines p) _ w) as [[[]|e] w1]; [|discriminate].
  destruct (failure p); [discriminate|]. intros _. destruct u. auto.
Qed.

(** The call that [add_collapsible_table] makes, with any fuel above the
    number of levels, runs the plan of the traversal. *)
Lemma looper_traversal (fuel : nat) (w : world) :
  (length data_dict < fuel)%nat ->
  let run := _recursive_data_looper py_eval fuel data_dict 0 None None w in
  let plan_run := exec_plan py_eval data_dict (traversal data_dict) w in
  run.2 = plan_run.2
  /\ match run.1 with
     | Ok _ => plan_run.1 = Ok tt
     | Raise e => plan_run.1 = Raise e
     end.
Proof.
  intros Hfuel run plan_run. subst run plan_run. unfold traversal.
  destruct data_dict as [|level deeper] eqn:Hd.
  - destruct fuel; [cbn in Hfuel; lia|]. cbn. auto.
  - rewrite <- Hd in *.
    destruct (looper_plan py_eval data_dict keys_nodup data_dict 0 fuel None None [] [] w)
      as [Hw Hr]; try reflexivity.
    + rewrite Hd. discriminate.
    + exact Hfuel.
    + apply aligned_nil.
    + split; [exact Hw|].
      destruct (_recursive_data_looper py_eval fuel data_dict 0 None None w).1;
        [apply Hr|exact Hr].
Qed.

End Lines.
(** ** The traversal: order, filter and outline *)

(** *** Data keyed by text: the query is the equality conjunction *)

























(** The outline of the sample sheet: rows 2 to 28, the computer rows at
    level 0 and visible, the application rows at level 1 and the CVE rows at
    level 2, hidden. *)
Example sample_outline :
  Sample.outline_rows (Sample.sheet_calls "bottom")
  = [ (2, 2%nat, true); (3, 2%nat, true); (4, 1%nat, true); (5, 2%nat, true);
      (6, 2%nat, true); (7, 1%nat, true); (8, 2%nat, true); (9, 1%nat, true);
      (10, 0%nat, false);
      (11, 2%nat, true); (12, 2%nat, true); (13, 2%nat, true); (14, 1%nat, true);
      (15, 2%nat, true); (16, 1%nat, true); (17, 2%nat, true); (18, 1%nat, true);
      (19, 2%nat, true); (20, 1%nat, true); (21, 0%nat, false);
      (22, 2%nat, true); (23, 2%nat, true); (24, 2%nat, true); (25, 1%nat, true);
      (26, 2%nat, true); (27, 1%nat, true); (28, 0%nat, false) ].
Proof. vm_compute. reflexivity. Qed.

(** ** A cell with a list of conditions *)

Lemma set_formats_id (t : CollapsibleTable) : set_formats (formats t) t = t.
Proof. destruct t; reflexivity. Qed.

Lemma set_conditions_id (t : CollapsibleTable) : set_conditions (conditions t) t = t.
Proof. destruct t; reflexivity. Qed.

Lemma with_calls_nil (w : world) : with_calls w [] = w.
Proof. destruct w. unfold with_calls. cbn. rewrite app_nil_r. reflexivity. Qed.

Lemma with_calls_app (w : world) (evs evs' : list event) :
  with_calls (with_calls w evs) evs' = with_calls w (evs ++ evs').
Proof. unfold with_calls. cbn. rewrite app_assoc. reflexivity. Qed.

Lemma read1_present {A : Type} (attr : CollapsibleTable -> gmap string (gmap string A))
    (assign : gmap string (gmap string A) -> CollapsibleTable -> CollapsibleTable)
    (k1 : string) (inner : gmap string A) (w : world) :
  (forall t, assign (attr t) t = t) ->
  attr (table w) !! k1 = Some inner ->
  read1 attr assign k1 w = (Ok inner, w).
Proof.
  intros Hid Hk. unfold read1, bind, get_table, modify_table, ret, getitem1.
  rewrite Hk. cbn. rewrite Hid. destruct w; reflexivity.
Qed.

Lemma read2_present {A : Type} (fresh : A)
    (attr : CollapsibleTable -> gmap string (gmap string A))
    (assign : gmap string (gmap string A) -> CollapsibleTable -> CollapsibleTable)
    (k1 k2 : string) (inner : gmap string A) (a : A) (w : world) :
  (forall t, assign (attr t) t = t) ->
  attr (table w) !! k1 = Some inner -> inner !! k2 = Some a ->
  read2 fresh attr assign k1 k2 w = (Ok a, w).
Proof.
  intros Hid Hk1 Hk2. unfold read2, bind, get_table, modify_table, ret, getitem2, getitem1.
  rewrite Hk1. cbn. rewrite Hk2. cbn. rewrite Hid. destruct w; reflexivity.
Qed.

Section Conditions.

Variable py_eval : string -> scope -> result bool.
Variables (line_info : list value) (line_header : list string).
Variables (level : nat) (level_name col : string) (_column_ : value).
Variables (conditions_ formats_ : list string).
Variables (fl cl : gmap string pyarg) (i j : nat) (v : value).
Variable t : CollapsibleTable.

Local Abbreviation sc := (line_scope line_info line_header level level_name col _column_).

Hypothesis formats_level : formats t !! level_name = Some fl.
Hypothesis formats_col : fl !! col = Some (PList formats_).
Hypothesis conditions_level : conditions t !! level_name = Some cl.
Hypothesis conditions_col : cl !! col = Some (PList conditions_).
Hypothesis parallel : length formats_ = length conditions_.
Hypothesis col_in_header : index_of col (header t) = Some j.
Hypothesis col_in_line : index_of col line_header = Some i.
Hypothesis cell : line_info !! i = Some v.
Hypothesis conditions_evaluate :
  forall condition, condition ∈ conditions_ ->
    exists b, py_eval (Helper._format_string condition) sc = Ok b.

Lemma write_cell_plain (w : world) :
  table w = t ->
  write_cell line_info line_header col no_format w
  = (Ok tt, with_calls w [write (data_row t) (start_col t + Z.of_nat j) v None]).
Proof.
  intros Ht. unfold write_cell, header_col, line_value, no_format, bind, get_table, emit.
  rewrite Ht, col_in_header, col_in_line. cbn. rewrite cell. cbn.
  unfold with_calls. rewrite Ht. reflexivity.
Qed.

Lemma write_cell_indexed (w : world) (index : nat) (format : string) :
  table w = t -> formats_ !! index = Some format ->
  write_cell line_info line_header col (format_at level_name col (Some index)) w
  = (Ok tt, with_calls w [write (data_row t) (start_col t + Z.of_nat j) v
                            (_get_excel_format (PStr format))]).
Proof.
  intros Ht Hf. unfold write_cell, header_col, line_value, format_at.
  unfold bind at 1, get_table at 1. unfold bind at 1. unfold bind at 1, get_table at 1.
  rewrite Ht, col_in_header. cbn [or_raise]. unfold bind at 1, ret at 1. unfold ret at 1.
  unfold bind at 1. unfold bind at 1. rewrite col_in_line. cbn [or_raise]. unfold ret at 1.
  rewrite cell. cbn [or_raise]. unfold ret at 1.
  unfold bind at 1. unfold bind at 1.
  rewrite (read2_present PHash formats set_formats level_name col fl (PList formats_) w
             set_formats_id ltac:(rewrite Ht; exact formats_level) formats_col).
  unfold bind, lift, ret, subscript, emit. rewrite Hf. cbn.
  unfold with_calls. rewrite Ht. reflexivity.
Qed.

Lemma eval_run (condition : string) (w : world) :
  eval py_eval condition sc w
  = (py_eval (Helper._format_string condition) sc,
     with_calls w [eval_call (Helper._format_string condition)]).
Proof. reflexivity. Qed.

(** The loop over the indices, from any index on. *)
Lemma conditions_loop (done_c done_f : list string) :
  forall (rest_c rest_f : list string) (written : bool) (w : world),
    conditions_ = done_c ++ rest_c -> formats_ = done_f ++ rest_f ->
    length done_c = length done_f -> table w = t ->
    for_fold (seq (length done_c) (length rest_c)) written
      (fun index written =>
         bind (or_raise (conditions_ !! index) IndexError) (fun condition =>
         bind (eval py_eval condition sc) (fun b =>
           if b then
             bind (write_cell line_info line_header col
                     (format_at level_name col (Some index))) (fun _ => ret true)
           else ret written))) w
    = (Ok (written || existsb (holds py_eval sc) rest_c),
       with_calls w (every_match_events (holds py_eval sc) (data_row t)
                       (start_col t + Z.of_nat j) v rest_c rest_f)).
Proof.
  intros rest_c. revert done_c done_f.
  induction rest_c as [|condition rest_c IH];
    intros done_c done_f rest_f written w Hc Hf Hlen Ht.
  - cbn. rewrite orb_false_r, with_calls_nil. reflexivity.
  - assert (Hlens : length rest_f = S (length rest_c)).
    { pose proof parallel as Hp. rewrite Hc, Hf, !length_app in Hp. cbn in Hp. lia. }
    destruct rest_f as [|format rest_f]; [discriminate|].
    cbn [length seq for_fold every_match_events existsb].
    unfold bind at 1. unfold bind at 1.
    assert (Hci : conditions_ !! length done_c = Some condition)
      by (rewrite Hc; apply list_lookup_middle; reflexivity).
    assert (Hfi : formats_ !! length done_c = Some format)
      by (rewrite Hf, Hlen; apply list_lookup_middle; reflexivity).
    rewrite Hci. cbn [or_raise]. unfold ret at 1.
    unfold bind at 1. rewrite eval_run.
    destruct (conditions_evaluate condition) as [b Hb].
    { rewrite Hc. apply elem_of_app. right. apply list_elem_of_here. }
    unfold holds at 1 3. rewrite Hb.
    specialize (IH (done_c ++ [condition]) (done_f ++ [format]) rest_f).
    rewrite !length_app in IH. cbn [length] in IH.
    rewrite Nat.add_1_r in IH.
    destruct b.
    + unfold bind at 1.
      rewrite (write_cell_indexed
                 (with_calls w [eval_call (Helper._format_string condition)])
                 (length done_c) format Ht Hfi).
      unfold ret at 1.
      rewrite IH; try (rewrite <- app_assoc; assumption); try exact Ht; [|lia].
      rewrite with_calls_app, with_calls_app. cbn [orb app].
      rewrite orb_true_r. reflexivity.
    + unfold ret at 1.
      rewrite IH; try (rewrite <- app_assoc; assumption); try exact Ht; [|lia].
      rewrite with_calls_app. cbn [orb app]. reflexivity.
Qed.

(** The value part of the cell. *)
Lemma write_value_list (w : world) :
  table w = t ->
  write_value py_eval line_info line_header level level_name col _column_ w
  = (Ok tt, with_calls w (value_events (holds py_eval sc) (data_row t)
                            (start_col t + Z.of_nat j) v conditions_ formats_)).
Proof.
  intros Ht. unfold write_value.
  assert (Hr1 : forall w', table w' = t ->
            read1 formats set_formats level_name w' = (Ok fl, w')).
  { intros w' Hw'. apply read1_present; [exact set_formats_id|].
    rewrite Hw'. exact formats_level. }
  assert (Hr2 : forall w', table w' = t ->
            read2 PHash conditions set_conditions level_name col w'
            = (Ok (PList conditions_), w')).
  { intros w' Hw'. eapply read2_present; [exact set_conditions_id| |exact conditions_col].
    rewrite Hw'. exact conditions_level. }
  assert (Hkey : has_key fl col = true).
  { unfold has_key. apply bool_decide_eq_true. rewrite formats_col. eauto. }
  unfold bind at 1. unfold bind at 1. rewrite (Hr1 w Ht), Hkey.
  unfold bind at 1. rewrite (Hr2 w Ht). unfold ret at 1.
  cbn [bool_decide decide_rel]. rewrite bool_decide_eq_false_2 by discriminate.
  unfold bind at 1. unfold bind at 1. rewrite (Hr1 w Ht), Hkey.
  unfold bind at 1. rewrite (Hr2 w Ht). unfold ret at 1.
  rewrite bool_decide_eq_false_2 by discriminate. cbn [negb].
  unfold bind at 1. rewrite (Hr2 w Ht).
  unfold bind at 1.
  pose proof (conditions_loop [] [] conditions_ formats_ false w eq_refl eq_refl eq_refl Ht)
    as Hloop.
  cbn [length] in Hloop. rewrite Hloop. cbn [orb].
  unfold value_events.
  destruct (existsb (holds py_eval sc) conditions_).
  - unfold ret. rewrite app_nil_r. reflexivity.
  - rewrite write_cell_plain by exact Ht. rewrite with_calls_app. reflexivity.
Qed.

End Conditions.

Lemma evaluated_value_events (held : string -> bool) (r c : Z) (v : value)
    (conditions_ formats_ : list string) :
  length formats_ = length conditions_ ->
  evaluated (value_events held r c v conditions_ formats_)
  = map Helper._format_string conditions_.
Proof.
  unfold value_events, evaluated. rewrite omap_app.
  replace (omap _ (if existsb held conditions_ then [] else [write r c v None]))
    with (@nil string) by (destruct (existsb held conditions_); reflexivity).
  rewrite app_nil_r. revert formats_.
  induction conditions_ as [|condition cs IH]; intros [|format fs] Hlen;
    try discriminate; [reflexivity|].
  cbn -[_get_excel_format]. rewrite omap_app, IH by (cbn in Hlen; lia).
  destruct (held condition); reflexivity.
Qed.

Lemma matched_none (held : string -> bool) (conditions_ formats_ : list string) :
  length formats_ = length conditions_ ->
  existsb held conditions_ = false -> matched held conditions_ formats_ = [].
Proof.
  revert formats_. induction conditions_ as [|condition cs IH]; intros [|format fs] Hlen;
    try discriminate; [reflexivity|].
  cbn. destruct (held condition); [discriminate|]. cbn. apply IH. cbn in Hlen. lia.
Qed.

Lemma matched_some (held : string -> bool) (conditions_ formats_ : list string) :
  length formats_ = length conditions_ ->
  existsb held conditions_ = true -> matched held conditions_ formats_ <> [].
Proof.
  revert formats_. induction conditions_ as [|condition cs IH]; intros [|format fs] Hlen;
    try discriminate.
  cbn. destruct (held condition); [discriminate|]. cbn. apply IH. cbn in Hlen. lia.
Qed.

Lemma final_format_value_events (held : string -> bool) (r c : Z) (v : value)
    (conditions_ formats_ : list string) :
  length formats_ = length conditions_ ->
  final_format (value_events held r c v conditions_ formats_) r c
  = Some (last (matched held conditions_ formats_)
            ≫= (fun format => _get_excel_format (PStr format))).
Proof.
  intros Hlen. unfold final_format, value_events. rewrite omap_app.
  set (sel := fun e => match e with
                       | write r' c' _ f =>
                           if bool_decide (r' = r /\ c' = c) then Some f else None
                       | _ => None
                       end).
  assert (Hloop : omap sel (every_match_events held r c v conditions_ formats_)
                  = map (fun format => _get_excel_format (PStr format))
                        (matched held conditions_ formats_)).
  { clear Hlen. revert formats_.
    induction conditions_ as [|condition cs IH]; intros [|format fs]; try reflexivity.
    cbn -[_get_excel_format]. rewrite omap_app, map_app, IH.
    destruct (held condition); [|reflexivity].
    cbn -[_get_excel_format]. rewrite bool_decide_eq_true_2 by auto. reflexivity. }
  rewrite Hloop. destruct (existsb held conditions_) eqn:E.
  - rewrite app_nil_r. pose proof (matched_some held _ _ Hlen E) as Hne.
    destruct (matched held conditions_ formats_) as [|m ms] using rev_ind; [congruence|].
    rewrite map_app. cbn [map]. rewrite !last_snoc. reflexivity.
  - rewrite (matched_none held _ _ Hlen E). cbn.
    rewrite bool_decide_eq_true_2 by auto. reflexivity.
Qed.

(** The value part for the cell of [Status] with two conditions that both
    hold: both are evaluated, both write, and the cell keeps the second
    format, where the first match alone would have written the first. *)
Lemma C4_counterexample :
  Small.value_calls Small.with_two_conditions
  = [ eval_call "True"; write 2 1 (VStr "open") (Some "Bold");
      eval_call "True"; write 2 1 (VStr "open") (Some "Num") ]
  /\ first_match_events Small.holds_literal 2 1 (VStr "open") ["True"; "True"] ["Bold"; "Num"]
     = [ eval_call "True"; write 2 1 (VStr "open") (Some "Bold") ]
  /\ Small.value_calls Small.with_two_conditions
     <> first_match_events Small.holds_literal 2 1 (VStr "open") ["True"; "True"] ["Bold"; "Num"]
  /\ final_format (Small.value_calls Small.with_two_conditions) 2 1 = Some (Some "Num").
Proof.
  split; [vm_compute; reflexivity|]. split; [vm_compute; reflexivity|].
  split; [vm_compute; discriminate|vm_compute; reflexivity].
Qed.

(** C4 (as the code does it). For a cell whose column has a list of formats and a
    parallel list of conditions at its level, in a column of the header, the
    value part of [write_line] evaluates every condition of the list, in
    list order; each condition that holds writes the cell with the format at
    its index, so the cell keeps the format of the last condition that
    holds; when none holds the value is written once, without format. *)
Theorem C4_every_condition_that_holds_writes :
  forall (py_eval : string -> scope -> result bool) (line_info : list value)
    (line_header : list string) (level : nat) (level_name col : string) (_column_ : value)
    (conditions_ formats_ : list string) (fl cl : gmap string pyarg) (i j : nat) (v : value)
    (w : world),
    let sc := line_scope line_info line_header level level_name col _column_ in
    let r := data_row (table w) in
    let c := start_col (table w) + Z.of_nat j in
    let evs := value_events (holds py_eval sc) r c v conditions_ formats_ in
    formats (table w) !! level_name = Some fl -> fl !! col = Some (PList formats_) ->
    conditions (table w) !! level_name = Some cl -> cl !! col = Some (PList conditions_) ->
    length formats_ = length conditions_ ->
    index_of col (header (table w)) = Some j ->
    index_of col line_header = Some i -> line_info !! i = Some v ->
    (forall condition, condition ∈ conditions_ ->
       exists b, py_eval (Helper._format_string condition) sc = Ok b) ->
    write_value py_eval line_info line_header level level_name col _column_ w
    = (Ok tt, with_calls w evs)
    /\ evaluated evs = map Helper._format_string conditions_
    /\ final_format evs r c
       = Some (last (matched (holds py_eval sc) conditions_ formats_)
                 ≫= (fun format => _get_excel_format (PStr format))).
Proof.
  intros py_eval line_info line_header level level_name col _column_ conditions_ formats_
    fl cl i j v w sc r c evs Hfl Hfc Hcl Hcc Hlen Hj Hi Hv Hev.
  split; [|split].
  - eapply write_value_list; eauto.
  - apply evaluated_value_events. exact Hlen.
  - apply final_format_value_events. exact Hlen.
Qed.

Lemma C4_witness :
  write_value Sample.literal_eval [VStr "pc1"; VStr "open"] ["Host"; "Status"] 0 "Host"
    "Status" (VStr "open") {| table := Small.with_two_conditions; calls := [] |}
  = (Ok tt,
     with_calls {| table := Small.with_two_conditions; calls := [] |}
       (value_events Small.holds_literal 2 1 (VStr "open") ["True"; "True"] ["Bold"; "Num"])).
Proof.
  apply (C4_every_condition_that_holds_writes Sample.literal_eval
           [VStr "pc1"; VStr "open"] ["Host"; "Status"]%string 0%nat "Host"%string
           "Status"%string (VStr "open") ["True"; "True"]%string ["Bold"; "Num"]%string
           {[ "Status"%string := PList ["Bold"; "Num"]%string ]}
           {[ "Status"%string := PList ["True"; "True"]%string ]}
           1%nat 1%nat (VStr "open") {| table := Small.with_two_conditions; calls := [] |}).
  - vm_compute. reflexivity.
  - vm_compute. reflexivity.
  - vm_compute. reflexivity.
  - vm_compute. reflexivity.
  - reflexivity.
  - reflexivity.
  - reflexivity.
  - reflexivity.
  - intros condition Hin. exists true.
    apply list_elem_of_In in Hin. cbn in Hin.
    destruct Hin as [<-|[<-|[]]]; reflexivity.
Defined.

(** ** Registration and the total row *)

Lemma add_column_formats_not_parallel (levels_ columns_ format condition : pyarg)
    (t : CollapsibleTable) :
  not_parallel format condition = true ->
  CollapsibleTable_methods.add_column_formats levels_ columns_ format condition t
  = {| ended := Ok tt; object := t; printed := ["error"] |}.
Proof.
  intros H. unfold CollapsibleTable_methods.add_column_formats,
    CollapsibleTable_methods.add_column_formats_body.
  rewrite H. reflexivity.
Qed.

(** C5 (defect in the code). The docstring of [add_column_formats] promises
    an exception when format and condition are not parallel. The exception
    is raised inside the [try] block and caught by the bare [except], which
    prints ['error']: the call returns, nothing is registered, and the
    caller learns nothing. *)
Theorem C5_parallel_error_does_not_propagate :
  CollapsibleTable_methods.add_column_formats (PStr "Host") (PStr "Status")
    (PList ["A"; "B"]) (PList ["c"]) Small.table0
  = {| ended := Ok tt; object := Small.table0; printed := ["error"] |}
  /\ CollapsibleTable_methods.add_column_formats (PStr "Host") (PStr "Status")
       (PList ["A"; "B"]) (PStr "c") Small.table0
     = {| ended := Ok tt; object := Small.table0; printed := ["error"] |}
  /\ CollapsibleTable_methods.add_column_formats (PStr "Host") (PStr "Status")
       (PStr "A") (PList ["c"]) Small.table0
     = {| ended := Ok tt; object := Small.table0; printed := ["error"] |}.
Proof.
  repeat match goal with |- _ /\ _ => split end;
    apply add_column_formats_not_parallel; reflexivity.
Qed.

(** C8 (defect in the code). With [total_row='bottom'] the row of the total
    is [len(table.data) + table.data_row], and [table.data] is the dict of
    the levels: on the sample, 3 + 2 = 5. The 27 data lines go to rows 2 to
    28, the total is then written into row 5, over the line that is there,
    and row 29 stays empty. With [total_row='top'] the total goes to the
    header row as it was, 1, the header to row 2 and the first data line to
    row 3. *)
Theorem C8_bottom_total_row_counts_levels :
  (skipn 192 (Sample.sheet_calls "bottom")
   = [ write 5 0 (VStr "Total Row") None; write 5 3 (VInt 8888) (Some "Bold") ]
   /\ write 5 0 (VStr "PCXNW-JCAPOZZA") None ∈ firstn 192 (Sample.sheet_calls "bottom")
   /\ write 28 0 (VStr "PCXNW-JCRUZ") None ∈ firstn 192 (Sample.sheet_calls "bottom")
   /\ data_row (table (render Sample.literal_eval (Sample.initial "bottom")).2) = 29
   /\ Forall (fun e => match e with write 29 _ _ _ => False | _ => True end)
        (Sample.sheet_calls "bottom"))
  /\ (header_row (Sample.my_table "top") = Some 1
      /\ data_row (Sample.my_table "top") = 2
      /\ skipn 192 (Sample.sheet_calls "top")
         = [ write 1 0 (VStr "Total Row") None; write 1 3 (VInt 8888) (Some "Bold") ]
      /\ firstn 7 (Sample.sheet_calls "top")
         = [ merge_range 0 3 1 "Collapsible Table Test" (Some "MergeCenter");
             write 2 0 (VStr "Computer Name") (Some "BoldWrapped");
             write 2 1 (VStr "Application Name") (Some "BoldWrapped");
             write 2 2 (VStr "CVE ID") (Some "BoldWrapped");
             write 2 3 (VStr "CVE Count") (Some "BoldWrapped");
             autofilter 2 0 2 3;
             write 3 0 (VStr "PCXNW-JCAPOZZA") None ]
      /\ header_row (table (render Sample.literal_eval (Sample.initial "top")).2) = Some 2).
Proof.
  split.
  - split; [vm_compute; reflexivity|].
    split; [apply (bool_decide_unpack _); vm_compute; reflexivity|].
    split; [apply (bool_decide_unpack _); vm_compute; reflexivity|].
    split; [vm_compute; reflexivity|].
    vm_compute. repeat (constructor; [exact I|]). constructor.
  - repeat match goal with |- _ /\ _ => split end; vm_compute; reflexivity.
Qed.

(** C9 (defect in the code). [write_line] looks for the column among the
    keys of [table.links], which are level names, where the other parts look
    in the dict of the level. A mapping registered for the column [Status]
    of the level [Host] has a key equal to the cell, and no hyperlink is
    written; a mapping on the column that is named like the level is
    written. *)
Theorem C9_link_needs_column_named_like_a_level :
  mapping_get (default [] (default ∅ (links Small.with_link !! "Host") !! "Status"))
    (VStr "open") = Some "https://example.org/open"
  /\ Small.line_calls Small.with_link
     = [ write 2 0 (VStr "pc1") None; set_row 2 0 false;
         write 2 1 (VStr "open") None; set_row 2 0 false ]
  /\ Small.line_calls Small.with_key_link
     = [ write 2 0 (VStr "pc1") None; write_url 2 0 "https://example.org/pc1" "pc1";
         set_row 2 0 false;
         write 2 1 (VStr "open") None; set_row 2 0 false ].
Proof. repeat match goal with |- _ /\ _ => split end; vm_compute; reflexivity. Qed.

(** C10 (defect in the code). The branch of [write_line] for a conditional
    validation looks for the column among the keys of
    [table.data_validation], which are level names. For the column [Status]
    of the level [Host], with a validation whose only condition is false,
    the branch is not taken: the condition is not evaluated, no plain write
    follows and the cell keeps the format of the value part. On the column
    named like the level the condition is evaluated and the plain write
    replaces the format. *)
Theorem C10_plain_write_needs_column_named_like_a_level :
  (default ∅ (data_validation_condition (Small.with_validation "Status") !! "Host") !! "Status"
   = Some (PList ["False"])
   /\ Small.line_calls (Small.with_validation "Status")
      = [ write 2 0 (VStr "pc1") None; set_row 2 0 false;
          eval_call "True"; write 2 1 (VStr "open") (Some "Bold"); set_row 2 0 false ]
   /\ final_format (Small.line_calls (Small.with_validation "Status")) 2 1 = Some (Some "Bold"))
  /\ (Small.line_calls (Small.with_validation "Host")
      = [ eval_call "True"; write 2 0 (VStr "pc1") (Some "Bold");
          eval_call "False"; write 2 0 (VStr "pc1") None; set_row 2 0 false;
          write 2 1 (VStr "open") None; set_row 2 0 false ]
      /\ final_format (Small.line_calls (Small.with_validation "Host")) 2 0 = Some None).
Proof. repeat match goal with |- _ /\ _ => split end; vm_compute; reflexivity. Qed.

(** ** Strings *)

Lemma split_at_first (sep : ascii) (a b : string) :
  Py.contains sep a = false ->
  Py.split sep (a +:+ String sep b) = a :: Py.split sep b.
Proof.
  induction a as [|c a IH].
  { intros _. change (Py.split sep (String sep b) = EmptyString :: Py.split sep b).
    cbn. rewrite Ascii.eqb_refl. reflexivity. }
  rewrite append_cons. cbn.
  rewrite (Ascii.eqb_sym sep c). destruct (Ascii.eqb c sep); cbn; [discriminate|].
  intros H. rewrite (IH H). reflexivity.
Qed.



(** X2. [_format_string] rewrites the first reference between backticks and
    goes on with what follows it: for a text [a] and a name without
    backtick, the name not empty, the text [a`name`b] becomes
    [a row['name']] followed by the rewriting of [b]. A text without
    backtick, or with a single one, is returned as it is. *)
Theorem X2_format_string_rewrites_references :
  (forall a name b,
      Py.contains Py.backtick a = false -> Py.contains Py.backtick name = false ->
      name <> EmptyString ->
      Helper._format_string (a +:+ String Py.backtick (name +:+ String Py.backtick b))
      = a +:+ "row['" +:+ name +:+ "']" +:+ Helper._format_string b)
  /\ (forall s, Py.contains Py.backtick s = false -> Helper._format_string s = s)
  /\ (forall a b,
        Py.contains Py.backtick a = false -> Py.contains Py.backtick b = false ->
        Helper._format_string (a +:+ String Py.backtick b) = a +:+ String Py.backtick b).
Proof.
  split; [|split].
  - intros a name b Ha Hname Hne. unfold Helper._format_string.
    rewrite (split_at_first _ _ _ Ha), (split_at_first _ _ _ Hname).
    destruct (split_cons Py.backtick b) as (p & rest & ->).
    cbn [Helper.replace_from]. destruct name as [|c name]; [congruence|].
    reflexivity.
  - intros s Hs. unfold Helper._format_string. rewrite (split_without _ _ Hs).
    cbn. apply append_nil_r.
  - intros a b Ha Hb. unfold Helper._format_string.
    rewrite (split_at_first _ _ _ Ha), (split_without _ _ Hb). reflexivity.
Qed.

Lemma X2_witness :
  Helper._format_string "`CVE Count` > 100 and `Computer Name` != ''"
  = "row['CVE Count'] > 100 and " +:+ Helper._format_string "`Computer Name` != ''".
Proof.
  apply (proj1 X2_format_string_rewrites_references EmptyString "CVE Count"%string
           " > 100 and `Computer Name` != ''"%string).
  - reflexivity.
  - reflexivity.
  - discriminate.
Defined.

(** ** More on [_convert] *)

Lemma convert_loop_str_known (table_name name : string) (code : Z) :
  dict_get AGG_CONVERSION (Py.upper name) = Some code ->
  forall (parts : list string) (i : nat) (acc : string),
    convert_loop table_name (AggStr name) i parts acc
    = Ok (acc +:+ expand (fun _ part => aggregate_call code table_name part) i parts).
Proof.
  intros Hcode parts. induction parts as [|part parts IH]; intros i acc.
  - cbn [convert_loop expand]. rewrite append_nil_r. reflexivity.
  - cbn [convert_loop expand]. rewrite Hcode.
    destruct (Nat.even i); rewrite IH, append_assoc; reflexivity.
Qed.

(** X3. With one function name that is in the registry, [_convert] never
    fails: for every template it returns [=(] and [)] around the template
    in which each column between backticks is replaced by the aggregate
    call with the code of the function. A template without backtick comes
    back between [=(] and [)] whatever the function argument is, a name that
    is not in the registry included. *)
Theorem X3_convert_single_name :
  (forall base_string table_name name code,
      dict_get AGG_CONVERSION (Py.upper name) = Some code ->
      _convert base_string table_name (AggStr name)
      = Ok ("=(" +:+ expand (fun _ part => aggregate_call code table_name part) 0
                       (Py.split Py.backtick base_string) +:+ ")"))
  /\ (forall base_string table_name name,
        Py.contains Py.backtick base_string = false ->
        _convert base_string table_name (AggStr name) = Ok ("=(" +:+ base_string +:+ ")")).
Proof.
  split.
  - intros base_string table_name name code Hcode. unfold _convert.
    rewrite (convert_loop_str_known _ _ _ Hcode). rewrite append_assoc. reflexivity.
  - intros base_string table_name name Hb. unfold _convert.
    rewrite (split_without _ _ Hb), convert_loop_no_column, append_assoc. reflexivity.
Qed.

Lemma X3_witness :
  _convert "(`Cost` + `Tax`) / 2" "Sales" (AggStr "Average")
  = Ok "=((_xlfn.AGGREGATE(1, 5, Sales[Cost]) + _xlfn.AGGREGATE(1, 5, Sales[Tax])) / 2)"
  /\ _convert "42" "Sales" (AggStr "no such function") = Ok "=(42)".
Proof.
  split.
  - apply (proj1 X3_convert_single_name "(`Cost` + `Tax`) / 2"%string "Sales"%string
             "Average"%string 1).
    reflexivity.
  - apply (proj2 X3_convert_single_name "42"%string "Sales"%string "no such function"%string).
    reflexivity.
Defined.

Lemma convert_loop_list_known (table_name : string) (names : list string) :
  forall (parts : list string) (i : nat) (acc : string),
    (forall k, (i <= 2 * k + 1 < i + length parts)%nat -> exists name,
        names !! k = Some name /\ known_function name) ->
    convert_loop table_name (AggList names) i parts acc
    = Ok (acc +:+ expand (wrap_list table_name names) i parts).
Proof.
  intros parts. induction parts as [|part parts IH]; intros i acc Hknown.
  - cbn [convert_loop expand]. rewrite append_nil_r. reflexivity.
  - cbn [convert_loop expand]. cbn [length] in Hknown.
    destruct (Nat.even i) eqn:Ei.
    + rewrite IH, append_assoc; [reflexivity|]. intros k Hk. apply Hknown. lia.
    + apply (f_equal negb) in Ei. rewrite Nat.negb_even in Ei. cbn in Ei.
      apply Nat.odd_spec in Ei as [m ->].
      destruct (Hknown m ltac:(lia)) as (name & Hname & code & Hcode).
      unfold wrap_list at 1.
      replace ((2 * m + 1) / 2)%nat with m
        by (rewrite Nat.add_comm, Nat.mul_comm, Nat.div_add by lia; reflexivity).
      rewrite Hname. cbn [mbind option_bind]. rewrite Hcode.
      rewrite IH, append_assoc; [reflexivity|]. intros k Hk. apply Hknown. lia.
Qed.

Lemma convert_loop_list_short (table_name : string) (names : list string) :
  forall (parts : list string) (i : nat) (acc : string),
    (i <= 2 * length names + 1 < i + length parts)%nat ->
    (forall name, name ∈ names -> known_function name) ->
    convert_loop table_name (AggList names) i parts acc = Raise IndexError.
Proof.
  intros parts. induction parts as [|part parts IH]; intros i acc Hi Hknown;
    cbn [length] in Hi; [lia|].
  cbn [convert_loop]. destruct (Nat.even i) eqn:Ei.
  - apply IH; [|exact Hknown].
    destruct (decide (i = 2 * length names + 1)%nat) as [->|]; [|lia].
    rewrite Nat.add_1_r, Nat.even_succ, Nat.odd_mul in Ei. discriminate.
  - apply (f_equal negb) in Ei. rewrite Nat.negb_even in Ei. cbn in Ei.
    apply Nat.odd_spec in Ei as [m ->].
    replace ((2 * m + 1) / 2)%nat with m
      by (rewrite Nat.add_comm, Nat.mul_comm, Nat.div_add by lia; reflexivity).
    destruct (names !! m) as [name|] eqn:En; [|reflexivity].
    destruct (Hknown name) as [code Hcode]; [eapply list_elem_of_lookup_2; exact En|].
    rewrite Hcode. apply IH; [|exact Hknown].
    apply lookup_lt_Some in En. lia.
Qed.

(** X4. With a list of function names that passes the count test,
    [_convert] uses the name at index [k] for the column at index [k]. When
    every column has a name and the names used are in the registry, it
    returns the template with each column replaced by the aggregate call of
    its own function. When the names are all in the registry and the
    template has more columns than the list has names, which the count test
    does not exclude, the call ends with [IndexError]. *)
Theorem X4_convert_list_of_names :
  (forall base_string table_name names,
      count_test base_string names = true ->
      (length (placeholders base_string) <= length names)%nat ->
      (forall k name, (k < length (placeholders base_string))%nat ->
         names !! k = Some name -> known_function name) ->
      _convert base_string table_name (AggList names)
      = Ok ("=(" +:+ expand (wrap_list table_name names) 0
                       (Py.split Py.backtick base_string) +:+ ")"))
  /\ (forall base_string table_name names,
        count_test base_string names = true ->
        (length names < length (placeholders base_string))%nat ->
        (forall name, name ∈ names -> known_function name) ->
        _convert base_string table_name (AggList names) = Raise IndexError).
Proof.
  split.
  - intros base_string table_name names Hcount Hlen Hknown.
    unfold _convert, count_test, placeholders in *. rewrite Hcount. cbn [negb].
    rewrite odd_parts_length in *.
    rewrite convert_loop_list_known, append_assoc; [reflexivity|].
    intros k Hk.
    pose proof (Nat.div_mod_eq (length (Py.split Py.backtick base_string)) 2).
    pose proof (Nat.mod_upper_bound (length (Py.split Py.backtick base_string)) 2).
    assert (Hlt : (k < length names)%nat) by lia.
    apply lookup_lt_is_Some in Hlt as [name Hname].
    exists name. split; [exact Hname|]. apply (Hknown k); [lia|exact Hname].
  - intros base_string table_name names Hcount Hlen Hknown.
    unfold _convert, count_test, placeholders in *. rewrite Hcount. cbn [negb].
    rewrite odd_parts_length in *.
    rewrite convert_loop_list_short; [reflexivity| |exact Hknown].
    pose proof (Nat.div_mod_eq (length (Py.split Py.backtick base_string)) 2).
    pose proof (Nat.mod_upper_bound (length (Py.split Py.backtick base_string)) 2).
    lia.
Qed.

Lemma X4_witness :
  _convert "`Revenue` minus `Cost`" "T" (AggList ["sum"; "Max"])
  = Ok "=(_xlfn.AGGREGATE(9, 5, T[Revenue]) minus _xlfn.AGGREGATE(4, 5, T[Cost]))"
  /\ _convert "`A``B``C`" "T" (AggList ["sum"; "max"]) = Raise IndexError.
Proof.
  split.
  - apply (proj1 X4_convert_list_of_names "`Revenue` minus `Cost`"%string "T"%string
             ["sum"; "Max"]%string).
    + reflexivity.
    + cbn. lia.
    + intros k name Hk Hname. destruct k as [|[|k]]; cbn in Hk; [| |lia];
        injection Hname as <-; eexists; reflexivity.
  - apply (proj2 X4_convert_list_of_names "`A``B``C`"%string "T"%string
             ["sum"; "max"]%string).
    + reflexivity.
    + cbn. lia.
    + intros name Hin. apply list_elem_of_In in Hin. cbn in Hin.
      destruct Hin as [<-|[<-|[]]]; eexists; reflexivity.
Defined.

(** ** Registration *)

Lemma lookup2_setitem2 {A : Type} (d : gmap string (gmap string A)) (k1 k2 a b : string)
    (x : A) :
  lookup2 (setitem2 d k1 k2 x) a b
  = if bool_decide (a = k1 /\ b = k2) then Some x else lookup2 d a b.
Proof.
  unfold lookup2, setitem2. destruct (decide (a = k1)) as [->|Ha].
  - rewrite lookup_insert_eq. cbn. destruct (decide (b = k2)) as [->|Hb].
    + rewrite lookup_insert_eq, bool_decide_eq_true_2 by auto. reflexivity.
    + rewrite lookup_insert_ne by congruence.
      rewrite bool_decide_eq_false_2 by (intros [_ ?]; congruence).
      destruct (d !! k1); reflexivity.
  - rewrite lookup_insert_ne by congruence.
    rewrite bool_decide_eq_false_2 by (intros [? _]; congruence). reflexivity.
Qed.

Lemma register_format_lookup (level col : string) (format condition : pyarg)
    (t : CollapsibleTable) (l c : string) :
  lookup2 (formats (register_format level col format condition t)) l c
  = (if bool_decide (l = level /\ c = col) then Some format else lookup2 (formats t) l c)
  /\ lookup2 (conditions (register_format level col format condition t)) l c
     = (if bool_decide (l = level /\ c = col) then Some condition
        else lookup2 (conditions t) l c).
Proof. split; apply lookup2_setitem2. Qed.

Lemma register_columns_lookup (level : string) (format condition : pyarg) (cols : list string) :
  forall (t : CollapsibleTable) (l c : string),
    let t' := foldl (fun t col => register_format level col format condition t) t cols in
    lookup2 (formats t') l c
    = (if bool_decide (l = level /\ c ∈ cols) then Some format else lookup2 (formats t) l c)
    /\ lookup2 (conditions t') l c
       = (if bool_decide (l = level /\ c ∈ cols) then Some condition
          else lookup2 (conditions t) l c).
Proof.
  induction cols as [|col cols IH]; intros t l c t'; subst t'.
  - cbn [foldl]. rewrite bool_decide_eq_false_2 by (intros [_ H]; inversion H). auto.
  - cbn [foldl]. specialize (IH (register_format level col format condition t) l c).
    cbn zeta in IH. destruct IH as [IHf IHc]. rewrite IHf, IHc.
    destruct (register_format_lookup level col format condition t l c) as [Hf Hc].
    rewrite Hf, Hc. clear.
    destruct (decide (l = level /\ c ∈ cols)) as [[-> Hin]|Hn].
    + rewrite !bool_decide_eq_true_2; auto using list_elem_of_further.
    + rewrite (bool_decide_eq_false_2 _ Hn).
      destruct (decide (l = level /\ c = col)) as [[-> ->]|Hn2].
      * rewrite !bool_decide_eq_true_2; auto using list_elem_of_here.
      * rewrite !bool_decide_eq_false_2; auto.
        intros [-> Hin]. apply elem_of_cons in Hin as [->|Hin]; tauto.
Qed.

Lemma register_levels_lookup (format condition : pyarg) (cols lvls : list string) :
  forall (t : CollapsibleTable) (l c : string),
    let t' := foldl (fun t level =>
                foldl (fun t col => register_format level col format condition t) t cols)
              t lvls in
    lookup2 (formats t') l c
    = (if bool_decide (l ∈ lvls /\ c ∈ cols) then Some format else lookup2 (formats t) l c)
    /\ lookup2 (conditions t') l c
       = (if bool_decide (l ∈ lvls /\ c ∈ cols) then Some condition
          else lookup2 (conditions t) l c).
Proof.
  induction lvls as [|level lvls IH]; intros t l c t'; subst t'.
  - cbn [foldl]. rewrite bool_decide_eq_false_2 by (intros [H _]; inversion H). auto.
  - cbn [foldl].
    specialize (IH (foldl (fun t col => register_format level col format condition t) t cols)
                  l c).
    cbn zeta in IH. destruct IH as [IHf IHc]. rewrite IHf, IHc.
    destruct (register_columns_lookup level format condition cols t l c) as [Hf Hc].
    cbn zeta in Hf, Hc. rewrite Hf, Hc. clear.
    destruct (decide (l ∈ lvls /\ c ∈ cols)) as [[Hl Hin]|Hn].
    + rewrite !bool_decide_eq_true_2; auto using list_elem_of_further.
    + rewrite (bool_decide_eq_false_2 _ Hn).
      destruct (decide (l = level /\ c ∈ cols)) as [[-> Hc]|Hn2].
      * rewrite !bool_decide_eq_true_2; auto using list_elem_of_here.
      * rewrite !bool_decide_eq_false_2; auto.
        intros [Hl Hin]. apply elem_of_cons in Hl as [->|Hl]; tauto.
Qed.

(** X5. [add_column_formats] with a parallel format and condition, a level
    name or a list of level names, and a list of columns (or one column for
    one level) returns without printing; afterwards every pair of a named
    level and a named column holds the format and the condition, and every
    other entry is what it was. *)
Theorem X5_add_column_formats_registers :
  forall (levels_ columns_ format condition : pyarg) (t : CollapsibleTable),
    not_parallel format condition = false ->
    is_str levels_ || is_list levels_ = true ->
    is_list columns_ || is_str columns_ && is_str levels_ = true ->
    let o := CollapsibleTable_methods.add_column_formats levels_ columns_ format condition t in
    ended o = Ok tt /\ printed o = []
    /\ forall l c,
         lookup2 (formats (object o)) l c
         = (if bool_decide (l ∈ names_of levels_ /\ c ∈ names_of columns_)
            then Some format else lookup2 (formats t) l c)
         /\ lookup2 (conditions (object o)) l c
            = (if bool_decide (l ∈ names_of levels_ /\ c ∈ names_of columns_)
               then Some condition else lookup2 (conditions t) l c).
Proof.
  intros levels_ columns_ format condition t Hpar Hlev Hcol o. subst o.
  unfold CollapsibleTable_methods.add_column_formats,
    CollapsibleTable_methods.add_column_formats_body.
  rewrite Hpar.
  destruct columns_ as [|column|cols|]; try discriminate;
    destruct levels_ as [|level|lvls|]; try discriminate; cbn [ended printed object names_of].
  - split; [reflexivity|]. split; [reflexivity|]. intros l c.
    destruct (register_format_lookup level column format condition t l c) as [Hf Hc].
    rewrite Hf, Hc.
    assert (Heq : bool_decide (l = level /\ c = column)
                  = bool_decide (l ∈ [level] /\ c ∈ [column])).
    { apply bool_decide_ext. rewrite !list_elem_of_singleton. tauto. }
    rewrite Heq. auto.
  - split; [reflexivity|]. split; [reflexivity|]. intros l c.
    destruct (register_columns_lookup level format condition cols t l c) as [Hf Hc].
    cbn zeta in Hf, Hc. rewrite Hf, Hc.
    assert (Heq : bool_decide (l = level /\ c ∈ cols) = bool_decide (l ∈ [level] /\ c ∈ cols)).
    { apply bool_decide_ext. rewrite list_elem_of_singleton. tauto. }
    rewrite Heq. auto.
  - split; [reflexivity|]. split; [reflexivity|]. intros l c.
    apply (register_levels_lookup format condition cols lvls t l c).
Qed.

Lemma X5_witness :
  let o := CollapsibleTable_methods.add_column_formats (PList ["Host"; "Site"])
             (PList ["Status"; "Owner"]) (PList ["Bold"; "Num"]) (PList ["True"; "False"])
             Small.table0 in
  ended o = Ok tt /\ printed o = []
  /\ lookup2 (formats (object o)) "Site" "Owner" = Some (PList ["Bold"; "Num"])
  /\ lookup2 (conditions (object o)) "Site" "Owner" = Some (PList ["True"; "False"])
  /\ lookup2 (formats (object o)) "Site" "Host" = None.
Proof.
  intros o.
  destruct (X5_add_column_formats_registers (PList ["Host"; "Site"]%string)
              (PList ["Status"; "Owner"]%string) (PList ["Bold"; "Num"]%string)
              (PList ["True"; "False"]%string) Small.table0 eq_refl eq_refl eq_refl)
    as (He & Hp & Hl).
  split; [exact He|]. split; [exact Hp|].
  split; [exact (proj1 (Hl "Site"%string "Owner"%string))|].
  split; [exact (proj2 (Hl "Site"%string "Owner"%string))|].
  exact (proj1 (Hl "Site"%string "Host"%string)).
Defined.

(** X6. [add_column_formats] with a list of levels and a single column
    name registers nothing: the branch uses the loop variable [col] of the
    other branch, which is unbound, the bare [except] catches the error, and
    the call prints ['error'] and returns with every entry of [formats] and
    [conditions] as it was. *)
Theorem X6_add_column_formats_levels_with_one_column :
  forall (level : string) (lvls : list string) (column : string) (format condition : pyarg)
    (t : CollapsibleTable),
    not_parallel format condition = false ->
    let o := CollapsibleTable_methods.add_column_formats (PList (level :: lvls))
               (PStr column) format condition t in
    ended o = Ok tt /\ printed o = ["error"]
    /\ forall l c,
         lookup2 (formats (object o)) l c = lookup2 (formats t) l c
         /\ lookup2 (conditions (object o)) l c = lookup2 (conditions t) l c.
Proof.
  intros level lvls column format condition t Hpar o. subst o.
  unfold CollapsibleTable_methods.add_column_formats,
    CollapsibleTable_methods.add_column_formats_body.
  rewrite Hpar. cbn [ended printed object].
  split; [reflexivity|]. split; [reflexivity|]. intros l c. split; [|reflexivity].
  cbn [formats set_formats]. unfold getitem1, lookup2.
  destruct (formats t !! level) as [inner|] eqn:E; [reflexivity|]. cbn [snd].
  destruct (decide (l = level)) as [->|Hne].
  - rewrite lookup_insert_eq, E. reflexivity.
  - rewrite lookup_insert_ne by congruence. reflexivity.
Qed.

Lemma X6_witness :
  let o := CollapsibleTable_methods.add_column_formats (PList ["Host"; "Site"])
             (PStr "Status") (PStr "Bold") PNone Small.table0 in
  ended o = Ok tt /\ printed o = ["error"]
  /\ forall l c,
       lookup2 (formats (object o)) l c = lookup2 (formats Small.table0) l c
       /\ lookup2 (conditions (object o)) l c = lookup2 (conditions Small.table0) l c.
Proof.
  exact (X6_add_column_formats_levels_with_one_column "Host"%string ["Site"]%string
           "Status"%string (PStr "Bold") PNone Small.table0 eq_refl).
Defined.

(** ** Links *)

Lemma mapping_set_fresh (m : list (value * string)) (v : value) (url : string) :
  v ∉ m.*1 -> mapping_set m v url = m ++ [(v, url)].
Proof.
  induction m as [|[v' u] m IH]; intros Hv; cbn; [reflexivity|].
  cbn in Hv. apply not_elem_of_cons in Hv as [Hne Hv].
  rewrite bool_decide_eq_false_2 by congruence. rewrite (IH Hv). reflexivity.
Qed.

Lemma mapping_get_app_fresh (m : list (value * string)) (v : value) (url : string) :
  v ∉ m.*1 -> mapping_get (m ++ [(v, url)]) v = Some url.
Proof.
  induction m as [|[v' u] m IH]; intros Hv; cbn.
  - rewrite bool_decide_eq_true_2 by reflexivity. reflexivity.
  - cbn in Hv. apply not_elem_of_cons in Hv as [Hne Hv].
    rewrite bool_decide_eq_false_2 by congruence. exact (IH Hv).
Qed.

(** The loop of [add_links] over the keys of the mapping, started on the
    entries [done] already copied. *)
Lemma add_links_loop (level column : string) (todo : list (value * string)) :
  forall (done : list (value * string)) (t : CollapsibleTable),
    NoDup (done ++ todo).*1 ->
    lookup2 (links t) level column = Some done ->
    let t' := foldl (fun t kv =>
                let m := default [] (default ∅ (links t !! level) !! column) in
                set_links (setitem2 (links t) level column (mapping_set m kv.1 kv.2)) t)
              t todo in
    forall l c,
      lookup2 (links t') l c
      = if bool_decide (l = level /\ c = column) then Some (done ++ todo)
        else lookup2 (links t) l c.
Proof.
  induction todo as [|[v url] todo IH]; intros done t Hnd Hdone t' l c; subst t'.
  - cbn [foldl]. rewrite app_nil_r. destruct (decide (l = level /\ c = column)) as [[-> ->]|Hn].
    + rewrite bool_decide_eq_true_2 by auto. exact Hdone.
    + rewrite bool_decide_eq_false_2 by exact Hn. reflexivity.
  - cbn [foldl fst snd].
    assert (Hm : default [] (default ∅ (links t !! level) !! column) = done).
    { unfold lookup2 in Hdone. destruct (links t !! level) as [inner|]; [|discriminate].
      cbn in Hdone. cbn. rewrite Hdone. reflexivity. }
    rewrite Hm.
    assert (Hv : v ∉ done.*1).
    { rewrite fmap_app in Hnd. apply NoDup_app in Hnd as (_ & Hdis & _).
      intros Hin. apply (Hdis v Hin). cbn. apply list_elem_of_here. }
    rewrite (mapping_set_fresh done v url Hv).
    specialize (IH (done ++ [(v, url)])
                  (set_links (setitem2 (links t) level column (done ++ [(v, url)])) t)).
    cbn zeta in IH. rewrite <- app_assoc in IH. cbn [app] in IH.
    rewrite IH.
    + cbn [links set_links]. rewrite lookup2_setitem2.
      destruct (bool_decide (l = level /\ c = column)); reflexivity.
    + exact Hnd.
    + cbn [links set_links]. rewrite lookup2_setitem2.
      rewrite bool_decide_eq_true_2 by auto. reflexivity.
Qed.

Lemma mapping_get_elem (m : list (value * string)) (v : value) (url : string) :
  NoDup m.*1 -> (v, url) ∈ m -> mapping_get m v = Some url.
Proof.
  induction m as [|[v' u] m IH]; intros Hnd Hin.
  - inversion Hin.
  - cbn in Hnd. apply NoDup_cons in Hnd as [Hv' Hnd]. cbn.
    apply elem_of_cons in Hin as [Heq|Hin].
    + injection Heq as -> ->. rewrite bool_decide_eq_true_2 by reflexivity. reflexivity.
    + rewrite bool_decide_eq_false_2.
      * apply IH; assumption.
      * intros ->. apply Hv'. apply list_elem_of_fmap. exists (v, url). auto.
Qed.

(** X7. [add_links] with a mapping whose keys are distinct, as the keys of
    a dict are, leaves under the level and the column exactly that mapping,
    in its order: what an earlier call had stored there is replaced, not
    merged. Every other entry of [links] is what it was, and each value of
    the mapping is found there with its own URL. *)
Theorem X7_add_links_replaces_the_mapping :
  forall (level column : string) (link_mapping : list (value * string))
    (t : CollapsibleTable),
    NoDup link_mapping.*1 ->
    let t' := CollapsibleTable_methods.add_links level column link_mapping t in
    (forall l c,
       lookup2 (links t') l c
       = if bool_decide (l = level /\ c = column) then Some link_mapping
         else lookup2 (links t) l c)
    /\ (forall v url, (v, url) ∈ link_mapping ->
          lookup2 (links t') level column ≫= (fun m => mapping_get m v) = Some url).
Proof.
  intros level column link_mapping t Hnd t'. subst t'.
  assert (Hall : forall l c,
            lookup2 (links (CollapsibleTable_methods.add_links level column link_mapping t)) l c
            = if bool_decide (l = level /\ c = column) then Some link_mapping
              else lookup2 (links t) l c).
  { intros l c. unfold CollapsibleTable_methods.add_links.
    pose proof (add_links_loop level column link_mapping []
                  (set_links (setitem2 (links t) level column []) t)) as H.
    cbn zeta in H. cbn [app] in H. rewrite H.
    - cbn [links set_links]. rewrite lookup2_setitem2.
      destruct (bool_decide (l = level /\ c = column)); reflexivity.
    - exact Hnd.
    - cbn [links set_links]. rewrite lookup2_setitem2.
      rewrite bool_decide_eq_true_2 by auto. reflexivity. }
  split; [exact Hall|].
  intros v url Hin. rewrite Hall, bool_decide_eq_true_2 by auto. cbn.
  apply mapping_get_elem; assumption.
Qed.

Lemma X7_witness :
  let t' := CollapsibleTable_methods.add_links "Host" "Status"
              [(VStr "closed", "https://example.org/closed")] Small.with_link in
  lookup2 (links t') "Host" "Status" = Some [(VStr "closed", "https://example.org/closed")]
  /\ lookup2 (links t') "Host" "Status" ≫= (fun m => mapping_get m (VStr "open")) = None
  /\ lookup2 (links t') "Host" "Status" ≫= (fun m => mapping_get m (VStr "closed"))
     = Some "https://example.org/closed"%string.
Proof.
  intros t'.
  assert (Hnd : NoDup [(VStr "closed", "https://example.org/closed"%string)].*1)
    by (cbn; apply NoDup_singleton).
  destruct (X7_add_links_replaces_the_mapping "Host"%string "Status"%string
              [(VStr "closed", "https://example.org/closed"%string)] Small.with_link Hnd)
    as [Hl Hg].
  split; [exact (Hl "Host"%string "Status"%string)|].
  split; [vm_compute; reflexivity|].
  apply Hg. apply list_elem_of_here.
Defined.

(** ** The setup of [add_collapsible_table] *)

Lemma render_run (py_eval : string -> scope -> result bool) (w : world) (s : string) :
  total_row (table w) = TotalStr s ->
  let t := table w in
  render py_eval w
  = if String.eqb (Py.lower s) "top" then
      after_setup py_eval (header_row_of t) (header_row t) (title t)
        {| table := moved_down t; calls := calls w |}
    else if String.eqb (Py.lower s) "bottom" then
      after_setup py_eval (Z.of_nat (length (data t)) + data_row t) (header_row t) (title t)
        {| table := filled t; calls := calls w |}
    else (Raise (ValueError total_row_error), {| table := filled t; calls := calls w |}).
Proof.
  intros Hs t. subst t. destruct w as [t sheet]. cbn [table calls] in *.
  unfold render, after_setup, moved_down, filled, header_row_of.
  unfold bind at 1. unfold get_table at 1. cbn [table calls]. rewrite Hs.
  destruct (header_row t) as [hr|] eqn:Hh; destruct (title_row t) as [tr|] eqn:Ht;
    cbn [title_row set_header_row data_row default]; rewrite ?Ht;
    repeat case_bool_decide; cbn [title_row set_header_row] in *; try congruence;
    (destruct (String.eqb (Py.lower s) "top") eqn:Etop;
     [|destruct (String.eqb (Py.lower s) "bottom") eqn:Ebot]);
    cbv [bind ret modify_table get_table or_raise raise table calls id];
    repeat (cbn [header_row set_header_row set_title_row set_data_row set_total_row data_row
                 freeze_panes data header hidden_columns title];
            rewrite ?Hh, ?Etop, ?Ebot; cbn beta iota); reflexivity.
Qed.

Section Keeps.

Context {A : Type} (I : CollapsibleTable -> Prop) (P : event -> Prop).

Lemma keeps_ret (a : A) : keeps I P (ret a).
Proof. intros w Hw. split; [exact Hw|]. exists []. rewrite app_nil_r. split; [reflexivity|constructor]. Qed.

Lemma keeps_raise (e : exn) : keeps I P (@raise A e).
Proof. intros w Hw. split; [exact Hw|]. exists []. rewrite app_nil_r. split; [reflexivity|constructor]. Qed.

Lemma keeps_lift (r : result A) : keeps I P (lift r).
Proof. intros w Hw. split; [exact Hw|]. exists []. rewrite app_nil_r. split; [reflexivity|constructor]. Qed.

Lemma keeps_or_raise (o : option A) (e : exn) : keeps I P (or_raise o e).
Proof. destruct o; [apply keeps_ret|apply keeps_raise]. Qed.

Lemma keeps_bind {B : Type} (m : M B) (f : B -> M A) :
  keeps I P m -> (forall b, keeps I P (f b)) -> keeps I P (bind m f).
Proof.
  intros Hm Hf w Hw. unfold bind. destruct (Hm w Hw) as (Hi & evs & Hc & Hev).
  destruct (m w) as [[b|e] w1]; cbn [fst snd] in *.
  - destruct (Hf b w1 Hi) as (Hi2 & evs2 & Hc2 & Hev2).
    split; [exact Hi2|]. exists (evs ++ evs2).
    rewrite Hc2, Hc, app_assoc. split; [reflexivity|]. apply Forall_app. auto.
  - split; [exact Hi|]. exists evs. auto.
Qed.

Lemma keeps_get (f : CollapsibleTable -> M A) :
  (forall t, I t -> keeps I P (f t)) -> keeps I P (bind get_table f).
Proof. intros Hf w Hw. unfold bind, get_table. apply Hf; exact Hw. Qed.

End Keeps.

Lemma keeps_modify (I : CollapsibleTable -> Prop) (P : event -> Prop)
    (g : CollapsibleTable -> CollapsibleTable) :
  (forall t, I t -> I (g t)) -> keeps I P (modify_table g).
Proof.
  intros Hg w Hw. cbn. split; [apply Hg; exact Hw|].
  exists []. rewrite app_nil_r. split; [reflexivity|constructor].
Qed.

Lemma keeps_emit (I : CollapsibleTable -> Prop) (P : event -> Prop) (e : event) :
  P e -> keeps I P (emit e).
Proof.
  intros He w Hw. cbn. split; [exact Hw|]. exists [e]. split; [reflexivity|].
  constructor; [exact He|constructor].
Qed.

Lemma keeps_for_each {A : Type} (I : CollapsibleTable -> Prop) (P : event -> Prop)
    (l : list A) (body : A -> M unit) :
  (forall x, keeps I P (body x)) -> keeps I P (for_each l body).
Proof.
  intros Hb. induction l as [|x l IH]; cbn [for_each]; [apply keeps_ret|].
  apply keeps_bind; [apply Hb|intros _; exact IH].
Qed.

Lemma keeps_for_fold {A B : Type} (I : CollapsibleTable -> Prop) (P : event -> Prop)
    (l : list A) (body : A -> B -> M B) (acc : B) :
  (forall x b, keeps I P (body x b)) -> keeps I P (for_fold l acc body).
Proof.
  intros Hb. revert acc. induction l as [|x l IH]; intros acc; cbn [for_fold];
    [apply keeps_ret|].
  apply keeps_bind; [apply Hb|intros b; apply IH].
Qed.

Lemma keeps_weaken {A : Type} (I : CollapsibleTable -> Prop) (P Q : event -> Prop) (m : M A) :
  (forall e, P e -> Q e) -> keeps I P m -> keeps I Q m.
Proof.
  intros HPQ Hm w Hw. destruct (Hm w Hw) as (Hi & evs & Hc & Hev).
  split; [exact Hi|]. exists evs. split; [exact Hc|].
  eapply Forall_impl; [exact Hev|exact HPQ].
Qed.

Lemma keeps_read1 {A : Type} (I : CollapsibleTable -> Prop) (P : event -> Prop)
    (attr : CollapsibleTable -> gmap string (gmap string A))
    (assign : gmap string (gmap string A) -> CollapsibleTable -> CollapsibleTable)
    (k1 : string) :
  (forall x t, I t -> I (assign x t)) -> keeps I P (read1 attr assign k1).
Proof.
  intros Ha. unfold read1. apply keeps_get. intros t Ht.
  apply keeps_bind; [apply keeps_modify; intros; apply Ha; assumption|intros; apply keeps_ret].
Qed.

Lemma keeps_read2 {A : Type} (I : CollapsibleTable -> Prop) (P : event -> Prop) (fresh : A)
    (attr : CollapsibleTable -> gmap string (gmap string A))
    (assign : gmap string (gmap string A) -> CollapsibleTable -> CollapsibleTable)
    (k1 k2 : string) :
  (forall x t, I t -> I (assign x t)) -> keeps I P (read2 fresh attr assign k1 k2).
Proof.
  intros Ha. unfold read2. apply keeps_get. intros t Ht.
  apply keeps_bind; [apply keeps_modify; intros; apply Ha; assumption|intros; apply keeps_ret].
Qed.

Lemma keeps_read0 (I : CollapsibleTable -> Prop) (P : event -> Prop)
    (attr : CollapsibleTable -> gmap string pyarg)
    (assign : gmap string pyarg -> CollapsibleTable -> CollapsibleTable) (k : string) :
  (forall x t, I t -> I (assign x t)) -> keeps I P (read0 attr assign k).
Proof.
  intros Ha. unfold read0. apply keeps_get. intros t Ht.
  destruct (attr t !! k); [apply keeps_ret|].
  apply keeps_bind; [apply keeps_modify; intros; apply Ha; assumption|intros; apply keeps_ret].
Qed.

(** One step of a proof that a computation keeps the settings. *)
Ltac keeps_step :=
  first
    [ apply keeps_ret
    | apply keeps_raise
    | apply keeps_lift
    | apply keeps_or_raise
    | apply keeps_emit; auto; fail
    | apply keeps_modify; intros; assumption
    | apply keeps_read0; intros; assumption
    | apply keeps_read1; intros; assumption
    | apply keeps_read2; intros; assumption
    | apply keeps_for_fold; intros
    | apply keeps_for_each; intros
    | apply keeps_get; intros
    | apply keeps_bind; [|intros]
    | match goal with
      | |- keeps _ _ (if ?b then _ else _) => destruct b
      | |- keeps _ _ (match ?x with _ => _ end) => destruct x
      end ].

Section Rows.

Variable py_eval : string -> scope -> result bool.
Variable t0 : CollapsibleTable.
Variable P : event -> Prop.
Hypothesis P_row : forall e, is_set_column e = false -> P e.

Local Abbreviation Inv := (fun t : CollapsibleTable => settings t = settings t0).

Local Hint Extern 1 (P _) => (apply P_row; reflexivity) : core.

Lemma keeps_write_line (line_info : list value) (line_header : list string) (level : nat)
    (level_name : string) :
  keeps Inv P (write_line py_eval line_info line_header level level_name).
Proof.
  unfold write_line, write_column, write_value, write_links, write_validation,
    set_row_properties, validate_cell, write_cell, format_at, no_format, line_value,
    header_col, eval.
  repeat keeps_step.
Qed.

Lemma keeps_looper (data_dict : list (string * DataFrame)) (fuel : nat) :
  forall (position : nat) (data_ : option DataFrame) (filter_ : option (list (string * value))),
    keeps Inv P (_recursive_data_looper py_eval fuel data_dict position data_ filter_).
Proof.
  induction fuel as [|fuel IH]; intros position data_ filter_; cbn [_recursive_data_looper];
    [apply keeps_raise|].
  apply keeps_bind; [destruct data_; [apply keeps_ret|apply keeps_lift]|intros _].
  destruct (_ =? _)%nat; [repeat keeps_step|].
  apply keeps_bind; [apply keeps_lift|intros filter1].
  apply keeps_bind; [apply keeps_lift|intros data1].
  apply keeps_bind; [|intros; apply keeps_ret].
  apply keeps_for_fold. intros line f.
  apply keeps_bind; [apply keeps_lift|intros f1].
  apply keeps_bind; [apply IH|intros f2].
  apply keeps_bind; [|intros; apply keeps_ret].
  unfold write_level_line.
  apply keeps_bind; [apply keeps_lift|intros df].
  apply keeps_bind; [apply keeps_or_raise|intros name].
  apply keeps_write_line.
Qed.

Lemma keeps_write_total_column (total_row_ : Z) (use_header : option Z) (col : string) :
  keeps Inv P (write_total_column py_eval total_row_ use_header col).
Proof.
  unfold write_total_column, _write_total_formula, eval.
  repeat keeps_step.
Qed.

Lemma keeps_write_title (use_title : option string) : keeps Inv P (write_title use_title).
Proof. unfold write_title. repeat keeps_step. Qed.

Lemma keeps_write_header (use_header : option Z) : keeps Inv P (write_header use_header).
Proof. unfold write_header. repeat keeps_step. Qed.

End Rows.

Lemma keeps_after_setup (py_eval : string -> scope -> result bool) (t0 : CollapsibleTable)
    (total_row_ : Z) (use_header : option Z) (use_title : option string) :
  keeps (fun t => settings t = settings t0) (fun _ => True)
    (after_setup py_eval total_row_ use_header use_title).
Proof.
  unfold after_setup.
  apply keeps_get. intros t Ht.
  apply keeps_bind; [apply keeps_or_raise|intros row].
  apply keeps_bind; [repeat keeps_step|intros _].
  apply keeps_bind; [apply keeps_write_title; auto|intros _].
  apply keeps_bind; [apply keeps_write_header; auto|intros _].
  apply keeps_bind; [apply keeps_looper; auto|intros _].
  apply keeps_bind; [apply keeps_for_each; intros; apply keeps_write_total_column; auto|intros _].
  repeat keeps_step.
Qed.

Section Closes.

Context {A : Type} (I : CollapsibleTable -> Prop) (P : event -> Prop)
  (Q : list event -> Prop).

Lemma closes_bind {B : Type} (m : M B) (k : B -> M A) :
  keeps I P m -> (forall b, closes I P Q (k b)) -> closes I P Q (bind m k).
Proof.
  intros Hm Hk w Hw a w' Hrun. unfold bind in Hrun.
  destruct (Hm w Hw) as (Hi & evs & Hc & Hev).
  destruct (m w) as [[b|e] w1]; cbn [fst snd] in *; [|discriminate].
  destruct (Hk b w1 Hi a w' Hrun) as (pre & tl & Hc2 & Hpre & Htl).
  exists (evs ++ pre), tl. split; [rewrite Hc2, Hc, <- !app_assoc; reflexivity|].
  split; [apply Forall_app; auto|exact Htl].
Qed.

Lemma closes_get (f : CollapsibleTable -> M A) :
  (forall t, I t -> closes I P Q (f t)) -> closes I P Q (bind get_table f).
Proof. intros Hf w Hw. unfold bind, get_table. apply Hf; exact Hw. Qed.

End Closes.

(** The loop that hides the columns: when it returns, every name was in
    the header and the calls are on the positions of the names. *)
Lemma hide_loop (header_ : list string) (hidden_ : list string) :
  forall (w : world) (u : unit) (w' : world),
    for_each hidden_ (fun column =>
      bind (or_raise (index_of column header_)
              (ValueError (Py.repr column +:+ " is not in list")))
        (fun i => emit (set_column (Z.of_nat i) (Z.of_nat i) true))) w = (Ok u, w') ->
    exists positions,
      Forall2 (fun column i => index_of column header_ = Some i) hidden_ positions
      /\ calls w' = calls w ++ hide_calls positions.
Proof.
  induction hidden_ as [|column hidden_ IH]; intros w u w' Hrun.
  - cbn in Hrun. injection Hrun as _ <-. exists []. split; [constructor|].
    cbn. rewrite app_nil_r. reflexivity.
  - cbn [for_each] in Hrun. unfold bind at 1 in Hrun. unfold bind at 1 in Hrun.
    destruct (index_of column header_) as [i|] eqn:Hi; cbn in Hrun; [|discriminate].
    destruct (IH _ u w' Hrun) as (positions & Hpos & Hc).
    exists (i :: positions). split; [constructor; assumption|].
    rewrite Hc. cbn. rewrite <- app_assoc. reflexivity.
Qed.

Lemma closes_after_setup (py_eval : string -> scope -> result bool) (t0 : CollapsibleTable)
    (total_row_ : Z) (use_header : option Z) (use_title : option string) :
  closes (fun t => settings t = settings t0) (fun e => is_set_column e = false)
    (fun tl => exists positions,
       Forall2 (fun column i => index_of column (header t0) = Some i)
         (default [] (hidden_columns t0)) positions
       /\ tl = hide_calls positions)
    (after_setup py_eval total_row_ use_header use_title).
Proof.
  unfold after_setup.
  apply closes_get. intros t Ht.
  assert (Hhead : header t = header t0) by (unfold settings in Ht; congruence).
  assert (Hhid : hidden_columns t = hidden_columns t0) by (unfold settings in Ht; congruence).
  apply closes_bind; [apply keeps_or_raise|intros row].
  apply closes_bind; [repeat keeps_step|intros _].
  apply closes_bind; [apply keeps_write_title; auto|intros _].
  apply closes_bind; [apply keeps_write_header; auto|intros _].
  apply closes_bind; [apply keeps_looper; auto|intros _].
  apply closes_bind;
    [apply keeps_for_each; intros; apply keeps_write_total_column; auto|intros _].
  intros w Hw u w' Hrun. rewrite Hhead, Hhid in Hrun.
  destruct (hidden_columns t0) as [hidden_|]; cbn [default].
  - destruct (hide_loop _ _ _ _ _ Hrun) as (positions & Hpos & Hc).
    exists [], (hide_calls positions). split; [exact Hc|]. split; [constructor|].
    exists positions. auto.
  - injection Hrun as _ <-. exists [], []. rewrite !app_nil_r. split; [reflexivity|].
    split; [constructor|]. exists []. split; [constructor|reflexivity].
Qed.

Lemma render_int (py_eval : string -> scope -> result bool) (w : world) (z : Z) :
  total_row (table w) = TotalInt z ->
  render py_eval w = (Raise (AttributeError "'int' object has no attribute 'lower'"), w).
Proof.
  intros Hz. unfold render. unfold bind at 1. unfold get_table at 1. cbn [table calls].
  rewrite Hz. unfold bind at 1. reflexivity.
Qed.

Lemma filled_layout (t : CollapsibleTable) :
  header (filled t) = header t /\ hidden_columns (filled t) = hidden_columns t
  /\ total_row (filled t) = total_row t.
Proof. unfold filled. repeat case_bool_decide; repeat split. Qed.

Lemma moved_down_layout (t : CollapsibleTable) :
  header (moved_down t) = header t /\ hidden_columns (moved_down t) = hidden_columns t
  /\ total_row (moved_down t) = TotalInt (header_row_of t).
Proof. unfold moved_down, filled. repeat case_bool_decide; repeat split. Qed.

Lemma hide_columns_fold (args : list pyarg) :
  forall t : CollapsibleTable,
    Forall (fun a => is_str a || is_list a = true) args ->
    let t' := foldl (fun t a => CollapsibleTable_methods.hide_columns a t) t args in
    header t' = header t /\ total_row t' = total_row t
    /\ hidden_columns t'
       = match args with
         | [] => hidden_columns t
         | _ :: _ => Some (default [] (hidden_columns t) ++ concat (names_of <$> args))
         end.
Proof.
  induction args as [|a args IH]; intros t Hargs t'; subst t'; [repeat split|].
  apply Forall_cons in Hargs as [Ha Hargs]. cbn [foldl].
  specialize (IH (CollapsibleTable_methods.hide_columns a t) Hargs). cbn zeta in IH.
  destruct IH as (Hh & Ht & Hc). rewrite Hh, Ht, Hc. clear Hh Ht Hc.
  unfold CollapsibleTable_methods.hide_columns.
  destruct a as [|column|cols|]; try discriminate Ha;
    destruct (hidden_columns t) as [hidden_|];
    cbn [header total_row hidden_columns set_hidden_columns default names_of fmap list_fmap
         concat app];
    (split; [reflexivity|split; [reflexivity|]]);
    destruct args; cbn [fmap list_fmap concat]; unfold id;
    rewrite ?app_nil_r, <- ?app_assoc; reflexivity.
Qed.

(** X8. When [add_collapsible_table] returns for a table on which
    [hide_columns] was called (with names or lists of names), its last calls
    hide one column per name given, in the order of the calls and with
    repetitions: each at the position of the name in [header], counted from
    column 0 and not from [start_col]. No other call of the method is a
    [set_column]. So the method returns only if every name is in the
    header. *)
Theorem X8_hidden_columns_by_header_position :
  forall (py_eval : string -> scope -> result bool) (t0 : CollapsibleTable) (a : pyarg)
    (args : list pyarg) (sheet : list event) (u : unit),
    hidden_columns t0 = None ->
    forallb (fun a => is_str a || is_list a) (a :: args) = true ->
    let t := foldl (fun t a => CollapsibleTable_methods.hide_columns a t) t0 (a :: args) in
    let run := render py_eval {| table := t; calls := sheet |} in
    run.1 = Ok u ->
    exists positions pre,
      Forall2 (fun column i => index_of column (header t0) = Some i)
        (concat (names_of <$> a :: args)) positions
      /\ calls run.2 = sheet ++ pre ++ hide_calls positions
      /\ Forall (fun e => is_set_column e = false) pre.
Proof.
  intros py_eval t0 a args sheet u Hnone Hargs t run Hok.
  assert (Hargs' : Forall (fun a => is_str a || is_list a = true) (a :: args)).
  { apply Forall_forall. intros x Hx. apply list_elem_of_In in Hx.
    exact (proj1 (forallb_forall _ _) Hargs x Hx). }
  destruct (hide_columns_fold (a :: args) t0 Hargs') as (Hhead & Htot & Hhid).
  fold t in Hhead, Htot, Hhid. rewrite Hnone in Hhid. cbn [default app] in Hhid.
  assert (Hrun : render py_eval {| table := t; calls := sheet |} = (Ok u, run.2)).
  { subst run. destruct (render py_eval _) as [r w']. cbn in Hok. subst r. reflexivity. }
  clearbody run. clear Hok.
  destruct (total_row t) as [s|z] eqn:Hs;
    [|rewrite (render_int py_eval _ z) in Hrun by exact Hs; discriminate].
  rewrite (render_run py_eval _ s) in Hrun by exact Hs. cbn [table calls] in Hrun. cbn zeta in Hrun.
  destruct (filled_layout t) as (Hf1 & Hf2 & _).
  destruct (moved_down_layout t) as (Hm1 & Hm2 & _).
  destruct (String.eqb (Py.lower s) "top").
  - destruct (closes_after_setup py_eval (moved_down t) _ _ _
                {| table := moved_down t; calls := sheet |} eq_refl _ _ Hrun)
      as (pre & tl & Hc & Hpre & positions & Hpos & ->).
    rewrite Hm1, Hm2, Hhead, Hhid in Hpos. exists positions, pre. auto.
  - destruct (String.eqb (Py.lower s) "bottom"); [|discriminate].
    destruct (closes_after_setup py_eval (filled t) _ _ _
                {| table := filled t; calls := sheet |} eq_refl _ _ Hrun)
      as (pre & tl & Hc & Hpre & positions & Hpos & ->).
    rewrite Hf1, Hf2, Hhead, Hhid in Hpos. exists positions, pre. auto.
Qed.

Lemma X8_witness :
  let t := foldl (fun t a => CollapsibleTable_methods.hide_columns a t)
             (hosts_table 2 "bottom") [PStr "Status"; PList ["Host"]] in
  let run := render Sample.literal_eval {| table := t; calls := [] |} in
  exists positions pre,
    Forall2 (fun column i => index_of column ["Host"; "Status"] = Some i)
      ["Status"; "Host"] positions
    /\ calls run.2 = [] ++ pre ++ hide_calls positions
    /\ Forall (fun e => is_set_column e = false) pre.
Proof.
  intros t run.
  apply (X8_hidden_columns_by_header_position Sample.literal_eval (hosts_table 2 "bottom")
           (PStr "Status") [PList ["Host"%string]] [] tt).
  - reflexivity.
  - reflexivity.
  - vm_compute. reflexivity.
Defined.


(** X9. A [total_row] whose lower-cased text is neither ['top'] nor
    ['bottom'] ends [add_collapsible_table] with the [ValueError] of the
    source before any call on the worksheet; by then [header_row] and
    [title_row] hold [data_row] where they were [None], and nothing else of
    the table has changed. *)
Theorem X9_unknown_total_row_is_rejected_before_any_call :
  forall (py_eval : string -> scope -> result bool) (w : world) (s : string),
    total_row (table w) = TotalStr s ->
    String.eqb (Py.lower s) "top" = false ->
    String.eqb (Py.lower s) "bottom" = false ->
    render py_eval w
    = (Raise (ValueError total_row_error), {| table := filled (table w); calls := calls w |}).
Proof.
  intros py_eval w s Hs Htop Hbot. rewrite (render_run py_eval w s Hs). cbn zeta.
  rewrite Htop, Hbot. reflexivity.
Qed.

Lemma X9_witness :
  render Sample.literal_eval {| table := hosts_table 0 "Middle"; calls := [] |}
  = (Raise (ValueError total_row_error),
     {| table := filled (hosts_table 0 "Middle"); calls := [] |}).
Proof.
  apply (X9_unknown_total_row_is_rejected_before_any_call Sample.literal_eval
           {| table := hosts_table 0 "Middle"; calls := [] |} "Middle"); reflexivity.
Defined.


(** X10. With [total_row='top'] (in any case of the letters), however
    [add_collapsible_table] ends, it leaves the number of the header row in
    [total_row]; a second call with the same table then raises the
    [AttributeError] of [table.total_row.lower()] and makes no call on the
    worksheet. *)
Theorem X10_top_total_row_makes_the_table_single_use :
  forall (py_eval : string -> scope -> result bool) (w : world) (s : string),
    total_row (table w) = TotalStr s ->
    Py.lower s = "top"%string ->
    let run := render py_eval w in
    total_row (table run.2) = TotalInt (header_row_of (table w))
    /\ forall sheet,
         render py_eval {| table := table run.2; calls := sheet |}
         = (Raise (AttributeError "'int' object has no attribute 'lower'"),
            {| table := table run.2; calls := sheet |}).
Proof.
  intros py_eval w s Hs Htop run.
  assert (Ht : total_row (table run.2) = TotalInt (header_row_of (table w))).
  { subst run. rewrite (render_run py_eval w s Hs). cbn zeta. rewrite Htop.
    change (String.eqb "top" "top") with true. cbn match.
    destruct (keeps_after_setup py_eval (moved_down (table w)) (header_row_of (table w))
                (header_row (table w)) (title (table w))
                {| table := moved_down (table w); calls := calls w |} eq_refl) as [Hset _].
    destruct (moved_down_layout (table w)) as (_ & _ & Hm).
    unfold settings in Hset. congruence. }
  split; [exact Ht|]. intros sheet. apply (render_int py_eval _ (header_row_of (table w))).
  exact Ht.
Qed.

Lemma X10_witness :
  let run := render Sample.literal_eval {| table := hosts_table 0 "Top"; calls := [] |} in
  total_row (table run.2) = TotalInt 1
  /\ forall sheet,
       render Sample.literal_eval {| table := table run.2; calls := sheet |}
       = (Raise (AttributeError "'int' object has no attribute 'lower'"),
          {| table := table run.2; calls := sheet |}).
Proof.
  apply (X10_top_total_row_makes_the_table_single_use Sample.literal_eval
           {| table := hosts_table 0 "Top"; calls := [] |} "Top"); reflexivity.
Defined.


(** X11. With [total_row='bottom'], however [add_collapsible_table]
    ends, the table keeps its title, data, start column, header, end column,
    freeze panes, hidden columns, title alignment, total row setting, header
    comments, levels, data properties and total record; [header_row] and
    [title_row] hold [data_row] where they were [None]. What changes is the
    row cursor and the [makehash] dicts that reading extends. *)
Theorem X11_bottom_keeps_the_settings :
  forall (py_eval : string -> scope -> result bool) (w : world) (s : string),
    total_row (table w) = TotalStr s ->
    Py.lower s = "bottom"%string ->
    settings (table (render py_eval w).2) = settings (filled (table w)).
Proof.
  intros py_eval w s Hs Hbot. rewrite (render_run py_eval w s Hs). cbn zeta. rewrite Hbot.
  change (String.eqb "bottom" "top") with false. cbn match. rewrite String.eqb_refl.
  apply (keeps_after_setup py_eval (filled (table w)) _ _ _
           {| table := filled (table w); calls := calls w |} eq_refl).
Qed.

Lemma X11_witness :
  settings (table (render Sample.literal_eval
                     {| table := hosts_table 0 "Bottom"; calls := [] |}).2)
  = settings (filled (hosts_table 0 "Bottom")).
Proof.
  apply (X11_bottom_keeps_the_settings Sample.literal_eval
           {| table := hosts_table 0 "Bottom"; calls := [] |} "Bottom"); reflexivity.
Defined.


(** ** Registered formats, totals and dropdowns at the cell *)

Section Registered.

Variable py_eval : string -> scope -> result bool.
Variables (line_info : list value) (line_header : list string).
Variables (level : nat) (level_name col : string) (_column_ : value).
Variable format : pyarg.
Variables (fl cl : gmap string pyarg) (i j : nat) (v : value).
Variable t : CollapsibleTable.

Local Abbreviation sc := (line_scope line_info line_header level level_name col _column_).

Hypothesis formats_level : formats t !! level_name = Some fl.
Hypothesis formats_col : fl !! col = Some format.
Hypothesis conditions_level : conditions t !! level_name = Some cl.
Hypothesis col_in_header : index_of col (header t) = Some j.
Hypothesis col_in_line : index_of col line_header = Some i.
Hypothesis cell : line_info !! i = Some v.

Lemma write_cell_format (w : world) :
  table w = t ->
  write_cell line_info line_header col (format_at level_name col None) w
  = (Ok tt, with_calls w [write (data_row t) (start_col t + Z.of_nat j) v
                            (_get_excel_format format)]).
Proof.
  intros Ht. unfold write_cell, header_col, line_value, format_at.
  unfold bind at 1, get_table at 1. unfold bind at 1. unfold bind at 1, get_table at 1.
  rewrite Ht, col_in_header. cbn [or_raise]. unfold bind at 1, ret at 1. unfold ret at 1.
  unfold bind at 1. unfold bind at 1. rewrite col_in_line. cbn [or_raise]. unfold ret at 1.
  rewrite cell. cbn [or_raise]. unfold ret at 1.
  unfold bind at 1. unfold bind at 1.
  rewrite (read2_present PHash formats set_formats level_name col fl format w
             set_formats_id ltac:(rewrite Ht; exact formats_level) formats_col).
  unfold ret, emit. unfold with_calls. rewrite Ht. reflexivity.
Qed.

Lemma write_value_one_format (condition : option string) (w : world) :
  cl !! col = Some (optional_str condition) ->
  table w = t ->
  let outcome_ := cell_calls py_eval sc (data_row t) (start_col t + Z.of_nat j) v format
                    condition in
  write_value py_eval line_info line_header level level_name col _column_ w
  = (outcome_.1, with_calls w outcome_.2).
Proof.
  intros Hcond Ht outcome_. subst outcome_. unfold write_value.
  assert (Hr1 : forall w', table w' = t ->
            read1 formats set_formats level_name w' = (Ok fl, w')).
  { intros w' Hw'. apply read1_present; [exact set_formats_id|].
    rewrite Hw'. exact formats_level. }
  assert (Hr2 : forall w', table w' = t ->
            read2 PHash conditions set_conditions level_name col w'
            = (Ok (optional_str condition), w')).
  { intros w' Hw'. eapply read2_present; [exact set_conditions_id| |exact Hcond].
    rewrite Hw'. exact conditions_level. }
  assert (Hkey : has_key fl col = true).
  { unfold has_key. apply bool_decide_eq_true. rewrite formats_col. eauto. }
  unfold bind at 1. unfold bind at 1. rewrite (Hr1 w Ht), Hkey.
  unfold bind at 1. rewrite (Hr2 w Ht). unfold ret at 1.
  destruct condition as [text|]; cbn [optional_str cell_calls].
  - rewrite bool_decide_eq_false_2 by discriminate.
    unfold bind at 1. unfold bind at 1. rewrite (Hr1 w Ht), Hkey.
    unfold bind at 1. rewrite (Hr2 w Ht). unfold ret at 1.
    rewrite bool_decide_eq_false_2 by discriminate. cbn [negb].
    unfold bind at 1. rewrite (Hr2 w Ht). cbn [optional_str].
    unfold bind at 1. rewrite eval_run.
    destruct (py_eval (Helper._format_string text) sc) as [[|]|e]; cbn [fst snd].
    + rewrite write_cell_format by exact Ht. rewrite with_calls_app. reflexivity.
    + rewrite (write_cell_plain line_info line_header col i j v t col_in_header col_in_line
                 cell) by exact Ht.
      rewrite with_calls_app. reflexivity.
    + reflexivity.
  - rewrite bool_decide_eq_true_2 by reflexivity.
    rewrite write_cell_format by exact Ht. reflexivity.
Qed.

End Registered.

Lemma register_format_entries (level col : string) (format condition : pyarg)
    (t : CollapsibleTable) :
  let t' := register_format level col format condition t in
  (exists fl, formats t' !! level = Some fl /\ fl !! col = Some format)
  /\ (exists cl, conditions t' !! level = Some cl /\ cl !! col = Some condition)
  /\ header t' = header t /\ data_row t' = data_row t /\ start_col t' = start_col t.
Proof.
  intros t'. subst t'. unfold register_format, setitem2. cbn [formats conditions set_formats
    set_conditions header data_row start_col].
  split; [|split; [|auto]].
  - eexists. split; [apply lookup_insert_eq|apply lookup_insert_eq].
  - eexists. split; [apply lookup_insert_eq|apply lookup_insert_eq].
Qed.

(** X12. A format registered with [add_column_formats] for one level and
    one column, without a condition or with one condition text, reaches the
    cell: when a line of that level is written, the value part of the column
    evaluates the condition, if any, through [_format_string], then writes
    the value at the row of the cursor and the column [start_col] + the
    position of the column in the header, with the format when there is no
    condition or it holds, without a format when it does not hold; when the
    evaluation raises, the exception leaves [write_line] and the value is
    not written. The table is not changed. *)
Theorem X12_registered_format_reaches_the_cell :
  forall (py_eval : string -> scope -> result bool) (level_name col : string)
    (format : pyarg) (condition : option string) (t : CollapsibleTable)
    (line_info : list value) (line_header : list string) (level : nat) (_column_ : value)
    (i j : nat) (v : value) (sheet : list event),
    not_parallel format (optional_str condition) = false ->
    index_of col (header t) = Some j ->
    index_of col line_header = Some i ->
    line_info !! i = Some v ->
    let t' := object (CollapsibleTable_methods.add_column_formats (PStr level_name) (PStr col)
                        format (optional_str condition) t) in
    let outcome_ := cell_calls py_eval
                      (line_scope line_info line_header level level_name col _column_)
                      (data_row t) (start_col t + Z.of_nat j) v format condition in
    write_value py_eval line_info line_header level level_name col _column_
      {| table := t'; calls := sheet |}
    = (outcome_.1, {| table := t'; calls := sheet ++ outcome_.2 |}).
Proof.
  intros py_eval level_name col format condition t line_info line_header level _column_
    i j v sheet Hpar Hj Hi Hv t' outcome_.
  assert (Ht' : t' = register_format level_name col format (optional_str condition) t).
  { subst t'. unfold CollapsibleTable_methods.add_column_formats,
      CollapsibleTable_methods.add_column_formats_body. rewrite Hpar. reflexivity. }
  destruct (register_format_entries level_name col format (optional_str condition) t)
    as ((fl & Hfl & Hfc) & (cl & Hcl & Hcc) & Hhead & Hrow & Hcol).
  rewrite <- Ht' in *.
  pose proof (write_value_one_format py_eval line_info line_header level level_name col
                _column_ format fl cl i j v t' Hfl Hfc Hcl
                ltac:(rewrite Hhead; exact Hj) Hi Hv condition
                {| table := t'; calls := sheet |} Hcc eq_refl) as H.
  cbn zeta in H. rewrite Hrow, Hcol in H. exact H.
Qed.

Lemma X12_witness :
  let t' := object (CollapsibleTable_methods.add_column_formats (PStr "Host") (PStr "Status")
                      (PStr "Bold") (PStr "False") Small.table0) in
  write_value Sample.literal_eval [VStr "pc1"; VStr "open"] ["Host"; "Status"] 0 "Host"
    "Status" (VStr "open") {| table := t'; calls := [] |}
  = (Ok tt, {| table := t';
               calls := [] ++ [eval_call "False"; write 2 1 (VStr "open") None] |}).
Proof.
  exact (X12_registered_format_reaches_the_cell Sample.literal_eval "Host" "Status"
           (PStr "Bold") (Some "False"%string) Small.table0 [VStr "pc1"; VStr "open"]
           ["Host"; "Status"]%string 0%nat (VStr "open") 1%nat 1%nat (VStr "open") []
           eq_refl eq_refl eq_refl eq_refl).
Defined.

Lemma read0_present (attr : CollapsibleTable -> gmap string pyarg)
    (assign : gmap string pyarg -> CollapsibleTable -> CollapsibleTable) (k : string)
    (x : pyarg) (w : world) :
  attr (table w) !! k = Some x -> read0 attr assign k w = (Ok x, w).
Proof. intros Hk. unfold read0, bind, get_table. rewrite Hk. reflexivity. Qed.

Lemma write_total_formula_run (total_row_ : Z) (col : string) (formatting : bool)
    (format : pyarg) (line : DataFrame) (j : nat) (v : value) (w : world) :
  index_of col (header (table w)) = Some j ->
  total_row_values (table w) = Some line ->
  first_value line col = Some v ->
  total_formats (table w) !! col = Some format ->
  _write_total_formula total_row_ col formatting w
  = (Ok tt, with_calls w [write total_row_ (start_col (table w) + Z.of_nat j) v
                            (if formatting then _get_excel_format format else None)]).
Proof.
  intros Hj Hline Hv Hf. unfold _write_total_formula. unfold bind at 1, get_table at 1.
  rewrite Hj, Hline. cbn [mbind option_bind]. rewrite Hv.
  destruct formatting; [|reflexivity].
  unfold bind. rewrite (read0_present total_formats set_total_formats col format w Hf).
  reflexivity.
Qed.

Lemma write_total_column_one_format (py_eval : string -> scope -> result bool)
    (total_row_ : Z) (use_header : option Z) (col : string) (format : pyarg)
    (condition : option string) (line : DataFrame) (j : nat) (v : value) (w : world) :
  index_of col (header (table w)) = Some j ->
  total_row_values (table w) = Some line ->
  first_value line col = Some v ->
  total_formats (table w) !! col = Some format ->
  total_conditions (table w) !! col = Some (optional_str condition) ->
  let _column_ := match use_header with
                  | None => "`Column" +:+ Py.str_of_Z (Z.of_nat j + 1) +:+ "`"
                  | Some _ => "`" +:+ col +:+ "`"
                  end in
  let outcome_ := cell_calls py_eval (total_scope col _column_) total_row_
                    (start_col (table w) + Z.of_nat j) v format condition in
  write_total_column py_eval total_row_ use_header col w = (outcome_.1, with_calls w outcome_.2).
Proof.
  intros Hj Hline Hv Hf Hc _column_ outcome_. subst outcome_. unfold write_total_column.
  unfold bind at 1, get_table at 1. unfold bind at 1.
  assert (Hcol : (match use_header with
                  | None =>
                      bind (or_raise (index_of col (header (table w)))
                              (ValueError (Py.repr col +:+ " is not in list")))
                        (fun i => ret ("`Column" +:+ Py.str_of_Z (Z.of_nat i + 1) +:+ "`"))
                  | Some _ => ret ("`" +:+ col +:+ "`")
                  end) w = (Ok _column_, w)).
  { subst _column_. destruct use_header; [reflexivity|]. rewrite Hj. reflexivity. }
  rewrite Hcol. clear Hcol.
  assert (Hkey : has_key (total_formats (table w)) col = true).
  { unfold has_key. apply bool_decide_eq_true. rewrite Hf. eauto. }
  assert (Hr : read0 total_conditions set_total_conditions col w
               = (Ok (optional_str condition), w)) by (apply read0_present; exact Hc).
  unfold bind at 1. unfold bind at 1, get_table at 1. rewrite Hkey.
  unfold bind at 1. rewrite Hr. unfold ret at 1.
  destruct condition as [text|]; cbn [optional_str cell_calls].
  - rewrite bool_decide_eq_false_2 by discriminate.
    unfold bind at 1. unfold bind at 1, get_table at 1. rewrite Hkey.
    unfold bind at 1. rewrite Hr. unfold ret at 1.
    rewrite bool_decide_eq_false_2 by discriminate. cbn [negb].
    unfold bind at 1. rewrite Hr. cbn [optional_str].
    unfold bind at 1. unfold eval. unfold bind at 1. unfold emit at 1. unfold lift.
    destruct (py_eval (Helper._format_string text) (total_scope col _column_)) as [b|e];
      cbn [fst snd]; [|reflexivity].
    rewrite (write_total_formula_run total_row_ col b format line j v); try assumption.
    unfold with_calls. cbn [table calls]. rewrite <- app_assoc. reflexivity.
  - rewrite bool_decide_eq_true_2 by reflexivity.
    rewrite (write_total_formula_run total_row_ col true format line j v); try assumption.
    reflexivity.
Qed.

(** X14. The total row from the record: after [add_total] with a frame of
    at most one row and [add_total_formats] for a column, without a
    condition or with one condition text, the total-row step of that column
    writes the first value of the record's column at the total row and the
    column [start_col] + the position of the column in the header, with the
    format when there is no condition or it holds and without a format
    otherwise; the condition sees the backticked column name, or
    [`ColumnN`] when the table has no header row. *)
Theorem X14_total_cell_from_the_record :
  forall (py_eval : string -> scope -> result bool) (t : CollapsibleTable)
    (line : DataFrame) (col : string) (format : pyarg) (condition : option string)
    (total_row_ : Z) (use_header : option Z) (j : nat) (v : value) (sheet : list event),
    (length (rows line) <= 1)%nat ->
    first_value line col = Some v ->
    index_of col (header t) = Some j ->
    not_parallel format (optional_str condition) = false ->
    let t1 := (CollapsibleTable_methods.add_total line t).2 in
    let registered := CollapsibleTable_methods.add_total_formats (PStr col) format
                        (optional_str condition) t1 in
    let _column_ := match use_header with
                    | None => "`Column" +:+ Py.str_of_Z (Z.of_nat j + 1) +:+ "`"
                    | Some _ => "`" +:+ col +:+ "`"
                    end in
    let outcome_ := cell_calls py_eval (total_scope col _column_) total_row_
                      (start_col t + Z.of_nat j) v format condition in
    (CollapsibleTable_methods.add_total line t).1 = Ok tt
    /\ ended registered = Ok tt
    /\ write_total_column py_eval total_row_ use_header col
         {| table := object registered; calls := sheet |}
       = (outcome_.1, {| table := object registered; calls := sheet ++ outcome_.2 |}).
Proof.
  intros py_eval t line col format condition total_row_ use_header j v sheet Hlen Hv Hj Hpar
    t1 registered _column_ outcome_.
  subst t1 registered. unfold CollapsibleTable_methods.add_total.
  destruct (Nat.ltb_spec 1 (length (rows line))) as [Hlt|_]; [lia|]. cbn [fst snd].
  unfold CollapsibleTable_methods.add_total_formats,
    CollapsibleTable_methods.add_total_formats_body. rewrite Hpar. cbn [ended object].
  split; [reflexivity|]. split; [reflexivity|].
  match goal with
  | |- write_total_column _ _ _ _ ?w = _ =>
      exact (write_total_column_one_format py_eval total_row_ use_header col format condition
               line j v w Hj eq_refl Hv (lookup_insert_eq _ _ _) (lookup_insert_eq _ _ _))
  end.
Qed.

Lemma X14_witness :
  let line := {| columns := ["Host"; "Status"]; rows := [[VStr "Total"; VInt 5]] |} in
  let t1 := (CollapsibleTable_methods.add_total line Small.table0).2 in
  let registered := CollapsibleTable_methods.add_total_formats (PStr "Status") (PStr "Bold")
                      PNone t1 in
  (CollapsibleTable_methods.add_total line Small.table0).1 = Ok tt
  /\ ended registered = Ok tt
  /\ write_total_column Sample.literal_eval 3 (Some 1) "Status"
       {| table := object registered; calls := [] |}
     = (Ok tt, {| table := object registered;
                  calls := [] ++ [write 3 1 (VInt 5) (Some "Bold"%string)] |}).
Proof.
  exact (X14_total_cell_from_the_record Sample.literal_eval Small.table0
           {| columns := ["Host"; "Status"]%string; rows := [[VStr "Total"; VInt 5]] |}
           "Status" (PStr "Bold") None 3 (Some 1) 1%nat (VInt 5) []
           ltac:(cbn; lia) eq_refl eq_refl eq_refl).
Defined.


Lemma keeps_write_total_formula_without_record (total_row_ : Z) (col : string)
    (formatting : bool) :
  keeps (fun t => total_row_values t = None) (fun e => is_eval_call e = true)
    (_write_total_formula total_row_ col formatting).
Proof.
  unfold _write_total_formula. apply keeps_get. intros t Ht. rewrite Ht. cbn [mbind option_bind].
  destruct (index_of col (header t)); apply keeps_ret.
Qed.

(** X13. Without a total record ([add_total] was never called) the loop
    under [# Write Total Row] makes no call on the worksheet, whatever
    total formats and conditions are registered: the error of the missing
    record is dropped by [except: pass], and the only thing that happens is
    the evaluation of the conditions. *)
Theorem X13_no_total_record_no_total_row :
  forall (py_eval : string -> scope -> result bool) (total_row_ : Z) (use_header : option Z)
    (cols : list string) (w : world),
    total_row_values (table w) = None ->
    let run := for_each cols (write_total_column py_eval total_row_ use_header) w in
    total_row_values (table run.2) = None
    /\ exists evs, calls run.2 = calls w ++ evs /\ Forall (fun e => is_eval_call e = true) evs.
Proof.
  intros py_eval total_row_ use_header cols w Hw run. subst run.
  apply (keeps_for_each (fun t => total_row_values t = None) (fun e => is_eval_call e = true));
    [|exact Hw].
  intros col. unfold write_total_column, eval.
  repeat first [apply keeps_write_total_formula_without_record | keeps_step].
Qed.

Lemma X13_witness :
  let t := object (CollapsibleTable_methods.add_total_formats (PStr "Status") (PStr "Bold")
                     (PStr "True") Small.table0) in
  let run := for_each ["Host"; "Status"] (write_total_column Sample.literal_eval 3 (Some 1))
               {| table := t; calls := [] |} in
  total_row_values (table run.2) = None
  /\ exists evs, calls run.2 = [] ++ evs /\ Forall (fun e => is_eval_call e = true) evs.
Proof.
  exact (X13_no_total_record_no_total_row Sample.literal_eval 3 (Some 1)
           ["Host"; "Status"]%string
           {| table := object (CollapsibleTable_methods.add_total_formats (PStr "Status")
                                 (PStr "Bold") (PStr "True") Small.table0);
              calls := [] |} eq_refl).
Defined.


Lemma for_each_calls {A : Type} (body : A -> M unit) (f : A -> list event) (l : list A) :
  (forall x w, body x w = (Ok tt, with_calls w (f x))) ->
  forall w, for_each l body w = (Ok tt, with_calls w (concat (f <$> l))).
Proof.
  intros Hb. induction l as [|x l IH]; intros w; cbn [for_each fmap list_fmap concat].
  - rewrite with_calls_nil. reflexivity.
  - unfold bind. rewrite Hb, IH, with_calls_app. reflexivity.
Qed.

(** X15. With a header row, the header is written on the row that
    [header_row] holds: the names of [header] from left to right from
    [start_col] on, each with the format [BoldWrapped], each followed by
    its comment when [header_comments] has one for the name, and after
    them one autofilter over the row from [start_col] to [end_col]. *)
Theorem X15_header_row_calls :
  forall (use_header row : Z) (w : world),
    header_row (table w) = Some row ->
    write_header (Some use_header) w = (Ok tt, with_calls w (header_calls (table w) row)).
Proof.
  intros use_header row w Hrow. unfold write_header.
  unfold bind at 1, get_table at 1. rewrite Hrow. cbn [or_raise].
  unfold bind at 1, ret at 1. unfold bind at 1.
  rewrite (for_each_calls _
             (fun a_name : Z * string =>
                write row a_name.1 (VStr a_name.2) (_get_excel_format (PStr "BoldWrapped"))
                :: match header_comments (table w) !! a_name.2 with
                   | Some comment => [write_comment row a_name.1 comment]
                   | None => []
                   end)).
  - unfold emit. cbn [table calls with_calls]. unfold with_calls, header_calls. cbn [table calls].
    rewrite <- app_assoc. do 3 f_equal.
    rewrite fmap_imap. reflexivity.
  - intros [a name] w'. cbn [fst snd]. unfold bind, emit.
    destruct (header_comments (table w) !! name); unfold with_calls; cbn [table calls];
      [rewrite <- app_assoc|]; reflexivity.
Qed.

Lemma X15_witness :
  write_header (Some 1) {| table := hosts_table 2 "bottom"; calls := [] |}
  = (Ok tt,
     with_calls {| table := hosts_table 2 "bottom"; calls := [] |}
       [write 1 2 (VStr "Host") (Some "BoldWrapped"%string);
        write 1 3 (VStr "Status") (Some "BoldWrapped"%string);
        autofilter 1 2 1 3]).
Proof.
  exact (X15_header_row_calls 1 1 {| table := hosts_table 2 "bottom"; calls := [] |} eq_refl).
Defined.


Lemma set_data_validation_id (t : CollapsibleTable) :
  set_data_validation (data_validation t) t = t.
Proof. destruct t; reflexivity. Qed.

Lemma set_data_validation_condition_id (t : CollapsibleTable) :
  set_data_validation_condition (data_validation_condition t) t = t.
Proof. destruct t; reflexivity. Qed.

Lemma set_data_validation_extras_id (t : CollapsibleTable) :
  set_data_validation_extras (data_validation_extras t) t = t.
Proof. destruct t; reflexivity. Qed.

(** X16. A dropdown registered with [add_data_validation] for a column and
    a level, without a condition, reaches the cell: when a line of that level
    is written, the validation part of the column makes one
    [data_validation] call on the cell at the row of the cursor, with the
    options that are not [None], in the order of the dict that the method
    built. The table is not changed. *)
Theorem X16_dropdown_reaches_the_cell :
  forall (py_eval : string -> scope -> result bool) (column level_name : string)
    (dropdown_values : dvparam) (extras : list (string * option dvparam))
    (t : CollapsibleTable) (line_info : list value) (line_header : list string)
    (level : nat) (_column_ : value) (j : nat) (sheet : list event),
    index_of column (header t) = Some j ->
    let t' := CollapsibleTable_methods.add_data_validation column level_name dropdown_values
                PNone extras t in
    write_validation py_eval line_info line_header level level_name column _column_
      {| table := t'; calls := sheet |}
    = (Ok tt,
       {| table := t';
          calls := sheet ++ [data_validation_call (data_row t) (start_col t + Z.of_nat j)
                               (data_row t) (start_col t + Z.of_nat j)
                               (omap (fun px => pair px.1 <$> px.2) extras)] |}).
Proof.
  intros py_eval column level_name dropdown_values extras t line_info line_header level
    _column_ j sheet Hj t'.
  set (w := {| table := t'; calls := sheet |}).
  assert (Hdv : exists inner, data_validation t' !! level_name = Some inner
                              /\ inner !! column = Some dropdown_values).
  { eexists. split; [apply lookup_insert_eq|apply lookup_insert_eq]. }
  assert (Hdc : exists inner, data_validation_condition t' !! level_name = Some inner
                              /\ inner !! column = Some PNone).
  { eexists. split; [apply lookup_insert_eq|apply lookup_insert_eq]. }
  assert (Hde : exists inner, data_validation_extras t' !! level_name = Some inner
                              /\ inner !! column = Some extras).
  { eexists. split; [apply lookup_insert_eq|apply lookup_insert_eq]. }
  destruct Hdv as (dv & Hdv1 & Hdv2), Hdc as (dc & Hdc1 & Hdc2), Hde as (de & Hde1 & Hde2).
  unfold write_validation.
  unfold bind at 1.
  rewrite (read1_present data_validation set_data_validation level_name dv w
             set_data_validation_id Hdv1).
  assert (Hkey : has_key dv column = true).
  { unfold has_key. apply bool_decide_eq_true. rewrite Hdv2. eauto. }
  rewrite Hkey. unfold bind at 1. unfold bind at 1.
  rewrite (read2_present PHash data_validation_condition set_data_validation_condition
             level_name column dc PNone w set_data_validation_condition_id Hdc1 Hdc2).
  unfold ret at 1. rewrite bool_decide_eq_true_2 by reflexivity.
  unfold validate_cell. unfold bind at 1.
  rewrite (read2_present [] data_validation_extras set_data_validation_extras
             level_name column de extras w set_data_validation_extras_id Hde1 Hde2).
  unfold bind at 1, get_table at 1. unfold header_col. unfold bind at 1.
  unfold bind at 1, get_table at 1.
  change (header (table w)) with (header t). rewrite Hj. reflexivity.
Qed.

Lemma X16_witness :
  let t' := CollapsibleTable_methods.add_data_validation "Status" "Host" Small.choices PNone
              (CollapsibleTable_methods.default_extras Small.choices) Small.table0 in
  write_validation Sample.literal_eval [VStr "pc1"; VStr "open"] ["Host"; "Status"] 0 "Host"
    "Status" (VStr "open") {| table := t'; calls := [] |}
  = (Ok tt,
     {| table := t';
        calls := [] ++ [data_validation_call 2 1 2 1
                          [("validate", DVStr "list"); ("value", Small.choices);
                           ("error_type", DVStr "information")]] |}).
Proof.
  exact (X16_dropdown_reaches_the_cell Sample.literal_eval "Status" "Host" Small.choices
           (CollapsibleTable_methods.default_extras Small.choices) Small.table0
           [VStr "pc1"; VStr "open"] ["Host"; "Status"]%string 0%nat (VStr "open") 1%nat []
           eq_refl).
Defined.

(** ** Total operations of the flat table *)

Lemma register_operations_lookup (agg_function operation_function : pyarg)
    (cols : list string) :
  forall (t : Flat.Table) (c : string),
    let t' := foldl (fun t col => Flat.register_operation agg_function operation_function col t)
                t cols in
    Flat.agg_functions t' !! c
    = (if bool_decide (c ∈ cols) then Some agg_function else Flat.agg_functions t !! c)
    /\ Flat.operation_functions t' !! c
       = (if bool_decide (c ∈ cols) then Some operation_function
          else Flat.operation_functions t !! c)
    /\ Flat.layout t' = Flat.layout t.
Proof.
  induction cols as [|col cols IH]; intros t c t'; subst t'; cbn [foldl].
  - rewrite bool_decide_eq_false_2 by (intros H; inversion H). repeat split.
  - specialize (IH (Flat.register_operation agg_function operation_function col t) c).
    cbn zeta in IH. destruct IH as (Ha & Ho & Hl).
    rewrite Ha, Ho, Hl. clear.
    unfold Flat.register_operation.
    cbn [Flat.agg_functions Flat.operation_functions Flat.set_agg_functions
         Flat.set_operation_functions].
    change (Flat.layout (Flat.set_operation_functions
                           (<[col:=operation_function]> (Flat.operation_functions t))
                           (Flat.set_agg_functions
                              (<[col:=agg_function]> (Flat.agg_functions t)) t)))
      with (Flat.layout t).
    destruct (decide (c ∈ cols)) as [Hin|Hn].
    + rewrite !bool_decide_eq_true_2 by auto using list_elem_of_further. repeat split.
    + rewrite (bool_decide_eq_false_2 _ Hn).
      destruct (decide (c = col)) as [->|Hne].
      * rewrite !lookup_insert_eq, bool_decide_eq_true_2 by apply list_elem_of_here.
        repeat split.
      * rewrite !lookup_insert_ne by congruence.
        rewrite bool_decide_eq_false_2; [repeat split|].
        intros Hin. apply elem_of_cons in Hin as [?|?]; tauto.
Qed.

(** X17. [Table.add_total_operation] returns exactly when the functions
    are not [None], are not a list when the operation is [None], and the
    columns are a name or a list of names; the names of the functions are
    not looked at. When it raises, the table is as it was. When it returns,
    every named column holds the functions and the operation, every other
    column what it held, and nothing else of the table has changed. *)
Theorem X17_add_total_operation_checks_and_registers :
  forall (columns_ agg_function operation_function : pyarg) (t : Flat.Table),
    let r := Flat.add_total_operation columns_ agg_function operation_function t in
    (r.1 = Ok tt
     <-> Flat.is_none agg_function = false
         /\ (Flat.is_none operation_function = true -> is_list agg_function = false)
         /\ is_str columns_ || is_list columns_ = true)
    /\ (r.1 <> Ok tt -> r.2 = t)
    /\ (r.1 = Ok tt ->
        forall c,
          Flat.agg_functions r.2 !! c
          = (if bool_decide (c ∈ names_of columns_) then Some agg_function
             else Flat.agg_functions t !! c)
          /\ Flat.operation_functions r.2 !! c
             = (if bool_decide (c ∈ names_of columns_) then Some operation_function
                else Flat.operation_functions t !! c)
          /\ Flat.layout r.2 = Flat.layout t).
Proof.
  intros columns_ agg_function operation_function t r. subst r.
  unfold Flat.add_total_operation.
  destruct (Flat.is_none agg_function) eqn:Ea; destruct (Flat.is_none operation_function) eqn:Eo;
    cbn [andb negb fst snd].
  1-2: split; [split; [discriminate|intros (H & _); discriminate]|];
       split; [reflexivity|discriminate].
  - destruct (is_list agg_function) eqn:El; cbn [fst snd].
    { split; [split; [discriminate|intros (_ & H & _); discriminate (H eq_refl)]|].
      split; [reflexivity|discriminate]. }
    destruct columns_ as [|column|cols|]; cbn [fst snd is_str is_list orb names_of];
      try (split; [split; [discriminate|intros (_ & _ & H); discriminate]|];
           split; [reflexivity|discriminate]).
    + split; [split; [auto|reflexivity]|]. split; [congruence|]. intros _ c.
      apply (register_operations_lookup agg_function operation_function [column] t c).
    + split; [split; [auto|reflexivity]|]. split; [congruence|]. intros _ c.
      apply (register_operations_lookup agg_function operation_function cols t c).
  - destruct columns_ as [|column|cols|]; cbn [fst snd is_str is_list orb names_of];
      try (split; [split; [discriminate|intros (_ & _ & H); discriminate]|];
           split; [reflexivity|discriminate]).
    + split; [split; [intros _; repeat split; discriminate|reflexivity]|].
      split; [congruence|]. intros _ c.
      apply (register_operations_lookup agg_function operation_function [column] t c).
    + split; [split; [intros _; repeat split; discriminate|reflexivity]|].
      split; [congruence|]. intros _ c.
      apply (register_operations_lookup agg_function operation_function cols t c).
Qed.

Lemma split_reference (col : string) :
  Py.contains Py.backtick col = false ->
  Py.split Py.backtick ("`" +:+ col +:+ "`") = [EmptyString; col; EmptyString].
Proof.
  intros Hcol.
  change ("`" +:+ col +:+ "`")%string
    with (EmptyString +:+ String Py.backtick (col +:+ String Py.backtick EmptyString))%string.
  rewrite (split_at_first Py.backtick EmptyString _ eq_refl).
  rewrite (split_at_first Py.backtick col _ Hcol). reflexivity.
Qed.

(** X18. The total cell of a column registered with
    [add_total_operation] (functions a name or a list of names, operation a
    template text or [None]) holds the formula that [_convert] makes from
    the operation template, or from the backticked column name when there is
    no operation, with the cleaned table name and the registered functions;
    it is written at the total row and the column [start_col] + the
    position of the column in the header. What [_convert] raises leaves
    [add_table], and no call is made for the cell. *)
Theorem X18_total_formula_goes_through_convert :
  forall (t0 : Flat.Table) (col : string) (agg_function operation_function : pyarg)
    (total_row_ : Z) (_column_ : string) (formatting : bool) (j : nat),
    (Flat.add_total_operation (PStr col) agg_function operation_function t0).1 = Ok tt ->
    is_str agg_function || is_list agg_function = true ->
    Flat.is_none operation_function || is_str operation_function = true ->
    index_of col (Flat.header t0) = Some j ->
    let t := (Flat.add_total_operation (PStr col) agg_function operation_function t0).2 in
    let template := match operation_function with PStr s => s | _ => _column_ end in
    let aggregation := match agg_function with
                       | PStr f => AggStr f
                       | PList names => AggList names
                       | _ => AggOther
                       end in
    Flat._write_total_formula total_row_ col _column_ formatting t
    = match _convert template (Flat.name t0) aggregation with
      | Ok text =>
          (Ok (Flat.write_formula total_row_ (Flat.start_col t0 + Z.of_nat j) text
                 (Flat.format_argument col formatting t).1),
           (Flat.format_argument col formatting t).2)
      | Raise e => (Raise e, t)
      end.
Proof.
  intros t0 col agg_function operation_function total_row_ _column_ formatting j Hok Hagg Hop
    Hj t template aggregation.
  subst t template aggregation. revert Hok.
  unfold Flat.add_total_operation.
  destruct agg_function as [|f|names|]; try discriminate Hagg;
    destruct operation_function as [|s| |]; try discriminate Hop;
    cbn [Flat.is_none is_list andb negb fst snd]; intros Hok; try discriminate Hok;
    unfold Flat._write_total_formula, Flat.register_operation;
    cbn [Flat.agg_functions Flat.operation_functions Flat.set_agg_functions
         Flat.set_operation_functions Flat.header Flat.start_col Flat.name];
    rewrite !lookup_insert_eq, Hj; unfold Flat.convert_registered;
    match goal with
    | |- context [_convert ?a ?b ?c] => destruct (_convert a b c)
    end; reflexivity.
Qed.

Lemma X18_witness :
  let t0 := Flat.init "Sales 2024" {| columns := ["Item"; "Cost"; "Tax"]; rows := [] |} 0 (Some 1)
              (Some 1) 2 "bottom" in
  let t := (Flat.add_total_operation (PStr "Tax") (PList ["sum"; "max"])
              (PStr "`Cost` - `Tax`") t0).2 in
  Flat._write_total_formula 5 "Tax" "`Tax`" false t
  = (Ok (Flat.write_formula 5 2
           "=(_xlfn.AGGREGATE(9, 5, Sales2024[Cost]) - _xlfn.AGGREGATE(4, 5, Sales2024[Tax]))"
           None), t).
Proof.
  exact (X18_total_formula_goes_through_convert
           (Flat.init "Sales 2024" {| columns := ["Item"; "Cost"; "Tax"]%string; rows := [] |} 0
              (Some 1) (Some 1) 2 "bottom")
           "Tax" (PList ["sum"; "max"]%string) (PStr "`Cost` - `Tax`") 5 "`Tax`" false 2%nat
           eq_refl eq_refl eq_refl eq_refl).
Defined.

(** X19. The default total: for a table made by [Table(name, data)] and
    a column of the data registered with one function name and no
    operation, the total cell holds [=(_xlfn.AGGREGATE(code, 5, T[column]))]
    where [code] is the registry code of the upper-cased function name and
    [T] the table name without the characters that are not letters or
    digits. A name that is not in the registry is accepted by
    [add_total_operation] and raises the [KeyError] of [_convert] only when
    the total row is written. The function name is ASCII text, on which
    [upper()] changes the letters a to z only, and the column name holds no
    backtick. *)
Theorem X19_default_total_of_a_column :
  forall (name_ : string) (data_ : DataFrame) (start_col_ : Z)
    (title_row_ header_row_ : option Z) (data_row_ : Z) (total_row_ : string)
    (col f : string) (total_cell_row : Z) (formatting : bool) (j : nat),
    index_of col (columns data_) = Some j ->
    Py.contains Py.backtick col = false ->
    Py.isascii f = true ->
    let t := (Flat.add_total_operation (PStr col) (PStr f) PNone
                (Flat.init name_ data_ start_col_ title_row_ header_row_ data_row_
                   total_row_)).2 in
    Flat._write_total_formula total_cell_row col ("`" +:+ col +:+ "`") formatting t
    = match dict_get AGG_CONVERSION (Py.upper f) with
      | Some code =>
          (Ok (Flat.write_formula total_cell_row (start_col_ + Z.of_nat j)
                 ("=(" +:+ aggregate_call code (Helper.clean_string name_) col +:+ ")")
                 (Flat.format_argument col formatting t).1),
           (Flat.format_argument col formatting t).2)
      | None => (Raise (KeyError (no_agg_msg (Py.upper f))), t)
      end.
Proof.
  intros name_ data_ start_col_ title_row_ header_row_ data_row_ total_row_ col f
    total_cell_row formatting j Hj Hcol _ t.
  subst t. unfold Flat.add_total_operation. cbn [Flat.is_none is_list andb negb fst snd].
  unfold Flat._write_total_formula, Flat.register_operation, Flat.init.
  cbn [Flat.agg_functions Flat.operation_functions Flat.set_agg_functions
       Flat.set_operation_functions Flat.header Flat.start_col Flat.name].
  rewrite !lookup_insert_eq, Hj. unfold Flat.convert_registered, _convert.
  rewrite (split_reference col Hcol).
  destruct (dict_get AGG_CONVERSION (Py.upper f)) as [code|] eqn:Hcode.
  - rewrite (convert_loop_str_known _ _ _ Hcode). cbn [expand Nat.even].
    rewrite append_nil_r. reflexivity.
  - rewrite (convert_loop_unknown_str _ _ Hcode) by (cbn; lia). reflexivity.
Qed.

Lemma X19_witness :
  let t := (Flat.add_total_operation (PStr "Cost") (PStr "sum") PNone
              (Flat.init "Sales 2024" {| columns := ["Item"; "Cost"]; rows := [] |} 0 (Some 1)
                 (Some 1) 2 "bottom")).2 in
  Flat._write_total_formula 5 "Cost" "`Cost`" false t
  = (Ok (Flat.write_formula 5 1 "=(_xlfn.AGGREGATE(9, 5, Sales2024[Cost]))" None), t).
Proof.
  exact (X19_default_total_of_a_column "Sales 2024"
           {| columns := ["Item"; "Cost"]%string; rows := [] |} 0 (Some 1) (Some 1) 2 "bottom"
           "Cost" "sum" 5 false 1%nat eq_refl eq_refl eq_refl).
Defined.

(** What every table that the methods make satisfies: a column has
    functions exactly when it has an operation entry, the functions are
    never [None], and they are not a list when the operation is [None]. *)
Lemma reachable_entries (t : Flat.Table) :
  Flat.reachable t ->
  forall col,
    (is_Some (Flat.agg_functions t !! col) <-> is_Some (Flat.operation_functions t !! col))
    /\ Flat.agg_functions t !! col <> Some PNone
    /\ (Flat.operation_functions t !! col = Some PNone ->
        forall names, Flat.agg_functions t !! col <> Some (PList names)).
Proof.
  induction 1 as [name_ data_ start_col_ title_row_ header_row_ data_row_ total_row_
                 |t t' columns_ agg_function operation_function Ht IH Hadd];
    intros col.
  - cbn. rewrite !lookup_empty. split; [split; intros [? ?]; discriminate|].
    split; [discriminate|discriminate].
  - assert (Hok : (Flat.add_total_operation columns_ agg_function operation_function t).1
                  = Ok tt) by (rewrite Hadd; reflexivity).
    assert (Hchecks : Flat.is_none agg_function = false
                      /\ (Flat.is_none operation_function = true -> is_list agg_function = false)).
    { revert Hok. unfold Flat.add_total_operation.
      destruct (Flat.is_none agg_function); destruct (Flat.is_none operation_function);
        cbn [andb negb fst]; try discriminate.
      - destruct (is_list agg_function); cbn [fst]; [discriminate|auto].
      - intros _. split; [reflexivity|discriminate]. }
    destruct Hchecks as [Hagg Hlist].
    assert (Hlook : Flat.agg_functions t' !! col
                    = (if bool_decide (col ∈ names_of columns_) then Some agg_function
                       else Flat.agg_functions t !! col)
                    /\ Flat.operation_functions t' !! col
                       = (if bool_decide (col ∈ names_of columns_) then Some operation_function
                          else Flat.operation_functions t !! col)).
    { revert Hadd. unfold Flat.add_total_operation.
      destruct (Flat.is_none agg_function && negb (Flat.is_none operation_function));
        [discriminate|].
      destruct (Flat.is_none agg_function && Flat.is_none operation_function); [discriminate|].
      destruct (negb (Flat.is_none agg_function) && Flat.is_none operation_function
                && is_list agg_function); [discriminate|].
      destruct columns_ as [|column|cols|]; try discriminate; intros [= <-]; cbn [names_of].
      - destruct (register_operations_lookup agg_function operation_function [column] t col)
          as (Ha & Ho & _). auto.
      - destruct (register_operations_lookup agg_function operation_function cols t col)
          as (Ha & Ho & _). auto. }
    destruct Hlook as [Ha Ho]. rewrite Ha, Ho.
    destruct (bool_decide (col ∈ names_of columns_)); [|apply IH].
    split; [split; eauto|]. split.
    + intros [= ->]. discriminate Hagg.
    + intros [= ->] names [= ->]. discriminate (Hlist eq_refl).
Qed.

(** X20. On every table made by [Table(...)] and calls of
    [add_total_operation] that return, a column has functions exactly when
    it has an operation entry, the functions are never [None] and are not a
    list when the operation is [None]. So the first branch of
    [_write_total_formula], which looks the function name up without
    upper-casing it, is never taken: for a column with one function name the
    formula always comes from [_convert], and reading never extends
    [operation_functions]. *)
Theorem X20_direct_aggregate_branch_is_never_taken :
  forall t : Flat.Table,
    Flat.reachable t ->
    forall col,
      (is_Some (Flat.agg_functions t !! col) <-> is_Some (Flat.operation_functions t !! col))
      /\ Flat.agg_functions t !! col <> Some PNone
      /\ (Flat.operation_functions t !! col = Some PNone ->
          forall names, Flat.agg_functions t !! col <> Some (PList names))
      /\ (forall f total_row_ _column_ formatting,
            Flat.agg_functions t !! col = Some (PStr f) ->
            exists operation,
              Flat.operation_functions t !! col = Some operation
              /\ Flat._write_total_formula total_row_ col _column_ formatting t
                 = match index_of col (Flat.header t) with
                   | None => (Raise (ValueError (Py.repr col +:+ " is not in list")), t)
                   | Some i =>
                       match Flat.convert_registered
                               (if Flat.is_none operation then PStr _column_ else operation)
                               (PStr f) (Flat.name t) with
                       | Ok text =>
                           (Ok (Flat.write_formula total_row_ (Flat.start_col t + Z.of_nat i) text
                                  (Flat.format_argument col formatting t).1),
                            (Flat.format_argument col formatting t).2)
                       | Raise e => (Raise e, t)
                       end
                   end).
Proof.
  intros t Ht col. destruct (reachable_entries t Ht col) as (Hdom & Hnone & Hlist).
  split; [exact Hdom|]. split; [exact Hnone|]. split; [exact Hlist|].
  intros f total_row_ _column_ formatting Hf.
  destruct (proj1 Hdom ltac:(eauto)) as [operation Hop].
  exists operation. split; [exact Hop|].
  unfold Flat._write_total_formula. rewrite Hf, Hop.
  destruct operation; cbn [Flat.is_none]; reflexivity.
Qed.

Lemma X20_witness :
  let t := (Flat.add_total_operation (PStr "Cost") (PStr "sum") PNone
              (Flat.init "Sales 2024" {| columns := ["Item"; "Cost"]; rows := [] |} 0 (Some 1)
                 (Some 1) 2 "bottom")).2 in
  exists operation,
    Flat.operation_functions t !! "Cost"%string = Some operation
    /\ Flat._write_total_formula 5 "Cost" "`Cost`" false t
       = match index_of "Cost" (Flat.header t) with
         | None => (Raise (ValueError (Py.repr "Cost" +:+ " is not in list")), t)
         | Some i =>
             match Flat.convert_registered
                     (if Flat.is_none operation then PStr "`Cost`" else operation)
                     (PStr "sum") (Flat.name t) with
             | Ok text =>
                 (Ok (Flat.write_formula 5 (Flat.start_col t + Z.of_nat i) text
                        (Flat.format_argument "Cost" false t).1),
                  (Flat.format_argument "Cost" false t).2)
             | Raise e => (Raise e, t)
             end
         end.
Proof.
  intros t.
  assert (Ht : Flat.reachable t).
  { exact (Flat.reachable_add _ t (PStr "Cost") (PStr "sum") PNone
             (Flat.reachable_init "Sales 2024"
                {| columns := ["Item"; "Cost"]%string; rows := [] |} 0 (Some 1) (Some 1) 2
                "bottom") eq_refl). }
  exact (proj2 (proj2 (proj2 (X20_direct_aggregate_branch_is_never_taken t Ht "Cost"%string)))
           "sum"%string 5 "`Cost`"%string false eq_refl).
Defined.


(** ** Tables that are written without an exception *)

Section Returns.

Context (I : CollapsibleTable -> Prop).

Lemma returns_ret {A : Type} (Q : A -> Prop) (a : A) : Q a -> returns I Q (ret a).
Proof. intros Ha w Hw. exists a, w. auto. Qed.

Lemma returns_bind {A B : Type} (Q : A -> Prop) (R : B -> Prop) (m : M A) (k : A -> M B) :
  returns I Q m -> (forall a, Q a -> returns I R (k a)) -> returns I R (bind m k).
Proof.
  intros Hm Hk w Hw. destruct (Hm w Hw) as (a & w1 & Hrun & Hw1 & Ha).
  destruct (Hk a Ha w1 Hw1) as (b & w2 & Hrun2 & Hw2 & Hb).
  exists b, w2. unfold bind. rewrite Hrun. auto.
Qed.

Lemma returns_get {A : Type} (Q : A -> Prop) (f : CollapsibleTable -> M A) :
  (forall t, I t -> returns I Q (f t)) -> returns I Q (bind get_table f).
Proof. intros Hf w Hw. unfold bind, get_table. apply Hf; exact Hw. Qed.

Lemma returns_modify (g : CollapsibleTable -> CollapsibleTable) :
  (forall t, I t -> I (g t)) -> returns I (fun _ => True) (modify_table g).
Proof. intros Hg w Hw. eexists tt, _. split; [reflexivity|]. cbn. auto. Qed.

Lemma returns_emit (e : event) : returns I (fun _ => True) (emit e).
Proof. intros w Hw. eexists tt, _. split; [reflexivity|]. cbn. auto. Qed.

Lemma returns_weaken {A : Type} (Q R : A -> Prop) (m : M A) :
  (forall a, Q a -> R a) -> returns I Q m -> returns I R m.
Proof.
  intros HQR Hm w Hw. destruct (Hm w Hw) as (a & w1 & Hrun & Hw1 & Ha). exists a, w1. auto.
Qed.

Lemma returns_for_each {A : Type} (l : list A) (body : A -> M unit) :
  (forall x, x ∈ l -> returns I (fun _ => True) (body x)) ->
  returns I (fun _ => True) (for_each l body).
Proof.
  induction l as [|x l IH]; intros Hb; cbn [for_each]; [apply returns_ret; exact Logic.I|].
  eapply returns_bind; [apply Hb, list_elem_of_here|]. intros _ _.
  apply IH. intros y Hy. apply Hb, list_elem_of_further, Hy.
Qed.

End Returns.

Lemma index_of_elem (x : string) (l : list string) :
  x ∈ l -> exists i, index_of x l = Some i /\ (i < length l)%nat.
Proof.
  induction l as [|y l IH]; intros Hin; [inversion Hin|]. cbn.
  destruct (String.eqb_spec y x) as [->|Hne]; [exists 0%nat; split; [reflexivity|lia]|].
  apply elem_of_cons in Hin as [->|Hin]; [congruence|].
  destruct (IH Hin) as (i & -> & Hi). exists (S i). split; [reflexivity|lia].
Qed.

Section Plain.

Variable py_eval : string -> scope -> result bool.
Variable t1 : CollapsibleTable.

Local Abbreviation Inv := (fun t : CollapsibleTable => settings t = settings t1 /\ unformatted t).

Lemma plain_header (t : CollapsibleTable) : Inv t -> header t = header t1.
Proof. intros [Hs _]. unfold settings in Hs. congruence. Qed.

Lemma returns_line_value (line_info : list value) (line_header : list string) (col : string) :
  col ∈ line_header -> length line_info = length line_header ->
  returns Inv (fun _ => True) (line_value line_info line_header col).
Proof.
  intros Hcol Hlen w Hw. unfold line_value, bind.
  destruct (index_of_elem col line_header Hcol) as (i & Hi & Hlt). rewrite Hi. cbn.
  destruct (lookup_lt_is_Some_2 line_info i ltac:(lia)) as [v Hv]. rewrite Hv. cbn.
  exists v, w. auto.
Qed.

Lemma returns_header_col (col : string) :
  col ∈ header t1 -> returns Inv (fun _ => True) (header_col col).
Proof.
  intros Hcol w Hw. unfold header_col, bind, get_table.
  rewrite (plain_header _ Hw).
  destruct (index_of_elem col (header t1) Hcol) as (i & Hi & _). rewrite Hi. cbn.
  eexists _, w. auto.
Qed.

Lemma returns_read_formats (level_name : string) :
  returns Inv (fun fl => fl = ∅) (read1 formats set_formats level_name).
Proof.
  intros w [Hs (Hf & Hl & Hd & Hc & Ht)]. unfold read1, bind, get_table, modify_table, ret, getitem1.
  destruct (formats (table w) !! level_name) as [fl|] eqn:E; cbn [fst snd table].
  - eexists _, _. split; [reflexivity|]. cbn [table]. rewrite set_formats_id.
    split; [|eapply Hf; exact E]. split; [exact Hs|]. repeat split; assumption.
  - eexists _, _. split; [reflexivity|]. cbn [table]. split; [|reflexivity].
    split; [exact Hs|]. split; [|repeat split; assumption].
    intros level fl. cbn [formats set_formats].
    destruct (decide (level = level_name)) as [->|Hne].
    + rewrite lookup_insert_eq. congruence.
    + rewrite lookup_insert_ne by congruence. apply Hf.
Qed.

Lemma returns_read_validation (level_name : string) :
  returns Inv (fun dv => dv = ∅) (read1 data_validation set_data_validation level_name).
Proof.
  intros w [Hs (Hf & Hl & Hd & Hc & Ht)]. unfold read1, bind, get_table, modify_table, ret, getitem1.
  destruct (data_validation (table w) !! level_name) as [dv|] eqn:E; cbn [fst snd table].
  - eexists _, _. split; [reflexivity|]. cbn [table]. rewrite set_data_validation_id.
    split; [|eapply Hd; exact E]. split; [exact Hs|]. repeat split; assumption.
  - eexists _, _. split; [reflexivity|]. cbn [table]. split; [|reflexivity].
    split; [exact Hs|]. split; [exact Hf|]. split; [exact Hl|]. split; [|split; assumption].
    intros level dv. cbn [data_validation set_data_validation].
    destruct (decide (level = level_name)) as [->|Hne].
    + rewrite lookup_insert_eq. congruence.
    + rewrite lookup_insert_ne by congruence. apply Hd.
Qed.

Lemma returns_read_condition (level_name col : string) :
  returns Inv (fun c => c = PHash)
    (read2 PHash data_validation_condition set_data_validation_condition level_name col).
Proof.
  intros w [Hs (Hf & Hl & Hd & Hc & Ht)].
  unfold read2, bind, get_table, modify_table, ret, getitem2, getitem1.
  destruct (data_validation_condition (table w) !! level_name) as [inner|] eqn:E;
    cbn [default fst snd table]; unfold id.
  - destruct (inner !! col) as [c|] eqn:Ec; cbn [fst snd].
    + eexists _, _. split; [reflexivity|]. cbn [table].
      rewrite set_data_validation_condition_id.
      split; [|eapply Hc; eassumption]. split; [exact Hs|]. repeat split; assumption.
    + eexists _, _. split; [reflexivity|]. cbn [table]. split; [|reflexivity].
      split; [exact Hs|]. split; [exact Hf|]. split; [exact Hl|]. split; [exact Hd|].
      split; [|exact Ht].
      intros level inner' col' c'.
      cbn [data_validation_condition set_data_validation_condition].
      destruct (decide (level = level_name)) as [->|Hne].
      * rewrite lookup_insert_eq. intros [= <-].
        destruct (decide (col' = col)) as [->|Hne].
        -- rewrite lookup_insert_eq. congruence.
        -- rewrite lookup_insert_ne by congruence. eapply Hc; exact E.
      * rewrite lookup_insert_ne by congruence. apply Hc.
  - rewrite lookup_empty. cbn [fst snd].
    eexists _, _. split; [reflexivity|]. cbn [table]. split; [|reflexivity].
    split; [exact Hs|]. split; [exact Hf|]. split; [exact Hl|]. split; [exact Hd|].
    split; [|exact Ht].
    intros level inner' col' c'.
    cbn [data_validation_condition set_data_validation_condition].
    destruct (decide (level = level_name)) as [->|Hne].
    + rewrite lookup_insert_eq. intros [= <-].
      destruct (decide (col' = col)) as [->|Hne].
      * rewrite lookup_insert_eq. congruence.
      * rewrite lookup_insert_ne by congruence. rewrite lookup_empty. discriminate.
    + rewrite lookup_insert_ne by congruence. apply Hc.
Qed.

Lemma has_key_empty {A : Type} (col : string) : has_key (∅ : gmap string A) col = false.
Proof. unfold has_key. apply bool_decide_eq_false. rewrite lookup_empty. intros [? ?]. discriminate. Qed.

Lemma returns_write_cell_plain (line_info : list value) (line_header : list string)
    (col : string) :
  col ∈ line_header -> col ∈ header t1 -> length line_info = length line_header ->
  returns Inv (fun _ => True) (write_cell line_info line_header col no_format).
Proof.
  intros Hcol Hhead Hlen. unfold write_cell, no_format.
  apply returns_get. intros t Ht.
  eapply returns_bind; [apply returns_header_col; exact Hhead|]. intros c _.
  eapply returns_bind; [apply returns_line_value; assumption|]. intros v _.
  eapply returns_bind; [apply (returns_ret _ (fun _ => True)); exact Logic.I|]. intros f _.
  apply returns_emit.
Qed.

Lemma returns_write_value (line_info : list value) (line_header : list string) (level : nat)
    (level_name col : string) (_column_ : value) :
  col ∈ line_header -> col ∈ header t1 -> length line_info = length line_header ->
  returns Inv (fun _ => True)
    (write_value py_eval line_info line_header level level_name col _column_).
Proof.
  intros Hcol Hhead Hlen. unfold write_value. cbv zeta.
  eapply (returns_bind _ (fun b => b = false)).
  { eapply returns_bind; [apply returns_read_formats|]. intros fl ->.
    rewrite has_key_empty. apply returns_ret. reflexivity. }
  intros b ->.
  eapply (returns_bind _ (fun b => b = false)).
  { eapply returns_bind; [apply returns_read_formats|]. intros fl ->.
    rewrite has_key_empty. apply returns_ret. reflexivity. }
  intros b ->. apply returns_write_cell_plain; assumption.
Qed.

Lemma returns_write_links (line_info : list value) (line_header : list string)
    (level_name col : string) :
  returns Inv (fun _ => True) (write_links line_info line_header level_name col).
Proof.
  unfold write_links. apply returns_get. intros t [_ (_ & Hl & _)].
  rewrite Hl, has_key_empty. apply returns_ret. exact Logic.I.
Qed.

Lemma returns_write_validation (line_info : list value) (line_header : list string)
    (level : nat) (level_name col : string) (_column_ : value) :
  returns Inv (fun _ => True)
    (write_validation py_eval line_info line_header level level_name col _column_).
Proof.
  unfold write_validation. cbv zeta.
  eapply returns_bind; [apply returns_read_validation|]. intros dv ->.
  rewrite has_key_empty.
  eapply (returns_bind _ (fun b => b = false)); [apply returns_ret; reflexivity|].
  intros b ->. apply returns_get. intros t Ht.
  eapply (returns_bind _ (fun _ => True)).
  { destruct (has_key (data_validation t) col); [|apply returns_ret; exact Logic.I].
    eapply returns_bind; [apply returns_read_condition|]. intros c _.
    apply returns_ret. exact Logic.I. }
  intros [|] _; [|apply returns_ret; exact Logic.I].
  eapply returns_bind; [apply returns_read_condition|]. intros c ->.
  eapply (returns_bind _ (fun _ => True)); [apply returns_ret; exact Logic.I|].
  intros _ _.
  eapply returns_bind; [apply returns_read_condition|]. intros c ->.
  apply returns_ret. exact Logic.I.
Qed.

Lemma returns_write_line (line_info : list value) (line_header : list string) (level : nat)
    (level_name : string) :
  (forall col, col ∈ line_header -> col ∈ header t1) ->
  length line_info = length line_header ->
  returns Inv (fun _ => True) (write_line py_eval line_info line_header level level_name).
Proof.
  intros Hhead Hlen. unfold write_line.
  eapply returns_bind.
  - apply returns_for_each. intros col Hcol. unfold write_column.
    eapply returns_bind; [apply returns_line_value; assumption|]. intros v _.
    eapply returns_bind; [apply returns_write_value; auto|]. intros _ _.
    eapply returns_bind; [apply returns_write_links|]. intros _ _.
    eapply returns_bind; [apply returns_write_validation|]. intros _ _.
    intros w Hw. rewrite set_row_properties_run.
    exact (returns_emit Inv _ w Hw).
  - intros _ _. apply returns_modify. intros t [Hs Hu]. split; [exact Hs|exact Hu].
Qed.

End Plain.

(** ** The plan of a table that can be written *)

Lemma find_all_false {A : Type} (f : A -> bool) (l : list A) :
  (forall x, x ∈ l -> f x = false) -> List.find f l = None.
Proof.
  induction l as [|x l IH]; intros H; [reflexivity|]. cbn.
  rewrite (H x (list_elem_of_here _ _)). apply IH. intros y Hy.
  apply H, list_elem_of_further, Hy.
Qed.

Lemma plan_app_good (P : nat * list value -> Prop) (p q : plan) :
  failure p = None /\ Forall P (lines p) ->
  failure q = None /\ Forall P (lines q) ->
  failure (plan_app p q) = None /\ Forall P (lines (plan_app p q)).
Proof.
  intros [Hp1 Hp2] [Hq1 Hq2]. unfold plan_app. rewrite Hp1. cbn.
  split; [exact Hq1|]. apply Forall_app. auto.
Qed.

Lemma plan_rows_good (P : nat * list value -> Prop) (rows_ : list (list value))
    (each : list value -> plan) :
  (forall line, line ∈ rows_ -> failure (each line) = None /\ Forall P (lines (each line))) ->
  failure (plan_rows rows_ each) = None /\ Forall P (lines (plan_rows rows_ each)).
Proof.
  induction rows_ as [|line rows_ IH]; intros H; cbn [plan_rows].
  - split; [reflexivity|constructor].
  - apply plan_app_good; [apply H, list_elem_of_here|].
    apply IH. intros l Hl. apply H, list_elem_of_further, Hl.
Qed.

Section Walk.

Variable header_ : list string.
Variable data_dict : list (string * DataFrame).

(** A line that [write_line] can write: a row of the width of the frame of
    its level, whose columns are in the header. *)
Local Abbreviation good_line := (fun l : nat * list value =>
  exists name df, data_dict !! l.1 = Some (name, df)
                  /\ length l.2 = length (columns df)
                  /\ forall c, c ∈ columns df -> c ∈ header_).

Lemma post_order_walkable (remaining : list (string * DataFrame)) :
  forall (position : nat) (path : list (string * value)) (ancestors : list string),
    walkable header_ ancestors remaining = true ->
    (forall k, k ∈ path.*1 -> k ∈ ancestors) ->
    drop position data_dict = remaining ->
    failure (post_order remaining position path) = None
    /\ Forall good_line (lines (post_order remaining position path)).
Proof.
  induction remaining as [|[name df] deeper IH]; intros position path ancestors Hwalk Hpath Hdrop.
  { split; [reflexivity|constructor]. }
  cbn [walkable] in Hwalk.
  apply andb_prop in Hwalk as [Hwalk Hdeeper].
  apply andb_prop in Hwalk as [Hwalk Hhead].
  apply andb_prop in Hwalk as [Hwalk Hown].
  apply andb_prop in Hwalk as [Hrect Hanc].
  assert (Hlevel : data_dict !! position = Some (name, df)).
  { rewrite <- (Nat.add_0_r position), <- lookup_drop, Hdrop. reflexivity. }
  assert (Hnext : drop (S position) data_dict = deeper).
  { rewrite (drop_S _ _ _ Hlevel) in Hdrop. congruence. }
  assert (Hcols : forall c, c ∈ columns df -> c ∈ header_).
  { intros c Hc. rewrite forallb_forall in Hhead.
    apply list_elem_of_In in Hc. apply Hhead in Hc. apply bool_decide_eq_true in Hc. exact Hc. }
  assert (Hancestors : forall a, a ∈ ancestors -> a ∈ columns df).
  { intros a Ha. rewrite forallb_forall in Hanc.
    apply list_elem_of_In in Ha. apply Hanc in Ha. apply bool_decide_eq_true in Ha. exact Ha. }
  assert (Hwidth : forall line, line ∈ rows df -> length line = length (columns df)).
  { intros line Hl. unfold rectangular in Hrect. rewrite forallb_forall in Hrect.
    apply list_elem_of_In in Hl. apply Hrect in Hl. apply Nat.eqb_eq in Hl. exact Hl. }
  assert (Hfiltered : exists data_, filtered df path = Ok data_
                                    /\ columns data_ = columns df
                                    /\ forall line, line ∈ rows data_ -> line ∈ rows df).
  { unfold filtered. destruct path as [|kv path]; [exists df; auto|].
    unfold query. rewrite find_all_false.
    - eexists. split; [reflexivity|]. split; [reflexivity|]. cbn [rows].
      intros line Hl. apply list_elem_of_In in Hl. apply filter_In in Hl as [Hl _].
      apply list_elem_of_In. exact Hl.
    - intros x Hx. apply negb_false_iff, bool_decide_eq_true.
      destruct (index_of_elem x.1 (columns df)) as (i & Hi & _); [|rewrite Hi; eauto].
      apply Hancestors, Hpath. apply list_elem_of_fmap. exists x. auto. }
  destruct Hfiltered as (data_ & Hf & Hc & Hr).
  cbn [post_order]. rewrite Hf.
  apply plan_rows_good. intros line Hline.
  assert (Hlen : length line = length (columns df)) by (apply Hwidth, Hr, Hline).
  assert (Hthis : failure (plan_line position line) = None
                  /\ Forall good_line (lines (plan_line position line))).
  { split; [reflexivity|]. cbn. constructor; [|constructor].
    exists name, df. auto. }
  destruct deeper as [|next deeper]; [exact Hthis|].
  unfold key_of. rewrite Hc.
  destruct (index_of_elem name (columns df)) as (i & Hi & Hlt).
  { apply bool_decide_eq_true in Hown. exact Hown. }
  rewrite Hi.
  destruct (lookup_lt_is_Some_2 line i ltac:(lia)) as [v Hv]. rewrite Hv.
  apply plan_app_good; [|exact Hthis].
  apply (IH (S position) (path ++ [(name, v)]) (ancestors ++ [name])).
  - exact Hdeeper.
  - intros k Hk. rewrite fmap_app in Hk. apply elem_of_app in Hk as [Hk|Hk].
    + apply elem_of_app. left. apply Hpath, Hk.
    + apply elem_of_app. right. exact Hk.
  - exact Hnext.
Qed.

End Walk.

Section Written.

Variable py_eval : string -> scope -> result bool.
Variable t1 : CollapsibleTable.
Variable data_dict : list (string * DataFrame).
Hypothesis keys_nodup : NoDup data_dict.*1.

Local Abbreviation Inv := (fun t : CollapsibleTable => settings t = settings t1 /\ unformatted t).

Lemma returns_lines (ls : list (nat * list value)) :
  Forall (fun l : nat * list value =>
            exists name df, data_dict !! l.1 = Some (name, df)
                            /\ length l.2 = length (columns df)
                            /\ forall c, c ∈ columns df -> c ∈ header t1) ls ->
  returns Inv (fun _ => True)
    (for_each ls (fun l => write_level_line py_eval data_dict l.1 l.2)).
Proof.
  intros Hls. apply returns_for_each. intros [position line] Hl.
  rewrite Forall_forall in Hls. destruct (Hls _ Hl) as (name & df & Hlevel & Hlen & Hcols).
  cbn [fst snd] in *. unfold write_level_line, level_frame.
  assert (Hk : data_dict.*1 !! position = Some name)
    by (rewrite list_lookup_fmap, Hlevel; reflexivity).
  rewrite Hk, (dict_get_lookup _ _ _ _ keys_nodup Hlevel).
  intros w Hw. unfold bind, lift. cbn [or_raise ret].
  apply (returns_write_line py_eval t1 line (columns df) position name Hcols Hlen w Hw).
Qed.

Lemma returns_looper :
  data_dict <> [] ->
  walkable (header t1) [] data_dict = true ->
  returns Inv (fun _ => True)
    (_recursive_data_looper py_eval (S (length data_dict)) data_dict 0 None None).
Proof.
  intros Hne Hwalk w Hw.
  destruct (post_order_walkable (header t1) data_dict data_dict 0 [] [] Hwalk)
    as [Hfail Hlines]; [intros k Hk; inversion Hk|reflexivity|].
  destruct (looper_traversal py_eval data_dict keys_nodup (S (length data_dict)) w
              ltac:(lia)) as [Hstate Hresult].
  assert (Hplan : traversal data_dict = post_order data_dict 0 [])
    by (unfold traversal; destruct data_dict; [congruence|reflexivity]).
  rewrite Hplan in Hstate, Hresult.
  destruct (returns_lines _ Hlines w Hw) as ([] & w' & Hrun & Hw' & _).
  assert (Hexec : exec_plan py_eval data_dict (post_order data_dict 0 []) w = (Ok tt, w')).
  { unfold exec_plan, bind. rewrite Hrun, Hfail. reflexivity. }
  rewrite Hexec in Hstate, Hresult. cbn [fst snd] in Hstate, Hresult.
  destruct (_recursive_data_looper py_eval (S (length data_dict)) data_dict 0 None None w)
    as [[f|e] w2]; cbn [fst snd] in *; [|discriminate].
  subst w2. exists f, w'. auto.
Qed.

Lemma returns_write_total_column (total_row_ : Z) (use_header : option Z) (col : string) :
  col ∈ header t1 ->
  returns Inv (fun _ => True) (write_total_column py_eval total_row_ use_header col).
Proof.
  intros Hcol. unfold write_total_column. cbv zeta.
  apply returns_get. intros t Ht.
  eapply (returns_bind _ (fun _ => True)).
  { destruct use_header; [apply returns_ret; exact Logic.I|].
    rewrite (plain_header t1 t Ht).
    destruct (index_of_elem col (header t1) Hcol) as (i & -> & _). cbn [or_raise].
    eapply (returns_bind _ (fun _ => True)); apply returns_ret || intros; try exact Logic.I.
    apply returns_ret. exact Logic.I. }
  intros _column_ _.
  assert (Hformula : returns Inv (fun _ => True) (_write_total_formula total_row_ col false)).
  { unfold _write_total_formula. apply returns_get. intros t' _.
    destruct (index_of col (header t')); [|apply returns_ret; exact Logic.I].
    destruct (total_row_values t' ≫= _); [|apply returns_ret; exact Logic.I].
    apply returns_emit. }
  eapply (returns_bind _ (fun b => b = false)).
  { apply returns_get. intros t' [_ (_ & _ & _ & _ & Ht')].
    rewrite Ht', has_key_empty. apply returns_ret. reflexivity. }
  intros b ->.
  eapply (returns_bind _ (fun b => b = false)).
  { apply returns_get. intros t' [_ (_ & _ & _ & _ & Ht')].
    rewrite Ht', has_key_empty. apply returns_ret. reflexivity. }
  intros b ->. apply Hformula.
Qed.

End Written.

Lemma returns_after_setup (py_eval : string -> scope -> result bool) (t1 : CollapsibleTable)
    (total_row_ : Z) (use_header : option Z) (use_title : option string) :
  is_Some (header_row t1) -> is_Some (title_row t1) -> hidden_columns t1 = None ->
  writable (header t1) (data t1) = true ->
  returns (fun t => settings t = settings t1 /\ unformatted t) (fun _ => True)
    (after_setup py_eval total_row_ use_header use_title).
Proof.
  intros [hr Hhr] [tr Htr] Hhidden Hwritable. unfold after_setup.
  assert (Hdata : data t1 <> [] /\ NoDup (data t1).*1 /\ walkable (header t1) [] (data t1) = true).
  { unfold writable in Hwritable. destruct (data t1) as [|level deeper]; [discriminate|].
    apply andb_prop in Hwritable as [Hnd Hwalk]. apply bool_decide_eq_true in Hnd.
    split; [discriminate|]. auto. }
  destruct Hdata as (Hne & Hnd & Hwalk).
  apply returns_get. intros t [Hs Hu].
  assert (Hfields : header_row t = header_row t1 /\ title_row t = title_row t1
                    /\ hidden_columns t = hidden_columns t1 /\ data t = data t1
                    /\ header t = header t1)
    by (unfold settings in Hs; repeat split; congruence).
  destruct Hfields as (H1 & H2 & H3 & H4 & H5).
  rewrite H1, H3, H4, H5, Hhr, Hhidden. cbn [or_raise].
  eapply (returns_bind _ (fun _ => True)); [apply returns_ret; exact Logic.I|]. intros row _.
  eapply (returns_bind _ (fun _ => True)).
  { destruct (freeze_panes t) as [[n|r c]|];
      [apply returns_emit|apply returns_emit|apply returns_ret; exact Logic.I]. }
  intros _ _.
  eapply (returns_bind _ (fun _ => True)).
  { unfold write_title. apply returns_get. intros t' [Hs' _].
    destruct use_title as [text|]; [|apply returns_ret; exact Logic.I].
    assert (Ht' : title_row t' = Some tr) by (unfold settings in Hs'; congruence).
    rewrite Ht'. cbn [or_raise].
    eapply (returns_bind _ (fun _ => True)); [apply returns_ret; exact Logic.I|]. intros row' _.
    cbv zeta.
    repeat match goal with
           | |- returns _ _ (if ?b then _ else _) => destruct b
           end; apply returns_emit || (apply returns_ret; exact Logic.I). }
  intros _ _.
  eapply (returns_bind _ (fun _ => True)).
  { unfold write_header. apply returns_get. intros t' [Hs' _].
    destruct use_header as [h|]; [|apply returns_ret; exact Logic.I].
    assert (Ht' : header_row t' = Some hr) by (unfold settings in Hs'; congruence).
    rewrite Ht'. cbn [or_raise].
    eapply (returns_bind _ (fun _ => True)); [apply returns_ret; exact Logic.I|]. intros row' _.
    eapply (returns_bind _ (fun _ => True)); [|intros; apply returns_emit].
    apply returns_for_each. intros a_name _.
    eapply (returns_bind _ (fun _ => True)); [apply returns_emit|]. intros _ _.
    destruct (header_comments t' !! a_name.2); [apply returns_emit|apply returns_ret; exact Logic.I]. }
  intros _ _.
  eapply (returns_bind _ (fun _ => True)).
  { eapply returns_weaken; [|apply (returns_looper py_eval t1 (data t1) Hnd Hne Hwalk)]. auto. }
  intros _ _.
  eapply (returns_bind _ (fun _ => True)).
  { apply returns_for_each. intros col Hcol. apply returns_write_total_column. exact Hcol. }
  intros _ _. apply returns_ret. exact Logic.I.
Qed.

Lemma init_unformatted (header_ : list string) (data_ : list (string * DataFrame))
    (title_ : option string) (data_properties_ : option (gmap string props))
    (start_col_ : Z) (title_row_ header_row_ : option Z) (data_row_ : Z)
    (total_row_ : string) (freeze_panes_ : option freeze) (title_align_ : string)
    (header_comments_ : gmap string string) :
  unformatted (CollapsibleTable_methods.init header_ data_ title_ data_properties_ start_col_
                 title_row_ header_row_ data_row_ total_row_ freeze_panes_ title_align_
                 header_comments_).
Proof.
  unfold unformatted. cbn.
  repeat split; try reflexivity; intros *; rewrite lookup_empty; discriminate.
Qed.

Lemma filled_ready (t : CollapsibleTable) :
  is_Some (header_row (filled t)) /\ is_Some (title_row (filled t))
  /\ hidden_columns (filled t) = hidden_columns t /\ header (filled t) = header t
  /\ data (filled t) = data t /\ (unformatted t -> unformatted (filled t)).
Proof.
  unfold filled.
  destruct (header_row t) as [hr|] eqn:Hh; destruct (title_row t) as [tr|] eqn:Ht;
    repeat case_bool_decide; cbn [title_row set_header_row] in *; try congruence;
    cbn [header_row title_row hidden_columns header data set_header_row set_title_row];
    rewrite ?Hh, ?Ht;
    (split; [eauto|]); (split; [eauto|]); (split; [reflexivity|]); (split; [reflexivity|]);
    (split; [reflexivity|]); intros Hu; exact Hu.
Qed.

Lemma moved_down_ready (t : CollapsibleTable) :
  is_Some (header_row (moved_down t)) /\ is_Some (title_row (moved_down t))
  /\ hidden_columns (moved_down t) = hidden_columns t /\ header (moved_down t) = header t
  /\ data (moved_down t) = data t /\ (unformatted t -> unformatted (moved_down t)).
Proof.
  destruct (filled_ready t) as (H1 & H2 & H3 & H4 & H5 & H6).
  unfold moved_down.
  cbn [header_row title_row hidden_columns header data set_header_row set_data_row
       set_total_row].
  split; [eauto|]. split; [exact H2|]. split; [exact H3|]. split; [exact H4|].
  split; [exact H5|]. intros Hu. exact (H6 Hu).
Qed.

(** X21. A table as [CollapsibleTable(...)] makes it, on which nothing has
    been registered, whose [total_row] is ['top'] or ['bottom'] in any case
    of the letters, whose data can be written (at least one level, level
    names that differ, frames whose rows have one value per column, each
    frame with a column for every level above it and, unless it is the
    last, for its own level, and with columns of the header only) and is
    keyed by text (plain names for the levels and the columns that the
    query names, plain texts in the key columns, so that the query is the
    comparison it shows) is written: [add_collapsible_table] returns,
    without an exception and whatever [eval] would do, and leaves the table
    without formats, links or dropdowns. *)
Theorem X21_fresh_writable_table_is_written :
  forall (py_eval : string -> scope -> result bool) (header_ : list string)
    (data_ : list (string * DataFrame)) (title_ : option string)
    (data_properties_ : option (gmap string props)) (start_col_ : Z)
    (title_row_ header_row_ : option Z) (data_row_ : Z) (total_row_ : string)
    (freeze_panes_ : option freeze) (title_align_ : string)
    (header_comments_ : gmap string string) (sheet : list event),
    String.eqb (Py.lower total_row_) "top" || String.eqb (Py.lower total_row_) "bottom" = true ->
    writable header_ data_ = true ->
    text_keyed data_ = true ->
    let t := CollapsibleTable_methods.init header_ data_ title_ data_properties_ start_col_
               title_row_ header_row_ data_row_ total_row_ freeze_panes_ title_align_
               header_comments_ in
    exists w', render py_eval {| table := t; calls := sheet |} = (Ok tt, w')
               /\ unformatted (table w').
Proof.
  intros py_eval header_ data_ title_ data_properties_ start_col_ title_row_ header_row_
    data_row_ total_row_ freeze_panes_ title_align_ header_comments_ sheet Htotal Hwritable _ t.
  pose proof (init_unformatted header_ data_ title_ data_properties_ start_col_ title_row_
                header_row_ data_row_ total_row_ freeze_panes_ title_align_ header_comments_)
    as Hu. fold t in Hu.
  rewrite (render_run py_eval {| table := t; calls := sheet |} total_row_ eq_refl).
  cbn [table calls]. cbv zeta.
  destruct (String.eqb (Py.lower total_row_) "top").
  - destruct (moved_down_ready t) as (H1 & H2 & H3 & H4 & H5 & H6).
    destruct (returns_after_setup py_eval (moved_down t) (header_row_of t) (header_row t)
                (title t) H1 H2 H3 ltac:(rewrite H4, H5; exact Hwritable)
                {| table := moved_down t; calls := sheet |} (conj eq_refl (H6 Hu)))
      as ([] & w' & Hrun & [_ Hw'] & _).
    exists w'. auto.
  - cbn [orb] in Htotal. rewrite Htotal.
    destruct (filled_ready t) as (H1 & H2 & H3 & H4 & H5 & H6).
    destruct (returns_after_setup py_eval (filled t) (Z.of_nat (length (data t)) + data_row t)
                (header_row t) (title t) H1 H2 H3 ltac:(rewrite H4, H5; exact Hwritable)
                {| table := filled t; calls := sheet |} (conj eq_refl (H6 Hu)))
      as ([] & w' & Hrun & [_ Hw'] & _).
    exists w'. auto.
Qed.

Lemma X21_witness :
  exists w',
    render Sample.literal_eval
      {| table := CollapsibleTable_methods.init Sample.header_ Sample.data_ None None 0
                    (Some 1) (Some 1) 2 "Bottom" None "center" ∅;
         calls := [] |} = (Ok tt, w')
    /\ unformatted (table w').
Proof.
  apply (X21_fresh_writable_table_is_written Sample.literal_eval Sample.header_ Sample.data_
           None None 0 (Some 1) (Some 1) 2 "Bottom" None "center" ∅ []).
  - reflexivity.
  - vm_compute. reflexivity.
  - vm_compute. reflexivity.
Defined.

(** ** The layout of the flat table *)

Lemma no_results_one_row (df : DataFrame) : length (rows (Flat.no_results df)) = 1%nat.
Proof. reflexivity. Qed.

Lemma empty_false_rows (df : DataFrame) :
  Flat.empty df = false -> (1 <= length (rows df))%nat.
Proof. unfold Flat.empty. destruct (rows df); [discriminate|]. cbn. lia. Qed.

Lemma empty_true_rows (df : DataFrame) :
  Flat.empty df = true ->
  (0 <? length (columns df))%nat || (length (rows df) =? 0)%nat = true ->
  length (rows df) = 0%nat.
Proof.
  unfold Flat.empty. destruct (rows df) as [|line rest]; [reflexivity|].
  destruct (columns df); [|discriminate]. cbn. discriminate.
Qed.

Lemma dimensions_eq (a b c d a' b' c' d' : Z) :
  a = a' -> b = b' -> c = c' -> d = d' -> (a, b, c, d) = (a', b', c', d').
Proof. congruence. Qed.

Lemma prepare_twice (t : Flat.Table) (z : Z) :
  Flat.total_row t = TotalInt z ->
  (Flat.prepare t).1 = Raise (AttributeError "'int' object has no attribute 'lower'").
Proof.
  intros Hz. unfold Flat.prepare.
  destruct (Flat.empty (Flat.data t)); cbn [Flat.total_row Flat.set_data Flat.set_end_data_row];
    rewrite Hz; reflexivity.
Qed.

(** X22. The layout of [add_table]. For a table made by [Table(...)]
    whose data has a column, or has no row, when the setup of [add_table]
    returns: the data written has at least one row, the data given or, when
    that was empty, the single row of ['No Results']; the range that
    [_get_table_dimensions] gives ends on the row of the last data row,
    [data_row] + the number of rows - 1, and on the last column of the
    header; with ['top'] the total row is the header row as it was
    ([data_row] when it was [None]), the header and the data move one row
    down, and a second [add_table] with the same table raises
    [AttributeError]; with ['bottom'] the total row is the row below the
    last data row. *)
Theorem X22_table_range_and_total_row :
  forall (name_ : string) (data_ : DataFrame) (start_col_ : Z)
    (title_row_ header_row_ : option Z) (data_row_ : Z) (total_row_ : string)
    (cell_total : Z) (use_header : option Z) (t' : Flat.Table),
    (0 <? length (columns data_))%nat || (length (rows data_) =? 0)%nat = true ->
    Flat.prepare (Flat.init name_ data_ start_col_ title_row_ header_row_ data_row_ total_row_)
    = (Ok (cell_total, use_header), t') ->
    let n := Z.of_nat (length (rows (Flat.data t'))) in
    1 <= n
    /\ (Flat.empty data_ = false -> Flat.data t' = data_)
    /\ Flat._get_table_dimensions t'
       = (Flat.data_row t', start_col_, Flat.data_row t' + n - 1,
          Z.of_nat (length (columns data_)) - 1 + start_col_)
    /\ use_header = header_row_
    /\ (String.eqb (Py.lower total_row_) "top" = true ->
        cell_total = default data_row_ header_row_
        /\ Flat.header_row t' = Some (cell_total + 1)
        /\ Flat.data_row t' = data_row_ + 1
        /\ (Flat.prepare t').1 = Raise (AttributeError "'int' object has no attribute 'lower'"))
    /\ (String.eqb (Py.lower total_row_) "top" = false ->
        cell_total = Flat.end_data_row t' + 1
        /\ Flat.header_row t' = Some (default data_row_ header_row_)
        /\ Flat.data_row t' = data_row_).
Proof.
  intros name_ data_ start_col_ title_row_ header_row_ data_row_ total_row_ cell_total
    use_header t' Hshape Hrun n. subst n.
  enough (H : 1 <= Z.of_nat (length (rows (Flat.data t')))
              /\ (Flat.empty data_ = false -> Flat.data t' = data_)
              /\ Flat._get_table_dimensions t'
                 = (Flat.data_row t', start_col_,
                    Flat.data_row t' + Z.of_nat (length (rows (Flat.data t'))) - 1,
                    Z.of_nat (length (columns data_)) - 1 + start_col_)
              /\ use_header = header_row_
              /\ (String.eqb (Py.lower total_row_) "top" = true ->
                  cell_total = default data_row_ header_row_
                  /\ Flat.header_row t' = Some (cell_total + 1)
                  /\ Flat.data_row t' = data_row_ + 1
                  /\ Flat.total_row t' = TotalInt cell_total)
              /\ (String.eqb (Py.lower total_row_) "top" = false ->
                  cell_total = Flat.end_data_row t' + 1
                  /\ Flat.header_row t' = Some (default data_row_ header_row_)
                  /\ Flat.data_row t' = data_row_)).
  { destruct H as (H1 & H2 & H3 & H4 & H5 & H6).
    repeat (split; [assumption|]). split; [|exact H6].
    intros Htop. destruct (H5 Htop) as (Ha & Hb & Hc & Hd).
    repeat (split; [assumption|]). apply (prepare_twice t' cell_total Hd). }
  revert Hrun. unfold Flat.prepare, Flat.init.
  cbn [Flat.data Flat.total_row Flat.header_row Flat.title_row Flat.data_row Flat.end_data_row
       Flat.set_data Flat.set_end_data_row].
  pose proof (empty_false_rows data_) as Hfull.
  pose proof (empty_true_rows data_) as Hnone.
  destruct (Flat.empty data_) eqn:Hempty;
    cbn [Flat.data Flat.total_row Flat.header_row Flat.title_row Flat.data_row
         Flat.end_data_row Flat.set_data Flat.set_end_data_row];
    [specialize (Hnone eq_refl Hshape); clear Hfull|specialize (Hfull eq_refl); clear Hnone];
    destruct header_row_ as [hr|]; destruct title_row_ as [tr|];
    repeat case_bool_decide; try congruence;
    cbn [Flat.data Flat.total_row Flat.header_row Flat.title_row Flat.data_row
         Flat.end_data_row Flat.set_data Flat.set_end_data_row Flat.set_header_row
         Flat.set_title_row] in *; try congruence;
    (destruct (String.eqb (Py.lower total_row_) "top") eqn:Etop;
     [|destruct (String.eqb (Py.lower total_row_) "bottom") eqn:Ebot; [|discriminate]]);
    intros [= <- <- <-];
    cbn [Flat.data Flat.total_row Flat.header_row Flat.title_row Flat.data_row
         Flat.end_data_row Flat.start_col Flat.end_col Flat.set_data Flat.set_end_data_row
         Flat.set_header_row Flat.set_title_row Flat.set_data_row Flat.set_total_row
         default rows Flat.no_results length];
    unfold Flat._get_table_dimensions, id;
    cbn [Flat.data Flat.total_row Flat.header_row Flat.title_row Flat.data_row
         Flat.end_data_row Flat.start_col Flat.end_col Flat.set_data Flat.set_end_data_row
         Flat.set_header_row Flat.set_title_row Flat.set_data_row Flat.set_total_row];
    (split; [lia|]); (split; [intros; congruence || reflexivity|]);
    (split; [apply dimensions_eq; lia|]); (split; [reflexivity|]);
    (split; intros Hcase; try discriminate Hcase; repeat split; try reflexivity; try lia).
Qed.

Lemma X22_witness :
  let run := Flat.prepare (Flat.init "T" {| columns := ["a"; "b"]; rows := [] |} 0 (Some 1)
                             (Some 1) 2 "bottom") in
  let n := Z.of_nat (length (rows (Flat.data run.2))) in
  1 <= n
  /\ Flat._get_table_dimensions run.2 = (Flat.data_row run.2, 0, Flat.data_row run.2 + n - 1,
                                          Z.of_nat 2 - 1 + 0)
  /\ 3 = Flat.end_data_row run.2 + 1.
Proof.
  intros run n.
  destruct (X22_table_range_and_total_row "T" {| columns := ["a"; "b"]%string; rows := [] |} 0
              (Some 1) (Some 1) 2 "bottom" 3 (Some 1) run.2 eq_refl eq_refl)
    as (H1 & _ & H3 & _ & _ & H6).
  split; [exact H1|]. split; [exact H3|]. exact (proj1 (H6 eq_refl)).
Defined.
